(** * A shallow embedding of [handler.py]

    The serverless handler drives a local ComfyUI server: it supervises the
    server process, loads and parameterises a workflow graph, queues it, polls
    for completion, collects the produced files and delivers them (remote
    upload, inline base64, or a size error).

    Python values that flow through the handler are JSON documents; they are
    modelled by the type [json] together with the handful of Python
    operations the source applies to them ([in], [.get], subscripting,
    iteration, truthiness), each with the exception Python raises on a value
    of the wrong type.  Dictionaries keep insertion order, so they are
    association lists.  Everything the handler observes from outside (HTTP
    answers, the subprocess, the file system, the clock) comes from an
    environment record [Env]; the mutable part of the program (the two module
    globals and the clock) is the record [World], threaded by a state and
    exception monad [M]. *)

From Stdlib Require Import List String Ascii Bool Arith ZArith NArith Lia.
From Stdlib Require Import DecimalString DecimalNat DecimalFacts.
Import ListNotations.
Open Scope string_scope.

(** ** Exceptions and results *)

Inductive exn_class : Type :=
| ValueError
| FileNotFoundError
| IsADirectoryError
| RuntimeError
| TimeoutError
| TypeError
| KeyError
| AttributeError
| LibraryError        (* raised inside requests, boto3, json or subprocess *)
| FuelExhausted.      (* artefact of the bounded polling loop, shown unreachable *)

(** An exception with the text [str(e)] gives for it. *)
Record exn : Type := Exn { exn_cls : exn_class; exn_msg : string }.

Inductive result (A : Type) : Type :=
| Ok (a : A)
| Err (e : exn).
Arguments Ok {A} a.
Arguments Err {A} e.

Module Res.
Definition bind {A B} (r : result A) (f : A -> result B) : result B :=
  match r with
  | Ok a => f a
  | Err e => Err e
  end.

Fixpoint mapM {A B} (f : A -> result B) (l : list A) : result (list B) :=
  match l with
  | [] => Ok []
  | x :: l' =>
      bind (f x) (fun y => bind (mapM f l') (fun ys => Ok (y :: ys)))
  end.
End Res.

Declare Scope res_scope.
Delimit Scope res_scope with res.
Notation "x <- m ;; k" := (Res.bind m (fun x => k))
  (at level 61, m at next level, right associativity) : res_scope.

(** ** JSON values and Python dictionaries *)

#[local] Set Warnings "-register-all".

Inductive json : Type :=
| JNull
| JBool (b : bool)
| JInt (z : Z)
| JStr (s : string)
| JList (l : list json)
| JObj (d : list (string * json)).

Section Dict.
Context {V : Type}.

Fixpoint dict_get (k : string) (d : list (string * V)) : option V :=
  match d with
  | [] => None
  | (k', v) :: d' => if String.eqb k k' then Some v else dict_get k d'
  end.

Definition dict_has (k : string) (d : list (string * V)) : bool :=
  match dict_get k d with
  | Some _ => true
  | None => false
  end.

(** [d[k] = v]: an existing key keeps its position, a new one goes last. *)
Fixpoint dict_set (k : string) (v : V) (d : list (string * V))
  : list (string * V) :=
  match d with
  | [] => [(k, v)]
  | (k', v') :: d' =>
      if String.eqb k k' then (k', v) :: d' else (k', v') :: dict_set k v d'
  end.

Definition dict_keys (d : list (string * V)) : list string := map fst d.
End Dict.

Definition dict : Type := list (string * json).

(** ** String helpers *)

Definition nat_str (n : nat) : string :=
  NilZero.string_of_uint (Nat.to_uint n).

Definition N_str (n : N) : string :=
  NilZero.string_of_uint (N.to_uint n).

Definition Z_str (z : Z) : string :=
  NilZero.string_of_int (Z.to_int z).

(** [needle in hay] on two strings. *)
Fixpoint str_contains (needle hay : string) : bool :=
  if String.prefix needle hay then true
  else match hay with
       | EmptyString => false
       | String _ hay' => str_contains needle hay'
       end.

(** [sep.join(l)] *)
Fixpoint str_join (sep : string) (l : list string) : string :=
  match l with
  | [] => EmptyString
  | [x] => x
  | x :: l' => x ++ sep ++ str_join sep l'
  end.

Definition str_startswith (pre s : string) : bool := String.prefix pre s.

Fixpoint str_endswith_char (c : ascii) (s : string) : bool :=
  match s with
  | EmptyString => false
  | String c' EmptyString => Ascii.eqb c c'
  | String _ s' => str_endswith_char c s'
  end.

(** [s[:-1]] *)
Fixpoint str_drop_last (s : string) : string :=
  match s with
  | EmptyString => EmptyString
  | String _ EmptyString => EmptyString
  | String c s' => String c (str_drop_last s')
  end.

(** [s[1:]] *)
Definition str_tail (s : string) : string :=
  match s with
  | EmptyString => EmptyString
  | String _ s' => s'
  end.

Fixpoint str_chars (s : string) : list string :=
  match s with
  | EmptyString => []
  | String c s' => String c EmptyString :: str_chars s'
  end.

Definition str_in (s : string) (l : list string) : bool :=
  existsb (String.eqb s) l.

(** ** [os.path] on POSIX paths *)

Definition slash : ascii := "/"%char.
Definition dot : ascii := "."%char.

Definition os_path_join (a b : string) : string :=
  if str_startswith "/" b then b
  else if (match a with EmptyString => true | _ => false end)
          || str_endswith_char slash a
       then a ++ b
       else a ++ "/" ++ b.

(** [p[p.rfind('/') + 1:]] *)
Fixpoint os_path_basename (p : string) : string :=
  match p with
  | EmptyString => EmptyString
  | String c p' =>
      if str_contains "/" p' then os_path_basename p'
      else if Ascii.eqb c slash then p' else p
  end.

(** Splits a file name at its last dot: the part before it and the part from
    the dot on. *)
Fixpoint split_last_dot (b : string) : option (string * string) :=
  match b with
  | EmptyString => None
  | String c b' =>
      match split_last_dot b' with
      | Some (pre, suf) => Some (String c pre, suf)
      | None => if Ascii.eqb c dot then Some (EmptyString, b) else None
      end
  end.

Fixpoint all_dots (s : string) : bool :=
  match s with
  | EmptyString => true
  | String c s' => Ascii.eqb c dot && all_dots s'
  end.

(** [os.path.splitext(p)[1]]: the last dot of the last component starts the
    extension unless only dots come before it. *)
Definition splitext_ext (p : string) : string :=
  match split_last_dot (os_path_basename p) with
  | Some (pre, suf) => if all_dots pre then EmptyString else suf
  | None => EmptyString
  end.

(** ** [base64.b64encode] *)

Definition b64_alphabet : string :=
  "ABCDEFGHIJKLMNOPQRSTUVWXYZabcdefghijklmnopqrstuvwxyz0123456789+/".

Definition b64_char (n : N) : ascii :=
  match String.get (N.to_nat n) b64_alphabet with
  | Some c => c
  | None => "="%char
  end.

Fixpoint b64encode (s : string) : string :=
  match s with
  | EmptyString => EmptyString
  | String a EmptyString =>
      let n := (N_of_ascii a * 65536)%N in
      String (b64_char (n / 262144))
        (String (b64_char ((n / 4096) mod 64)) "==")
  | String a (String b EmptyString) =>
      let n := (N_of_ascii a * 65536 + N_of_ascii b * 256)%N in
      String (b64_char (n / 262144))
        (String (b64_char ((n / 4096) mod 64))
           (String (b64_char ((n / 64) mod 64)) "="))
  | String a (String b (String c rest)) =>
      let n := (N_of_ascii a * 65536 + N_of_ascii b * 256 + N_of_ascii c)%N in
      String (b64_char (n / 262144))
        (String (b64_char ((n / 4096) mod 64))
           (String (b64_char ((n / 64) mod 64))
              (String (b64_char (n mod 64)) (b64encode rest))))
  end.

(** ** The Python operations the handler applies to JSON values *)

Definition py_type_name (x : json) : string :=
  match x with
  | JNull => "NoneType"
  | JBool _ => "bool"
  | JInt _ => "int"
  | JStr _ => "str"
  | JList _ => "list"
  | JObj _ => "dict"
  end.

(** [bool(x)] *)
Definition py_truthy (x : json) : bool :=
  match x with
  | JNull => false
  | JBool b => b
  | JInt z => negb (Z.eqb z 0)
  | JStr s => negb (String.eqb s EmptyString)
  | JList l => match l with [] => false | _ => true end
  | JObj d => match d with [] => false | _ => true end
  end.

(** [x == s] for a string literal [s] *)
Definition json_eq_str (x : json) (s : string) : bool :=
  match x with
  | JStr s' => String.eqb s' s
  | _ => false
  end.

Definition attribute_error (x : json) (attr : string) : exn :=
  Exn AttributeError
    ("'" ++ py_type_name x ++ "' object has no attribute '" ++ attr ++ "'").

(** [x.get(k, default)] *)
Definition py_get (x : json) (k : string) (default : json) : result json :=
  match x with
  | JObj d => Ok (match dict_get k d with Some v => v | None => default end)
  | _ => Err (attribute_error x "get")
  end.

(** [x.items()] *)
Definition py_items (x : json) : result (list (string * json)) :=
  match x with
  | JObj d => Ok d
  | _ => Err (attribute_error x "items")
  end.

(** [k in x] for a string [k] *)
Definition py_contains (k : string) (x : json) : result bool :=
  match x with
  | JObj d => Ok (dict_has k d)
  | JList l => Ok (existsb (fun y => json_eq_str y k) l)
  | JStr s => Ok (str_contains k s)
  | _ => Err (Exn TypeError
                ("argument of type '" ++ py_type_name x ++ "' is not iterable"))
  end.

(** [x[k]] for a string [k] *)
Definition py_getitem (x : json) (k : string) : result json :=
  match x with
  | JObj d =>
      match dict_get k d with
      | Some v => Ok v
      | None => Err (Exn KeyError ("'" ++ k ++ "'"))
      end
  | JList _ => Err (Exn TypeError "list indices must be integers or slices, not str")
  | JStr _ => Err (Exn TypeError "string indices must be integers")
  | _ => Err (Exn TypeError
                ("'" ++ py_type_name x ++ "' object is not subscriptable"))
  end.

(** [x[k] = v] for a string [k]; the updated container is returned. *)
Definition py_setitem (x : json) (k : string) (v : json) : result json :=
  match x with
  | JObj d => Ok (JObj (dict_set k v d))
  | JList _ => Err (Exn TypeError "list indices must be integers or slices, not str")
  | _ => Err (Exn TypeError
                ("'" ++ py_type_name x
                 ++ "' object does not support item assignment"))
  end.

(** [for y in x] *)
Definition py_iter (x : json) : result (list json) :=
  match x with
  | JList l => Ok l
  | JObj d => Ok (map JStr (dict_keys d))
  | JStr s => Ok (map JStr (str_chars s))
  | _ => Err (Exn TypeError
                ("'" ++ py_type_name x ++ "' object is not iterable"))
  end.

(** ** The environment *)

(** What a path names on disk. [os.path.exists] holds for both kinds,
    [os.path.getsize] is the content length of a regular file and the
    [st_size] of a directory, and only a regular file can be opened for
    reading. *)
Inductive fentry : Type :=
| File (content : string)
| Dir (st_size : N).

(** Everything outside the Python process.  Calls that leave the process
    (HTTP requests, subprocess operations, uploads) are numbered in the order
    they are made; the number of the call is the first argument of its
    oracle, so an oracle may answer differently each time.  The file system
    is the one the invocation observes once the job is done; the handler
    is the only writer while it collects and delivers. *)
Record Env : Type := {
  (* seconds spent inside the n-th external call *)
  latency : nat -> nat;
  (* subprocess.Popen: the new process, or the OSError it raises *)
  popen : nat -> result nat;
  (* process.poll() is not None *)
  proc_exited : nat -> nat -> bool;
  (* process.stderr.read() *)
  proc_stderr : nat -> string;
  (* GET /system_stats: the status code, or None for a RequestException *)
  get_system_stats : nat -> option N;
  (* POST /prompt, raise_for_status and .json()["prompt_id"] *)
  post_prompt : nat -> json -> result string;
  (* GET /history/{prompt_id} and .json() *)
  get_history : nat -> string -> result json;
  (* the request and the file write of download_image: Some e when it raises *)
  fetch_image : nat -> json -> string -> option exn;
  (* boto3 client creation and upload_file(path, bucket, key) *)
  s3_upload_file : nat -> string -> string -> string -> option exn;
  fs : string -> option fentry;
  (* json.load on the content of a file *)
  json_load : string -> result json;
  (* str() of a list or a dict *)
  py_repr : json -> string;
  S3_ENDPOINT_URL : option string;
  S3_BUCKET : option string;
  S3_ACCESS_KEY_ID : option string;
  S3_SECRET_ACCESS_KEY : option string
}.

(** The mutable state: the two module globals, the wall clock in seconds and
    the number of external calls made so far. *)
Record World : Type := {
  comfyui_process : option nat;
  comfyui_ready : bool;
  clock : nat;
  calls : nat
}.

Definition initial_world : World :=
  {| comfyui_process := None; comfyui_ready := false; clock := 0; calls := 0 |}.

(** ** The state and exception monad *)

Definition M (A : Type) : Type := World -> result A * World.

Module Mon.
Definition ret {A} (a : A) : M A := fun w => (Ok a, w).

Definition raise {A} (e : exn) : M A := fun w => (Err e, w).

Definition bind {A B} (m : M A) (f : A -> M B) : M B :=
  fun w =>
    match m w with
    | (Ok a, w') => f a w'
    | (Err e, w') => (Err e, w')
    end.

Definition lift {A} (r : result A) : M A := fun w => (r, w).

(** [try: m except Exception as e: h e] *)
Definition try_except {A} (m : M A) (h : exn -> M A) : M A :=
  fun w =>
    match m w with
    | (Ok a, w') => (Ok a, w')
    | (Err e, w') => h e w'
    end.

Definition get_world : M World := fun w => (Ok w, w).

Fixpoint mapM {A B} (f : A -> M B) (l : list A) : M (list B) :=
  match l with
  | [] => ret []
  | x :: l' =>
      bind (f x) (fun y => bind (mapM f l') (fun ys => ret (y :: ys)))
  end.
End Mon.

Declare Scope mon_scope.
Delimit Scope mon_scope with mon.
Notation "x <- m ;; k" := (Mon.bind m (fun x => k))
  (at level 61, m at next level, right associativity) : mon_scope.
Notation "m ;;; k" := (Mon.bind m (fun _ => k))
  (at level 61, right associativity) : mon_scope.

(** ** The program *)

Definition WORKFLOWS_DIR : string := "/comfyui/workflows".
Definition OUTPUT_DIR : string := "/comfyui/output".

Definition AVAILABLE_WORKFLOWS : list (string * string) :=
  [ ("t2v", "t2v.json");
    ("i2v", "i2v.json");
    ("fun_camera", "fun_camera.json");
    ("vace", "vace.json") ].

Definition VIDEO_EXTS : list string := [".mp4"; ".webm"; ".avi"; ".mov"].
Definition IMAGE_EXTS : list string := [".png"; ".jpg"; ".jpeg"].

(** The default of [wait_for_completion]'s [timeout] parameter. *)
Definition DEFAULT_TIMEOUT : Z := 600.

(** [10 * 1024 * 1024] *)
Definition BASE64_LIMIT : N := 10 * 1024 * 1024.

Section Program.
Variable E : Env.

Local Open Scope mon_scope.
Import Mon.

(** *** Primitive effects *)

(** An external call: numbered, and it takes the time the environment says. *)
Definition external {A} (oracle : nat -> A) : M A :=
  fun w =>
    (Ok (oracle (calls w)),
     {| comfyui_process := comfyui_process w;
        comfyui_ready := comfyui_ready w;
        clock := clock w + latency E (calls w);
        calls := S (calls w) |}).

(** [time.sleep(n)] *)
Definition sleep (n : nat) : M unit :=
  fun w =>
    (Ok tt,
     {| comfyui_process := comfyui_process w;
        comfyui_ready := comfyui_ready w;
        clock := clock w + n;
        calls := calls w |}).

(** [time.time()], in whole seconds.  Only sleeping and external calls
    move the clock: the time the interpreter itself takes between two reads
    is not counted, so an elapsed time is the time spent sleeping and
    waiting for calls, a lower bound of the float the source computes. *)
Definition time_time : M nat := fun w => (Ok (clock w), w).

Definition set_process (p : option nat) : M unit :=
  fun w =>
    (Ok tt,
     {| comfyui_process := p;
        comfyui_ready := comfyui_ready w;
        clock := clock w;
        calls := calls w |}).

Definition set_ready (b : bool) : M unit :=
  fun w =>
    (Ok tt,
     {| comfyui_process := comfyui_process w;
        comfyui_ready := b;
        clock := clock w;
        calls := calls w |}).

(** [str(x)], as the f-strings apply it *)
Definition py_str (x : json) : string :=
  match x with
  | JNull => "None"
  | JBool true => "True"
  | JBool false => "False"
  | JInt z => Z_str z
  | JStr s => s
  | _ => py_repr E x
  end.

(** *** File system *)

Definition os_path_exists (p : string) : bool :=
  match fs E p with
  | Some _ => true
  | None => false
  end.

Definition no_such_file (p : string) : exn :=
  Exn FileNotFoundError ("[Errno 2] No such file or directory: '" ++ p ++ "'").

Definition os_path_getsize (p : string) : result N :=
  match fs E p with
  | Some (File content) => Ok (N.of_nat (String.length content))
  | Some (Dir n) => Ok n
  | None => Err (no_such_file p)
  end.

(** [open(p, mode).read()] *)
Definition read_file (p : string) : result string :=
  match fs E p with
  | Some (File content) => Ok content
  | Some (Dir _) =>
      Err (Exn IsADirectoryError ("[Errno 21] Is a directory: '" ++ p ++ "'"))
  | None => Err (no_such_file p)
  end.

(** *** Process supervisor *)

(** The readiness loop of [start_comfyui], [retries] iterations left. *)
Fixpoint wait_until_ready (retries : nat) (p : nat) : M unit :=
  match retries with
  | O => raise (Exn RuntimeError
                  "ComfyUI API server failed to start within timeout")
  | S retries' =>
      response <- external (get_system_stats E) ;;
      match response with
      | Some 200%N => set_ready true
      | _ =>
          exited <- external (proc_exited E p) ;;
          if (exited : bool) then
            raise (Exn RuntimeError
                     ("ComfyUI process died: " ++ proc_stderr E p))
          else
            sleep 2 ;;; wait_until_ready retries' p
      end
  end.

Definition spawn_and_wait : M unit :=
  started <- external (popen E) ;;
  p <- lift started ;;
  set_process (Some p) ;;;
  wait_until_ready 60 p.

Definition start_comfyui : M unit :=
  w <- get_world ;;
  match comfyui_process w with
  | Some p =>
      if comfyui_ready w then ret tt
      else
        exited <- external (proc_exited E p) ;;
        if (exited : bool) then set_process None ;;; spawn_and_wait
        else ret tt
  | None => spawn_and_wait
  end.

(** *** Workflow loader *)

Definition load_workflow (workflow_type : json) : result json :=
  match workflow_type with
  | JList _ | JObj _ =>
      Err (Exn TypeError
             ("unhashable type: '" ++ py_type_name workflow_type ++ "'"))
  | _ =>
      let entry :=
        match workflow_type with
        | JStr s => dict_get s AVAILABLE_WORKFLOWS
        | _ => None
        end in
      match entry with
      | None =>
          let available := str_join ", " (dict_keys AVAILABLE_WORKFLOWS) in
          Err (Exn ValueError
                 ("Unknown workflow_type: " ++ py_str workflow_type
                  ++ ". Available: " ++ available))
      | Some file =>
          let workflow_path := os_path_join WORKFLOWS_DIR file in
          if negb (os_path_exists workflow_path) then
            Err (Exn FileNotFoundError
                   ("Workflow file not found: " ++ workflow_path))
          else
            (content <- read_file workflow_path ;;
             json_load E content)%res
      end
  end.

(** *** Remote storage *)

Definition env_truthy (v : option string) : bool :=
  match v with
  | Some s => negb (String.eqb s EmptyString)
  | None => false
  end.

Definition s3_configured : bool :=
  env_truthy (S3_ENDPOINT_URL E) && env_truthy (S3_BUCKET E)
  && env_truthy (S3_ACCESS_KEY_ID E) && env_truthy (S3_SECRET_ACCESS_KEY E).

Definition env_value (v : option string) : string :=
  match v with
  | Some s => s
  | None => EmptyString
  end.

Definition upload_to_s3 (file_path s3_key : string) : M string :=
  if negb s3_configured then
    raise (Exn ValueError "S3 configuration is incomplete")
  else
    let endpoint := env_value (S3_ENDPOINT_URL E) in
    let bucket := env_value (S3_BUCKET E) in
    failure <- external (fun n => s3_upload_file E n file_path bucket s3_key) ;;
    match failure with
    | Some e => raise e
    | None =>
        let base_url :=
          if str_endswith_char slash endpoint then str_drop_last endpoint
          else endpoint in
        ret (base_url ++ "/" ++ bucket ++ "/" ++ s3_key)
    end.

(** *** Job client *)

Definition queue_workflow (workflow : json) : M string :=
  answer <- external (fun n => post_prompt E n workflow) ;;
  lift answer.

Definition timeout_error (prompt_id : string) (timeout : Z) : exn :=
  Exn TimeoutError
    ("Workflow " ++ prompt_id ++ " did not complete within "
     ++ Z_str timeout ++ " seconds").

(** One pass through the body of the polling loop, up to the [return]:
    the outputs when the history has them, [None] when the loop goes on. *)
Definition poll_once (prompt_id : string) : M (option json) :=
  response <- external (fun n => get_history E n prompt_id) ;;
  history <- lift response ;;
  present <- lift (py_contains prompt_id history) ;;
  if (present : bool) then
    entry <- lift (py_getitem history prompt_id) ;;
    output <- lift (py_getitem entry "outputs") ;;
    ret (if py_truthy output then Some output else None)
  else ret None.

(** The polling loop of [wait_for_completion].  Every iteration sleeps one
    second, so [timeout] iterations always suffice; [fuel] bounds them. *)
Fixpoint poll_history (fuel : nat) (prompt_id : string) (timeout : Z)
         (start_time : nat) : M json :=
  now <- time_time ;;
  if (Z.of_nat (now - start_time) <? timeout)%Z then
    match fuel with
    | O => raise (Exn FuelExhausted "poll_history")
    | S fuel' =>
        ready <- poll_once prompt_id ;;
        match ready with
        | Some output => ret output
        | None => sleep 1 ;;; poll_history fuel' prompt_id timeout start_time
        end
    end
  else raise (timeout_error prompt_id timeout).

Definition wait_for_completion (prompt_id : string) (timeout : Z) : M json :=
  start_time <- time_time ;;
  poll_history (Z.to_nat timeout) prompt_id timeout start_time.

(** *** Output collector *)

Definition type_error_join (x : json) : exn :=
  Exn TypeError
    ("join() argument must be str, bytes, or os.PathLike object, not '"
     ++ py_type_name x ++ "'").

(** The body of the loop over one media list. *)
Definition collect_info (info : json) : result (list string) :=
  (has <- py_contains "filename" info ;;
   if (has : bool) then
     name <- py_getitem info "filename" ;;
     match name with
     | JStr s =>
         let file_path := os_path_join OUTPUT_DIR s in
         Ok (if os_path_exists file_path then [file_path] else [])
     | _ => Err (type_error_join name)
     end
   else Ok [])%res.

(** [if key in node_output: for info in node_output[key]: ...] *)
Definition collect_media (key : string) (node_output : json)
  : result (list string) :=
  (has <- py_contains key node_output ;;
   if (has : bool) then
     media <- py_getitem node_output key ;;
     infos <- py_iter media ;;
     found <- Res.mapM collect_info infos ;;
     Ok (List.concat found)
   else Ok [])%res.

Definition collect_node (node_output : json) : result (list string) :=
  (images <- collect_media "images" node_output ;;
   videos <- collect_media "videos" node_output ;;
   Ok ((images ++ videos)%list))%res.

Definition get_output_files (outputs : json) : result (list string) :=
  (items <- py_items outputs ;;
   found <- Res.mapM (fun item => collect_node (snd item)) items ;;
   Ok (List.concat found))%res.

(** *** Parameter binder *)

Definition download_image (url : json) (save_path : string) : M string :=
  failure <- external (fun n => fetch_image E n url save_path) ;;
  match failure with
  | Some e => raise e
  | None => ret save_path
  end.

(** [node["inputs"][key] = value], with the node rebuilt around the
    updated inputs. *)
Definition set_input (node : json) (key : string) (value : json)
  : result json :=
  (inputs <- py_getitem node "inputs" ;;
   inputs' <- py_setitem inputs key value ;;
   py_setitem node "inputs" inputs')%res.

(** The first [if] of the loop body: text prompts. *)
Definition update_text (node params : json) : result json :=
  (class_type <- py_get node "class_type" JNull ;;
   if json_eq_str class_type "CLIPTextEncode" then
     inputs <- py_get node "inputs" (JObj []) ;;
     has_text <- py_contains "text" inputs ;;
     if (has_text : bool) then
       has_positive <- py_contains "positive_prompt" params ;;
       if (has_positive : bool) then
         value <- py_getitem params "positive_prompt" ;;
         set_input node "text" value
       else
         has_prompt <- py_contains "prompt" params ;;
         if (has_prompt : bool) then
           value <- py_getitem params "prompt" ;;
           set_input node "text" value
         else Ok node
     else Ok node
   else Ok node)%res.

(** The second [if] of the loop body: image inputs. *)
Definition update_image (node_id : string) (node params : json) : M json :=
  class_type <- lift (py_get node "class_type" JNull) ;;
  if json_eq_str class_type "LoadImage" then
    has_url <- lift (py_contains "image_url" params) ;;
    if (has_url : bool) then
      url <- lift (py_getitem params "image_url") ;;
      image_path <-
        download_image url ("/tmp/input_image_" ++ node_id ++ ".png") ;;
      lift (set_input node "image" (JStr (os_path_basename image_path)))
    else ret node
  else ret node.

Definition update_node (params : json) (item : string * json)
  : M (string * json) :=
  let (node_id, node) := item in
  node1 <- lift (update_text node params) ;;
  node2 <- update_image node_id node1 params ;;
  ret (node_id, node2).

Definition update_workflow_with_inputs (workflow params : json) : M json :=
  items <- lift (py_items workflow) ;;
  items' <- mapM (update_node params) items ;;
  ret (JObj items').

(** *** Handler *)

Definition media_type_uploaded (file_ext : string) : string :=
  if str_in file_ext VIDEO_EXTS then "video"
  else if str_in file_ext IMAGE_EXTS then "image"
  else "unknown".

Definition media_type_inline (file_ext : string) : string :=
  if str_in file_ext VIDEO_EXTS then "video" else "image".

Definition url_record (file_ext url file_path : string) : json :=
  JObj [ ("type", JStr (media_type_uploaded file_ext));
         ("url", JStr url);
         ("filename", JStr (os_path_basename file_path)) ].

Definition inline_record (file_ext file_data : string) : json :=
  JObj [ ("type", JStr (media_type_inline file_ext));
         ("data", JStr file_data);
         ("format", JStr (str_tail file_ext)) ].

Definition error_record (file_size : N) : json :=
  JObj [ ("type", JStr "error");
         ("error", JStr ("File too large for base64 encoding: "
                         ++ N_str file_size ++ " bytes")) ].

(** The [except] branch of the delivery loop. *)
Definition deliver_fallback (file_ext file_path : string) : result json :=
  (file_size <- os_path_getsize file_path ;;
   if (file_size <? BASE64_LIMIT)%N then
     content <- read_file file_path ;;
     Ok (inline_record file_ext (b64encode content))
   else Ok (error_record file_size))%res.

(** One iteration of the delivery loop. *)
Definition deliver_file (workflow_name : json) (timestamp i : nat)
           (file_path : string) : M json :=
  let file_ext := splitext_ext file_path in
  let s3_key :=
    "generated/" ++ py_str workflow_name ++ "/" ++ nat_str timestamp
    ++ "_" ++ nat_str i ++ file_ext in
  try_except
    (url <- upload_to_s3 file_path s3_key ;;
     ret (url_record file_ext url file_path))
    (fun _ => lift (deliver_fallback file_ext file_path)).

(** [for i, file_path in enumerate(output_files)], from index [i] on. *)
Fixpoint deliver_from (workflow_name : json) (timestamp i : nat)
         (files : list string) : M (list json) :=
  match files with
  | [] => ret []
  | file_path :: files' =>
      record <- deliver_file workflow_name timestamp i file_path ;;
      records <- deliver_from workflow_name timestamp (S i) files' ;;
      ret (record :: records)
  end.

Definition failed_early (message : string) : json :=
  JObj [ ("error", JStr message); ("status", JStr "FAILED") ].

Definition failed_exception (e : exn) (elapsed : nat) : json :=
  JObj [ ("error", JStr (exn_msg e));
         ("status", JStr "FAILED");
         ("execution_time", JInt (Z.of_nat elapsed)) ].

Definition completed (output_urls : list json) (workflow_name : json)
           (elapsed : nat) (prompt_id : string) : json :=
  JObj [ ("status", JStr "COMPLETED");
         ("outputs", JList output_urls);
         ("metadata",
          JObj [ ("workflow_name", workflow_name);
                 ("execution_time", JInt (Z.of_nat elapsed));
                 ("prompt_id", JStr prompt_id) ]) ].

(** The tail of the [try] block: the delivery loop and the COMPLETED
    answer. *)
Definition handler_deliver (workflow_name : json) (prompt_id : string)
           (output_files : list string) (start_time : nat) : M json :=
  timestamp <- time_time ;;
  output_urls <- deliver_from workflow_name timestamp 0 output_files ;;
  end_time <- time_time ;;
  ret (completed output_urls workflow_name (end_time - start_time) prompt_id).

(** The [try] block of [handler]. *)
Definition handler_body (event : json) (start_time : nat) : M json :=
  w <- get_world ;;
  (if comfyui_ready w then ret tt else start_comfyui) ;;;
  input_data <- lift (py_get event "input" (JObj [])) ;;
  workflow_name <- lift (py_get input_data "workflow_name" JNull) ;;
  workflow_json <- lift (py_get input_data "workflow_json" JNull) ;;
  params <- lift (py_get input_data "params" (JObj [])) ;;
  input_assets <- lift (py_get input_data "input_assets" (JList [])) ;;
  if negb (py_truthy workflow_name) && negb (py_truthy workflow_json) then
    ret (failed_early "workflow_name or workflow_json is required")
  else
    workflow <-
      (if py_truthy workflow_json then ret workflow_json
       else lift (load_workflow workflow_name)) ;;
    workflow <- update_workflow_with_inputs workflow params ;;
    prompt_id <- queue_workflow workflow ;;
    outputs <- wait_for_completion prompt_id DEFAULT_TIMEOUT ;;
    output_files <- lift (get_output_files outputs) ;;
    match output_files with
    | [] => ret (failed_early "No output files generated")
    | _ => handler_deliver workflow_name prompt_id output_files start_time
    end.

(** [handler]: the [try] block and the top-level [except Exception]. *)
Definition handler (event : json) (w : World) : json * World :=
  let start_time := clock w in
  match handler_body event start_time w with
  | (Ok answer, w') => (answer, w')
  | (Err e, w') => (failed_exception e (clock w' - start_time), w')
  end.

End Program.

Arguments external E {A} oracle w.

(** * Specification-side definitions *)

(** ** Output manifest, as the data model describes it *)

(** What one producing node lists: the file names of its image descriptors
    and of its video descriptors, each in list order. *)
Record node_media : Type := {
  image_names : list string;
  video_names : list string
}.

Definition manifest : Type := list (string * node_media).

Definition info_name (info : json) : option string :=
  match info with
  | JObj d =>
      match dict_get "filename" d with
      | Some (JStr s) => Some s
      | _ => None
      end
  | _ => None
  end.

Fixpoint info_names (infos : list json) : option (list string) :=
  match infos with
  | [] => Some []
  | info :: infos' =>
      match info_name info, info_names infos' with
      | Some s, Some names => Some (s :: names)
      | _, _ => None
      end
  end.

Definition media_names (key : string) (node : dict) : option (list string) :=
  match dict_get key node with
  | None => Some []
  | Some (JList infos) => info_names infos
  | Some _ => None
  end.

Definition node_view (node : json) : option node_media :=
  match node with
  | JObj d =>
      match media_names "images" d, media_names "videos" d with
      | Some i, Some v => Some {| image_names := i; video_names := v |}
      | _, _ => None
      end
  | _ => None
  end.

Fixpoint nodes_view (items : dict) : option manifest :=
  match items with
  | [] => Some []
  | (node_id, node) :: items' =>
      match node_view node, nodes_view items' with
      | Some n, Some m => Some ((node_id, n) :: m)
      | _, _ => None
      end
  end.

(** Reads a JSON document as a manifest: an object of node records whose
    image and video lists, where present, hold objects with a string file
    name. *)
Definition manifest_view (outputs : json) : option manifest :=
  match outputs with
  | JObj d => nodes_view d
  | _ => None
  end.

(** The paths of the output directory, among those derived from [names],
    that exist. *)
Definition existing_paths (on_disk : string -> bool) (names : list string)
  : list string :=
  filter on_disk (map (os_path_join OUTPUT_DIR) names).

(** [collect] in the words of the specification: node by node, the image
    list before the video list, every descriptor whose path exists. *)
Definition collect_spec (on_disk : string -> bool) (m : manifest)
  : list string :=
  flat_map
    (fun item =>
       (existing_paths on_disk (image_names (snd item))
        ++ existing_paths on_disk (video_names (snd item)))%list)
    m.

(** ** Time and external calls *)

(** Seconds spent inside the [k] external calls numbered from [from]. *)
Fixpoint busy (E : Env) (from k : nat) : nat :=
  match k with
  | O => 0
  | S k' => latency E from + busy E (S from) k'
  end.

(** The world after [k] more external calls and [slept] seconds of sleep. *)
Definition advance (E : Env) (w : World) (k slept : nat) : World :=
  {| comfyui_process := comfyui_process w;
     comfyui_ready := comfyui_ready w;
     clock := clock w + busy E (calls w) k + slept;
     calls := calls w + k |}.

(** Seconds on the clock since [start_time]. *)
Definition elapsed (start_time : nat) (w : World) : Z :=
  Z.of_nat (clock w - start_time).

(** ** History answers *)




(** ** Job graphs *)

Definition node_class (node : json) : option string :=
  match node with
  | JObj d =>
      match dict_get "class_type" d with
      | Some (JStr s) => Some s
      | _ => None
      end
  | _ => None
  end.

Definition node_input (key : string) (node : json) : option json :=
  match node with
  | JObj d =>
      match dict_get "inputs" d with
      | Some (JObj inputs) => dict_get key inputs
      | _ => None
      end
  | _ => None
  end.

(** [node.get("class_type") == cls] *)
Definition class_is (node : json) (cls : string) : bool :=
  match node with
  | JObj d =>
      match dict_get "class_type" d with
      | Some c => json_eq_str c cls
      | None => false
      end
  | _ => false
  end.

(** A node of the data model: a mapping with an inputs mapping. *)
Definition wf_node (node : json) : bool :=
  match node with
  | JObj d =>
      match dict_get "inputs" d with
      | Some (JObj _) => true
      | _ => false
      end
  | _ => false
  end.

Definition wf_graph (nodes : dict) : bool :=
  forallb (fun item => wf_node (snd item)) nodes.

(** The text a text-encode node ends up with, in the words of the
    specification: [positive_prompt] if present, else [prompt] if present,
    else what it had. *)
Definition bound_text (params : dict) (old : json) : json :=
  match dict_get "positive_prompt" params with
  | Some v => v
  | None =>
      match dict_get "prompt" params with
      | Some v => v
      | None => old
      end
  end.

(** What the binder may do to one node: nothing, or replace the [text] input
    of a [CLIPTextEncode] node that has one, or set the [image] input of a
    [LoadImage] node. *)
Inductive node_change (node : json) : json -> Prop :=
| node_unchanged : node_change node node
| node_text_bound (d inputs : dict) (v : json) :
    node = JObj d ->
    dict_get "class_type" d = Some (JStr "CLIPTextEncode") ->
    dict_get "inputs" d = Some (JObj inputs) ->
    dict_has "text" inputs = true ->
    node_change node
      (JObj (dict_set "inputs" (JObj (dict_set "text" v inputs)) d))
| node_image_bound (d inputs : dict) (name : string) :
    node = JObj d ->
    dict_get "class_type" d = Some (JStr "LoadImage") ->
    dict_get "inputs" d = Some (JObj inputs) ->
    node_change node
      (JObj (dict_set "inputs" (JObj (dict_set "image" (JStr name) inputs)) d)).

Definition item_change (item item' : string * json) : Prop :=
  fst item' = fst item /\ node_change (snd item) (snd item').

(** The parameter keys the binder reads. *)
Definition USED_PARAMS : list string :=
  ["positive_prompt"; "prompt"; "image_url"].

(** The parameter keys the binder never reads. *)
Definition UNUSED_PARAMS : list string :=
  ["negative_prompt"; "seed"; "steps"; "cfg"].

(** ** Delivery *)

(** The record the fallback tier produces for a regular file. *)
Definition fallback_record (file_ext content : string) : json :=
  let file_size := N.of_nat (String.length content) in
  if (file_size <? BASE64_LIMIT)%N
  then inline_record file_ext (b64encode content)
  else error_record file_size.

Definition is_regular (E : Env) (file_path : string) : bool :=
  match fs E file_path with
  | Some (File _) => true
  | _ => false
  end.

Definition s3_key_of (E : Env) (workflow_name : json) (timestamp i : nat)
           (file_path : string) : string :=
  "generated/" ++ py_str E workflow_name ++ "/" ++ nat_str timestamp
  ++ "_" ++ nat_str i ++ splitext_ext file_path.

(** The world in which the [k]-th file of a delivery starting in [w] is
    uploaded: every earlier file cost one external call when the storage is
    configured, and none when it is not. *)
Definition upload_world (E : Env) (w : World) (k : nat) : World :=
  if s3_configured E then advance E w k 0 else w.

(** The record delivery produces for a regular file with content [content],
    uploaded under [s3_key] in world [wk]. *)
Definition delivery_record (E : Env) (file_path content s3_key : string)
           (wk : World) : json :=
  match fst (upload_to_s3 E file_path s3_key wk) with
  | Ok url => url_record (splitext_ext file_path) url file_path
  | Err _ => fallback_record (splitext_ext file_path) content
  end.

(** ** A concrete deployment *)

Module Scenario.

Definition t2v_nodes : dict :=
  [ ("6", JObj [ ("class_type", JStr "CLIPTextEncode");
                 ("inputs", JObj [ ("text", JStr "placeholder");
                                   ("clip", JList [JStr "4"; JInt 1]) ]) ]);
    ("7", JObj [ ("class_type", JStr "LoadImage");
                 ("inputs", JObj [ ("image", JStr "example.png") ]) ]);
    ("9", JObj [ ("class_type", JStr "SaveImage");
                 ("inputs", JObj [ ("filename_prefix", JStr "out");
                                   ("images", JList [JStr "8"; JInt 0]) ]) ]) ].

Definition t2v_graph : json := JObj t2v_nodes.

Definition descriptor (name : string) : json :=
  JObj [ ("filename", JStr name); ("type", JStr "output") ].

Definition cat_manifest : json :=
  JObj [ ("9", JObj [ ("images", JList [descriptor "cat.png"]) ]) ].

(** The output directory holds an image, an animation, a clip and a
    directory of previews. *)
Definition disk (p : string) : option fentry :=
  if String.eqb p "/comfyui/workflows/t2v.json" then Some (File "t2v")
  else if String.eqb p "/comfyui/output/cat.png" then Some (File "meow")
  else if String.eqb p "/comfyui/output/anim.webp" then Some (File "RIFF")
  else if String.eqb p "/comfyui/output/clip.mp4" then Some (File "ftyp")
  else if String.eqb p "/comfyui/output/previews" then Some (Dir 4096)
  else None.

(** A deployment whose status endpoint answers 200 from external call
    [ready_at] on (never, for [None]) and whose history reports [outputs]
    for handle [abc] from external call [done_at] on.  [bucket] is the
    configured bucket and [upload] the outcome of every upload. *)
Definition env (bucket : option string) (upload : option exn)
           (ready_at done_at : option nat) (outputs : json) : Env :=
  {| latency := fun _ => 0;
     popen := fun _ => Ok 1;
     proc_exited := fun _ _ => false;
     proc_stderr := fun _ => "Traceback";
     get_system_stats := fun n =>
       match ready_at with
       | Some t => if Nat.ltb n t then None else Some 200%N
       | None => None
       end;
     post_prompt := fun _ _ => Ok "abc";
     get_history := fun n _ =>
       match done_at with
       | Some t =>
           if Nat.ltb n t then Ok (JObj [])
           else Ok (JObj [("abc", JObj [("outputs", outputs)])])
       | None => Ok (JObj [])
       end;
     fetch_image := fun _ _ _ => None;
     s3_upload_file := fun _ _ _ _ => upload;
     fs := disk;
     json_load := fun content =>
       if String.eqb content "t2v" then Ok t2v_graph
       else Err (Exn LibraryError "Expecting value: line 1 column 1 (char 0)");
     py_repr := fun _ => "{...}";
     S3_ENDPOINT_URL := Some "https://s3.example.com/";
     S3_BUCKET := bucket;
     S3_ACCESS_KEY_ID := Some "key";
     S3_SECRET_ACCESS_KEY := Some "secret" |}.

Definition upload_refused : exn :=
  Exn LibraryError "An error occurred (AccessDenied) when calling the PutObject operation".

(** Everything works. *)
Definition good : Env := env (Some "media") None (Some 3) (Some 8) cat_manifest.

(** The bucket is not configured. *)
Definition no_bucket (outputs : json) : Env := env None None (Some 3) (Some 8) outputs.

(** The server never answers the status request. *)
Definition never_ready : Env := env (Some "media") None None (Some 8) cat_manifest.

(** The server never reports the job. *)
Definition never_done : Env := env (Some "media") None (Some 3) None cat_manifest.

Definition media_manifest (names : list string) : json :=
  JObj [ ("9", JObj [ ("images", JList (map descriptor names)) ]) ].

Definition t2v_event : json :=
  JObj [ ("input", JObj [ ("workflow_name", JStr "t2v");
                          ("params", JObj [ ("prompt", JStr "a cat") ]) ]) ].

Definition ready_world : World :=
  {| comfyui_process := Some 1; comfyui_ready := true; clock := 100; calls := 5 |}.

End Scenario.

(** ** Invariants of an invocation *)

(** [w'] comes after [w] with the same server state: the process handle and
    the ready flag are those of [w], and neither the clock nor the count of
    external calls went back. *)
Definition same_server (w w' : World) : Prop :=
  comfyui_process w' = comfyui_process w
  /\ comfyui_ready w' = comfyui_ready w
  /\ clock w <= clock w'
  /\ calls w <= calls w'.

(** A computation that leaves the server state alone, however it ends. *)
Definition quiet {A} (m : M A) : Prop :=
  forall w, same_server w (snd (m w)).

(** The two shapes of a handler answer. *)
Definition is_completed (answer : json) : Prop :=
  exists records workflow_name elapsed prompt_id,
    answer = completed records workflow_name elapsed prompt_id.

Definition is_failed (answer : json) : Prop :=
  exists message,
    answer = failed_early message
    \/ exists elapsed,
         answer = JObj [ ("error", JStr message);
                         ("status", JStr "FAILED");
                         ("execution_time", JInt (Z.of_nat elapsed)) ].

(** A computation whose normal results all satisfy [P]. *)
Definition yields {A} (P : A -> Prop) (m : M A) : Prop :=
  forall w a w', m w = (Ok a, w') -> P a.

(** ** Events *)

(** [event.get("input", {})] on an event that is a mapping. *)
Definition input_of (event : dict) : json :=
  match dict_get "input" event with
  | Some v => v
  | None => JObj []
  end.

(** [input_data.get(key)] *)
Definition field (key : string) (input_data : dict) : json :=
  match dict_get key input_data with
  | Some v => v
  | None => JNull
  end.

(** The deployment [E] with another [json.load]. *)
Definition with_json_load (E : Env) (load : string -> result json) : Env :=
  {| latency := latency E;
     popen := popen E;
     proc_exited := proc_exited E;
     proc_stderr := proc_stderr E;
     get_system_stats := get_system_stats E;
     post_prompt := post_prompt E;
     get_history := get_history E;
     fetch_image := fetch_image E;
     s3_upload_file := s3_upload_file E;
     fs := fs E;
     json_load := load;
     py_repr := py_repr E;
     S3_ENDPOINT_URL := S3_ENDPOINT_URL E;
     S3_BUCKET := S3_BUCKET E;
     S3_ACCESS_KEY_ID := S3_ACCESS_KEY_ID E;
     S3_SECRET_ACCESS_KEY := S3_SECRET_ACCESS_KEY E |}.

(** The deployment [E] with another process table: [exited] tells whether a
    process has exited at a given external call. *)
Definition with_proc_exited (E : Env) (exited : nat -> nat -> bool) : Env :=
  {| latency := latency E;
     popen := popen E;
     proc_exited := exited;
     proc_stderr := proc_stderr E;
     get_system_stats := get_system_stats E;
     post_prompt := post_prompt E;
     get_history := get_history E;
     fetch_image := fetch_image E;
     s3_upload_file := s3_upload_file E;
     fs := fs E;
     json_load := json_load E;
     py_repr := py_repr E;
     S3_ENDPOINT_URL := S3_ENDPOINT_URL E;
     S3_BUCKET := S3_BUCKET E;
     S3_ACCESS_KEY_ID := S3_ACCESS_KEY_ID E;
     S3_SECRET_ACCESS_KEY := S3_SECRET_ACCESS_KEY E |}.

(** The deployment [E] with another history endpoint. *)
Definition with_get_history (E : Env)
           (history : nat -> string -> result json) : Env :=
  {| latency := latency E;
     popen := popen E;
     proc_exited := proc_exited E;
     proc_stderr := proc_stderr E;
     get_system_stats := get_system_stats E;
     post_prompt := post_prompt E;
     get_history := history;
     fetch_image := fetch_image E;
     s3_upload_file := s3_upload_file E;
     fs := fs E;
     json_load := json_load E;
     py_repr := py_repr E;
     S3_ENDPOINT_URL := S3_ENDPOINT_URL E;
     S3_BUCKET := S3_BUCKET E;
     S3_ACCESS_KEY_ID := S3_ACCESS_KEY_ID E;
     S3_SECRET_ACCESS_KEY := S3_SECRET_ACCESS_KEY E |}.

(** The deployment [E] with another download outcome. *)
Definition with_fetch_image (E : Env)
           (fetch : nat -> json -> string -> option exn) : Env :=
  {| latency := latency E;
     popen := popen E;
     proc_exited := proc_exited E;
     proc_stderr := proc_stderr E;
     get_system_stats := get_system_stats E;
     post_prompt := post_prompt E;
     get_history := get_history E;
     fetch_image := fetch;
     s3_upload_file := s3_upload_file E;
     fs := fs E;
     json_load := json_load E;
     py_repr := py_repr E;
     S3_ENDPOINT_URL := S3_ENDPOINT_URL E;
     S3_BUCKET := S3_BUCKET E;
     S3_ACCESS_KEY_ID := S3_ACCESS_KEY_ID E;
     S3_SECRET_ACCESS_KEY := S3_SECRET_ACCESS_KEY E |}.

(** ** Job graphs, continued *)

(** The number of nodes of class [cls] in a graph. *)
Definition count_class (cls : string) (nodes : dict) : nat :=
  List.length (filter (fun item => class_is (snd item) cls) nodes).

(** A mapping node that is neither a text-encode nor a load-image node. *)
Definition plain_node (node : json) : bool :=
  match node with
  | JObj _ =>
      negb (class_is node "CLIPTextEncode") && negb (class_is node "LoadImage")
  | _ => false
  end.

(** The file a load-image node's download is saved to. *)
Definition image_save_path (node_id : string) : string :=
  "/tmp/input_image_" ++ node_id ++ ".png".

(** [input_data.get("params", {})] *)
Definition params_of (input_data : dict) : json :=
  match dict_get "params" input_data with
  | Some v => v
  | None => JObj []
  end.

(** The graph an input resolves to: the one it carries if it carries one,
    else the one [load_workflow] returns for its name. *)
Definition resolves_to (E : Env) (input_data : dict) (workflow : json)
  : Prop :=
  (py_truthy (field "workflow_json" input_data) = true
   /\ workflow = field "workflow_json" input_data)
  \/ (py_truthy (field "workflow_json" input_data) = false
      /\ load_workflow E (field "workflow_name" input_data) = Ok workflow).

(** ** Storage keys *)

Definition is_digit (c : ascii) : bool :=
  Nat.leb 48 (nat_of_ascii c) && Nat.leb (nat_of_ascii c) 57.

Fixpoint all_digits (s : string) : bool :=
  match s with
  | EmptyString => true
  | String c s' => is_digit c && all_digits s'
  end.

(** What can follow the index in a key: nothing, or something that does not
    begin with a digit. *)
Definition no_leading_digit (s : string) : bool :=
  match s with
  | EmptyString => true
  | String c _ => negb (is_digit c)
  end.

(** ** Server state *)

(** The world [w] with the server recorded as process [p], ready. *)
Definition ready_with (p : nat) (w : World) : World :=
  {| comfyui_process := Some p;
     comfyui_ready := true;
     clock := clock w;
     calls := calls w |}.

(** ** Descriptors of an outputs document *)

(** The file name a media descriptor carries. *)
Definition names_of_info (info : json) : list string :=
  match info with
  | JObj d =>
      match dict_get "filename" d with
      | Some (JStr name) => [name]
      | _ => []
      end
  | _ => []
  end.

(** The file names listed under [key] by a node's record. *)
Definition names_of_media (key : string) (node_output : json) : list string :=
  match node_output with
  | JObj d =>
      match dict_get key d with
      | Some (JList infos) => flat_map names_of_info infos
      | _ => []
      end
  | _ => []
  end.

(** The file names of all descriptors of a document, node by node, images
    before videos. *)
Definition descriptor_names (outputs : json) : list string :=
  match outputs with
  | JObj nodes =>
      flat_map (fun item =>
                  (names_of_media "images" (snd item)
                   ++ names_of_media "videos" (snd item))%list)
               nodes
  | _ => []
  end.

(** ** Delivery records *)

(** The url a delivery record carries, if it carries one. *)
Definition url_of (record : json) : option string :=
  match record with
  | JObj d =>
      match dict_get "url" d with
      | Some (JStr url) => Some url
      | _ => None
      end
  | _ => None
  end.
(** * Properties *)

(** ** Library functions on concrete inputs *)

Example b64_Man : b64encode "Man" = "TWFu".
Proof. reflexivity. Qed.
Example b64_Ma : b64encode "Ma" = "TWE=".
Proof. reflexivity. Qed.
Example b64_M : b64encode "M" = "TQ==".
Proof. reflexivity. Qed.
Example b64_hello : b64encode "hello world" = "aGVsbG8gd29ybGQ=".
Proof. reflexivity. Qed.

Example splitext_png : splitext_ext "/comfyui/output/cat.png" = ".png".
Proof. reflexivity. Qed.
Example splitext_hidden : splitext_ext "/comfyui/output/.hidden" = EmptyString.
Proof. reflexivity. Qed.
Example splitext_two : splitext_ext "/a.b/c.tar.gz" = ".gz".
Proof. reflexivity. Qed.
Example splitext_dir : splitext_ext "/a.b/c" = EmptyString.
Proof. reflexivity. Qed.
Example basename_tmp :
  os_path_basename "/tmp/input_image_7.png" = "input_image_7.png".
Proof. reflexivity. Qed.
Example join_rel : os_path_join "/comfyui/output" "cat.png" = "/comfyui/output/cat.png".
Proof. reflexivity. Qed.
Example join_abs : os_path_join "/comfyui/output" "/etc/passwd" = "/etc/passwd".
Proof. reflexivity. Qed.
Example join_empty : os_path_join "/comfyui/output" EmptyString = "/comfyui/output/".
Proof. reflexivity. Qed.
Example nat_str_ex : nat_str 1234 = "1234".
Proof. reflexivity. Qed.
Example N_str_ex : N_str 10485760 = "10485760".
Proof. reflexivity. Qed.
Example Z_str_ex : Z_str (-12) = "-12".
Proof. reflexivity. Qed.
Example Z_str_0 : Z_str 0 = "0".
Proof. reflexivity. Qed.


(** ** Dictionaries *)

Lemma dict_get_set_same {V} (k : string) (v : V) (d : list (string * V)) :
  dict_get k (dict_set k v d) = Some v.
Proof.
  induction d as [|[k' v'] d IH]; simpl.
  - now rewrite String.eqb_refl.
  - destruct (String.eqb k k') eqn:Hk; simpl; rewrite Hk; auto.
Qed.

Lemma dict_get_set_other {V} (k k0 : string) (v : V) (d : list (string * V)) :
  k0 <> k -> dict_get k0 (dict_set k v d) = dict_get k0 d.
Proof.
  intros Hne. induction d as [|[k' v'] d IH]; simpl.
  - destruct (String.eqb_spec k0 k); [contradiction | reflexivity].
  - destruct (String.eqb_spec k k') as [->|Hk]; simpl.
    + destruct (String.eqb_spec k0 k'); [contradiction | reflexivity].
    + now rewrite IH.
Qed.

Lemma dict_keys_set_present {V} (k : string) (v : V) (d : list (string * V)) :
  dict_has k d = true -> dict_keys (dict_set k v d) = dict_keys d.
Proof.
  unfold dict_has, dict_keys.
  induction d as [|[k' v'] d IH]; simpl; [discriminate|].
  destruct (String.eqb k k') eqn:Hk; simpl; intros H; [reflexivity|].
  now rewrite IH.
Qed.

(** ** Workflow loader *)

Example registry_keys :
  str_join ", " (dict_keys AVAILABLE_WORKFLOWS) = "t2v, i2v, fun_camera, vace".
Proof. reflexivity. Qed.

(** C8.  For an identifier of the registry whose definition file is a
    regular file, [load_workflow] returns what [json.load] makes of the
    file's content; for an identifier outside the registry it raises a
    [ValueError] whose message lists the registry's keys, all of them and
    nothing else, in registry order; for an identifier of the registry whose
    definition file does not exist it raises a [FileNotFoundError]. *)
Theorem load_workflow_resolves (E : Env) (name : string) :
  (forall file content,
      dict_get name AVAILABLE_WORKFLOWS = Some file ->
      fs E (os_path_join WORKFLOWS_DIR file) = Some (File content) ->
      load_workflow E (JStr name) = json_load E content)
  /\ (dict_get name AVAILABLE_WORKFLOWS = None ->
      load_workflow E (JStr name)
      = Err (Exn ValueError
               ("Unknown workflow_type: " ++ name ++ ". Available: "
                ++ str_join ", " (dict_keys AVAILABLE_WORKFLOWS))))
  /\ (forall file,
      dict_get name AVAILABLE_WORKFLOWS = Some file ->
      fs E (os_path_join WORKFLOWS_DIR file) = None ->
      load_workflow E (JStr name)
      = Err (Exn FileNotFoundError
               ("Workflow file not found: "
                ++ os_path_join WORKFLOWS_DIR file))).
Proof.
  repeat split.
  - intros file content Hreg Hfs.
    unfold load_workflow, os_path_exists, read_file.
    rewrite Hreg, Hfs. reflexivity.
  - intros Hreg. unfold load_workflow. rewrite Hreg. reflexivity.
  - intros file Hreg Hfs.
    unfold load_workflow, os_path_exists. rewrite Hreg, Hfs. reflexivity.
Qed.

(** ** Output collector *)

Section Collector.
Variable E : Env.

Lemma collect_info_named (info : json) (s : string) :
  info_name info = Some s ->
  collect_info E info
  = Ok (existing_paths (os_path_exists E) [s]).
Proof.
  unfold info_name, collect_info, existing_paths.
  destruct info as [| | | |l|d]; try discriminate.
  simpl. unfold dict_has.
  destruct (dict_get "filename" d) as [[| | |s'| |]|]; try discriminate.
  intros [= ->]. simpl.
  destruct (os_path_exists E (os_path_join OUTPUT_DIR s)); reflexivity.
Qed.

Lemma collect_infos_named (infos : list json) (names : list string) :
  info_names infos = Some names ->
  exists found,
    Res.mapM (collect_info E) infos = Ok found
    /\ List.concat found = existing_paths (os_path_exists E) names.
Proof.
  revert names. induction infos as [|info infos IH]; simpl; intros names H.
  - injection H as <-. exists []. split; reflexivity.
  - destruct (info_name info) as [s|] eqn:Hs; [|discriminate].
    destruct (info_names infos) as [names'|]; [|discriminate].
    injection H as <-.
    destruct (IH names' eq_refl) as (found & Hm & Hc).
    rewrite (collect_info_named _ _ Hs). simpl. rewrite Hm. simpl.
    eexists. split; [reflexivity|].
    simpl. rewrite Hc. unfold existing_paths. simpl.
    destruct (os_path_exists E (os_path_join OUTPUT_DIR s)); reflexivity.
Qed.

Lemma collect_media_named (key : string) (d : dict) (names : list string) :
  media_names key d = Some names ->
  collect_media E key (JObj d)
  = Ok (existing_paths (os_path_exists E) names).
Proof.
  unfold media_names, collect_media. simpl. unfold dict_has.
  destruct (dict_get key d) as [[| | | |infos|]|]; try discriminate.
  - intros H. simpl.
    destruct (collect_infos_named infos names H) as (found & -> & <-).
    reflexivity.
  - intros [= <-]. reflexivity.
Qed.

Lemma collect_node_viewed (node : json) (n : node_media) :
  node_view node = Some n ->
  collect_node E node
  = Ok (existing_paths (os_path_exists E) (image_names n)
        ++ existing_paths (os_path_exists E) (video_names n))%list.
Proof.
  unfold node_view, collect_node.
  destruct node as [| | | | |d]; try discriminate.
  destruct (media_names "images" d) as [i|] eqn:Hi; [|discriminate].
  destruct (media_names "videos" d) as [v|] eqn:Hv; [|discriminate].
  intros [= <-]. simpl.
  rewrite (collect_media_named _ _ _ Hi), (collect_media_named _ _ _ Hv).
  reflexivity.
Qed.

Lemma collect_nodes_viewed (items : dict) (m : manifest) :
  nodes_view items = Some m ->
  exists found,
    Res.mapM (fun item => collect_node E (snd item)) items = Ok found
    /\ List.concat found = collect_spec (os_path_exists E) m.
Proof.
  revert m. induction items as [|[node_id node] items IH]; simpl; intros m H.
  - injection H as <-. exists []. split; reflexivity.
  - destruct (node_view node) as [n|] eqn:Hn; [|discriminate].
    destruct (nodes_view items) as [m'|]; [|discriminate].
    injection H as <-.
    destruct (IH m' eq_refl) as (found & Hm & Hc).
    rewrite (collect_node_viewed _ _ Hn). simpl. rewrite Hm. simpl.
    eexists. split; [reflexivity|].
    simpl. now rewrite Hc.
Qed.

(** C9.  On an output manifest, [get_output_files] returns the list the
    specification describes: node by node in manifest order, for each node
    the paths derived from its image list and then those from its video
    list, each in list order, keeping a path exactly when it exists on disk
    and keeping it once per descriptor (repeated file names are not
    merged). *)
Theorem get_output_files_collects (outputs : json) (m : manifest) :
  manifest_view outputs = Some m ->
  get_output_files E outputs = Ok (collect_spec (os_path_exists E) m).
Proof.
  unfold manifest_view, get_output_files.
  destruct outputs as [| | | | |d]; try discriminate.
  intros H. simpl.
  destruct (collect_nodes_viewed d m H) as (found & -> & <-).
  reflexivity.
Qed.

End Collector.

(** ** Process supervisor *)

Section Supervisor.
Variable E : Env.

(** The readiness loop returns normally only after a 200 from the status
    endpoint, and then with the flag set and the handle untouched. *)
Lemma wait_until_ready_ok (retries p : nat) (w w' : World) :
  wait_until_ready E retries p w = (Ok tt, w') ->
  comfyui_ready w' = true
  /\ comfyui_process w' = comfyui_process w
  /\ exists n, calls w <= n < calls w' /\ get_system_stats E n = Some 200%N.
Proof.
  revert w. induction retries as [|retries IH]; intros w; simpl.
  - discriminate.
  - unfold Mon.bind at 1. unfold external at 1. simpl.
    destruct (get_system_stats E (calls w)) as [code|] eqn:Hcode.
    + destruct (N.eq_dec code 200) as [->|Hne].
      * unfold set_ready. intros [= <-]. simpl.
        repeat split; auto. exists (calls w). split; [lia | assumption].
      * assert (Hgo :
          forall (k1 k2 : M unit) v,
            match code with
            | 200%N => k1
            | _ => k2
            end v = k2 v).
        { intros k1 k2 v.
          destruct code as [|q]; [reflexivity|].
          do 8 (destruct q as [q|q|]; try reflexivity).
          exfalso. now apply Hne. }
        rewrite Hgo. clear Hgo.
        unfold Mon.bind, external, Mon.raise, sleep. simpl.
        destruct (proc_exited E p (S (calls w))); [discriminate|].
        intros H. apply IH in H. simpl in H.
        destruct H as (Hr & Hp & n & Hn & H200).
        repeat split; auto. exists n. split; [lia | assumption].
    + unfold Mon.bind, external, Mon.raise, sleep. simpl.
      destruct (proc_exited E p (S (calls w))); [discriminate|].
      intros H. apply IH in H. simpl in H.
      destruct H as (Hr & Hp & n & Hn & H200).
      repeat split; auto. exists n. split; [lia | assumption].
Qed.

Lemma spawn_and_wait_ok (w w' : World) :
  spawn_and_wait E w = (Ok tt, w') ->
  comfyui_ready w' = true
  /\ (exists p, comfyui_process w' = Some p)
  /\ exists n, calls w <= n < calls w' /\ get_system_stats E n = Some 200%N.
Proof.
  unfold spawn_and_wait, Mon.bind, external, Mon.lift, set_process.
  destruct (popen E (calls w)) as [p|e]; [|discriminate].
  intros H. apply wait_until_ready_ok in H. cbn [calls comfyui_process] in H.
  destruct H as (Hr & Hp & n & Hn & H200).
  repeat split; eauto. exists n. split; [lia | assumption].
Qed.

(** With the handle and the flag set, [start_comfyui] does nothing. *)
Lemma start_comfyui_ready_noop (w : World) :
  comfyui_ready w = true ->
  comfyui_process w <> None ->
  start_comfyui E w = (Ok tt, w).
Proof.
  intros Hr Hp. unfold start_comfyui, Mon.bind, Mon.get_world.
  destruct (comfyui_process w); [|contradiction].
  now rewrite Hr.
Qed.

Lemma advance_one (w : World) :
  {| comfyui_process := comfyui_process w;
     comfyui_ready := comfyui_ready w;
     clock := clock w + latency E (calls w);
     calls := S (calls w) |} = advance E w 1 0.
Proof.
  unfold advance. simpl. f_equal; lia.
Qed.

(** C5, as the code has it.  On a worker whose handle and ready flag are
    both set, [start_comfyui] returns at once and changes nothing.  On a
    worker whose flag is unset and whose handle names a process that is
    still running, it returns normally after that one look at the process,
    without asking the status endpoint, and the flag is still unset.  And
    these are, with a successful start, the only ways it returns without
    raising: either one of the two above, or a server was spawned, the
    status endpoint answered 200 to this call, and the flag is set.  Once it
    has returned with the flag set, calling it again changes nothing. *)
Theorem start_comfyui_returns (w : World) :
  (comfyui_ready w = true -> comfyui_process w <> None ->
   start_comfyui E w = (Ok tt, w))
  /\ (forall p,
         comfyui_process w = Some p -> comfyui_ready w = false ->
         proc_exited E p (calls w) = false ->
         start_comfyui E w = (Ok tt, advance E w 1 0)
         /\ comfyui_ready (advance E w 1 0) = false
         /\ comfyui_process (advance E w 1 0) = Some p)
  /\ (forall w',
         start_comfyui E w = (Ok tt, w') ->
         ((comfyui_ready w = true /\ comfyui_process w <> None /\ w' = w)
          \/ (exists p,
                comfyui_process w = Some p /\ comfyui_ready w = false
                /\ proc_exited E p (calls w) = false
                /\ w' = advance E w 1 0 /\ comfyui_ready w' = false)
          \/ (comfyui_ready w' = true
              /\ (exists p, comfyui_process w' = Some p)
              /\ exists n, calls w <= n < calls w'
                           /\ get_system_stats E n = Some 200%N))
         /\ (comfyui_ready w' = true -> start_comfyui E w' = (Ok tt, w'))).
Proof.
  split; [|split].
  - apply start_comfyui_ready_noop.
  - intros p Hp Hr Hex.
    unfold start_comfyui, Mon.bind at 1, Mon.get_world. rewrite Hp, Hr.
    unfold Mon.bind at 1, external at 1. rewrite Hex, advance_one.
    repeat split; assumption.
  - intros w' H.
    assert (Hcases :
      (comfyui_ready w = true /\ comfyui_process w <> None /\ w' = w)
      \/ (exists p,
            comfyui_process w = Some p /\ comfyui_ready w = false
            /\ proc_exited E p (calls w) = false
            /\ w' = advance E w 1 0 /\ comfyui_ready w' = false)
      \/ (comfyui_ready w' = true
          /\ (exists p, comfyui_process w' = Some p)
          /\ exists n, calls w <= n < calls w'
                       /\ get_system_stats E n = Some 200%N)).
    { revert H. unfold start_comfyui, Mon.bind at 1, Mon.get_world.
      destruct (comfyui_process w) as [p|] eqn:Hp.
      - destruct (comfyui_ready w) eqn:Hr.
        + intros [= <-]. left. repeat split; auto. congruence.
        + unfold Mon.bind at 1, external at 1.
          destruct (proc_exited E p (calls w)) eqn:Hex.
          * unfold Mon.bind at 1, set_process at 1. cbv beta iota.
            intros H. apply spawn_and_wait_ok in H. simpl in H.
            destruct H as (Hr' & Hp' & n & Hn & H200).
            right. right. repeat split; auto.
            exists n. split; [lia | assumption].
          * intros [= <-]. right. left. exists p.
            rewrite <- Hp, <- Hr at 1. rewrite advance_one.
            repeat split; auto.
      - intros H. apply spawn_and_wait_ok in H.
        right. right. exact H. }
    split; [exact Hcases|].
    intros Hr'. apply start_comfyui_ready_noop; [exact Hr'|].
    destruct Hcases
      as [(_ & Hp & ->) | [(p & _ & _ & _ & _ & Hf) | (_ & (p & Hp) & _)]].
    + exact Hp.
    + congruence.
    + congruence.
Qed.

End Supervisor.

(** C5, as the claim has it, fails: on a server that never answers the
    status request, the first call times out and the second one returns
    normally although no status request was ever answered and the ready flag
    is unset. *)
Lemma start_comfyui_returns_unready :
  let E := Scenario.never_ready in
  let w1 := snd (start_comfyui E initial_world) in
  let w2 := snd (start_comfyui E w1) in
  fst (start_comfyui E initial_world)
  = Err (Exn RuntimeError "ComfyUI API server failed to start within timeout")
  /\ fst (start_comfyui E w1) = Ok tt
  /\ comfyui_ready w2 = false
  /\ comfyui_process w2 = Some 1
  /\ (forall n, get_system_stats E n = None).
Proof.
  cbv zeta. repeat split; vm_compute; reflexivity.
Qed.

Lemma start_comfyui_returns_witness :
  (let w1 := snd (start_comfyui Scenario.never_ready initial_world) in
   start_comfyui Scenario.never_ready w1
   = (Ok tt, advance Scenario.never_ready w1 1 0)
   /\ comfyui_ready (advance Scenario.never_ready w1 1 0) = false)
  /\ (let w' := snd (start_comfyui Scenario.good initial_world) in
      comfyui_ready w' = true
      /\ start_comfyui Scenario.good w' = (Ok tt, w')).
Proof.
  split; cbv zeta.
  - destruct (start_comfyui_returns Scenario.never_ready
                (snd (start_comfyui Scenario.never_ready initial_world)))
      as (_ & Hlive & _).
    destruct (Hlive 1) as (Hrun & Hflag & _);
      [vm_compute; reflexivity | vm_compute; reflexivity | reflexivity |].
    split; assumption.
  - assert (H : start_comfyui Scenario.good initial_world
                = (Ok tt, snd (start_comfyui Scenario.good initial_world)))
      by (vm_compute; reflexivity).
    destruct (start_comfyui_returns Scenario.good initial_world)
      as (_ & _ & Hback).
    destruct (Hback _ H) as [_ Hidem].
    assert (Hr : comfyui_ready
                   (snd (start_comfyui Scenario.good initial_world)) = true)
      by (vm_compute; reflexivity).
    split; [exact Hr | exact (Hidem Hr)].
Defined.

(** ** Job client *)

Section JobClient.
Variable E : Env.
Variable prompt_id : string.

Lemma advance_advance (w : World) (k slept k' slept' : nat) :
  advance E (advance E w k slept) k' slept'
  = advance E w (k + k') (slept + slept').
Proof.
  unfold advance. simpl.
  assert (Hb : forall a from b,
             busy E from (a + b) = busy E from a + busy E (from + a) b).
  { induction a as [|a IH]; intros from b; simpl.
    - now rewrite Nat.add_0_r.
    - rewrite IH. replace (S from + a) with (from + S a) by lia. lia. }
  rewrite Hb. f_equal; lia.
Qed.

Lemma busy_no_latency (from k : nat) :
  (forall n, latency E n = 0) -> busy E from k = 0.
Proof.
  intros H. revert from. induction k as [|k IH]; intros from; simpl.
  - reflexivity.
  - now rewrite H, IH.
Qed.



(** The loop body always makes exactly one external call. *)
Lemma poll_once_one_call (w w' : World) (r : result (option json)) :
  poll_once E prompt_id w = (r, w') -> w' = advance E w 1 0.
Proof.
  unfold poll_once, Mon.bind, external, Mon.lift, Mon.ret.
  rewrite advance_one.
  destruct (get_history E (calls w) prompt_id) as [history|e];
    [|now intros [= _ <-]].
  destruct (py_contains prompt_id history) as [[|]|e];
    try (now intros [= _ <-]).
  destruct (py_getitem history prompt_id) as [entry|e];
    [|now intros [= _ <-]].
  destruct (py_getitem entry "outputs") as [out|e]; now intros [= _ <-].
Qed.

(** One unfolding of the polling loop. *)
Lemma poll_history_step (timeout : Z) (start_time fuel : nat) (w : World) :
  poll_history E fuel prompt_id timeout start_time w
  = if (elapsed start_time w <? timeout)%Z then
      match fuel with
      | O => (Err (Exn FuelExhausted "poll_history"), w)
      | S fuel' =>
          match poll_once E prompt_id w with
          | (Ok (Some output), w1) => (Ok output, w1)
          | (Ok None, w1) =>
              poll_history E fuel' prompt_id timeout start_time
                           (advance E w1 0 1)
          | (Err e, w1) => (Err e, w1)
          end
      end
    else (Err (timeout_error prompt_id timeout), w).
Proof.
  unfold elapsed.
  destruct fuel as [|fuel]; simpl; unfold Mon.bind at 1, time_time;
    destruct (Z.of_nat (clock w - start_time) <? timeout)%Z; try reflexivity.
  unfold Mon.bind at 1.
  destruct (poll_once E prompt_id w) as [[[out|]|e] w1]; try reflexivity.
  unfold Mon.bind, sleep. f_equal.
  unfold advance. simpl. f_equal; lia.
Qed.

Lemma advance_0_0 (w : World) : advance E w 0 0 = w.
Proof.
  destruct w. unfold advance. simpl. f_equal; lia.
Qed.

(** The fuel is never used up: once it covers the seconds left before the
    timeout, more fuel changes nothing. *)
Lemma poll_history_enough_fuel (timeout : Z) (start_time fuel : nat)
      (w : World) :
  start_time <= clock w ->
  (Z.to_nat (timeout - elapsed start_time w) <= fuel)%nat ->
  poll_history E fuel prompt_id timeout start_time w
  = poll_history E (S fuel) prompt_id timeout start_time w.
Proof.
  revert w. induction fuel as [|fuel IH]; intros w Hstart Hfuel;
    rewrite (poll_history_step timeout start_time (S _) w);
    rewrite (poll_history_step timeout start_time _ w).
  - destruct (Z.ltb_spec (elapsed start_time w) timeout); [lia | reflexivity].
  - destruct (Z.ltb_spec (elapsed start_time w) timeout) as [Hlt|];
      [|reflexivity].
    destruct (poll_once E prompt_id w) as [[[out|]|e] w1] eqn:Hpoll;
      try reflexivity.
    apply poll_once_one_call in Hpoll. subst w1.
    rewrite advance_advance.
    apply IH; unfold elapsed, advance in *; simpl; lia.
Qed.



End JobClient.

(** ** Parameter binder *)

Lemma dict_set_same {V} (k : string) (v : V) (d : list (string * V)) :
  dict_get k d = Some v -> dict_set k v d = d.
Proof.
  induction d as [|[k' v'] d IH]; simpl; [discriminate|].
  destruct (String.eqb k k') eqn:Hk.
  - now intros [= ->].
  - intros H. now rewrite IH.
Qed.

Lemma dict_has_set_other {V} (k k0 : string) (v : V) (d : list (string * V)) :
  k0 <> k -> dict_has k0 (dict_set k v d) = dict_has k0 d.
Proof.
  intros H. unfold dict_has. now rewrite dict_get_set_other.
Qed.

Section Binder.
Variable E : Env.

(** [set_input] on a node whose inputs are a mapping. *)
Lemma set_input_obj (d inputs : dict) (key : string) (value : json) :
  dict_get "inputs" d = Some (JObj inputs) ->
  set_input (JObj d) key value
  = Ok (JObj (dict_set "inputs" (JObj (dict_set key value inputs)) d)).
Proof.
  intros H. unfold set_input. simpl. now rewrite H.
Qed.

(** [set_input] succeeds only on a mapping whose inputs are a mapping. *)
Lemma set_input_ok (node node' : json) (key : string) (value : json) :
  set_input node key value = Ok node' ->
  exists d inputs,
    node = JObj d /\ dict_get "inputs" d = Some (JObj inputs)
    /\ node' = JObj (dict_set "inputs" (JObj (dict_set key value inputs)) d).
Proof.
  unfold set_input.
  destruct node as [| | | | |d]; try discriminate. simpl.
  destruct (dict_get "inputs" d) as [[| | | | |inputs]|] eqn:Hin;
    try discriminate.
  simpl. intros [= <-]. eauto.
Qed.

Lemma class_is_get (d : dict) (cls : string) :
  json_eq_str (match dict_get "class_type" d with
               | Some v => v
               | None => JNull
               end) cls
  = class_is (JObj d) cls.
Proof.
  simpl. destruct (dict_get "class_type" d); reflexivity.
Qed.

Lemma class_is_spec (d : dict) (cls : string) :
  class_is (JObj d) cls = true <-> dict_get "class_type" d = Some (JStr cls).
Proof.
  simpl. destruct (dict_get "class_type" d) as [[| | |s| |]|]; simpl;
    try (split; discriminate).
  destruct (String.eqb_spec s cls) as [->|Hne]; split; try reflexivity;
    try discriminate.
  intros [= ->]. contradiction.
Qed.

Lemma class_is_set_inputs (d : dict) (v : json) (cls : string) :
  class_is (JObj (dict_set "inputs" v d)) cls = class_is (JObj d) cls.
Proof.
  simpl. rewrite dict_get_set_other; [reflexivity | discriminate].
Qed.

(** What the text step does to a node it accepts. *)
Lemma update_text_ok (node params node1 : json) :
  update_text node params = Ok node1 ->
  node1 = node
  \/ exists d inputs v,
       node = JObj d
       /\ class_is node "CLIPTextEncode" = true
       /\ dict_get "inputs" d = Some (JObj inputs)
       /\ dict_has "text" inputs = true
       /\ node1 = JObj (dict_set "inputs" (JObj (dict_set "text" v inputs)) d).
Proof.
  unfold update_text.
  destruct node as [| | | | |d]; try discriminate.
  cbn [py_get Res.bind]. rewrite class_is_get.
  destruct (class_is (JObj d) "CLIPTextEncode") eqn:Hcls;
    [|intros [= <-]; now left].
  destruct (py_contains "text"
              match dict_get "inputs" d with
              | Some v => v
              | None => JObj []
              end) as [[|]|e] eqn:Htext; cbn [Res.bind];
    [| intros [= <-]; now left | discriminate].
  assert (Hset : forall value,
             set_input (JObj d) "text" value = Ok node1 ->
             exists inputs,
               dict_get "inputs" d = Some (JObj inputs)
               /\ dict_has "text" inputs = true
               /\ node1 = JObj (dict_set "inputs"
                                  (JObj (dict_set "text" value inputs)) d)).
  { intros value Hs. apply set_input_ok in Hs.
    destruct Hs as (d0 & inputs & [= <-] & Hin & ->).
    exists inputs. rewrite Hin in Htext. simpl in Htext.
    injection Htext as Htext. auto. }
  destruct (py_contains "positive_prompt" params) as [[|]|e];
    cbn [Res.bind]; try discriminate.
  - destruct (py_getitem params "positive_prompt") as [value|e];
      cbn [Res.bind]; [|discriminate].
    intros Hs. destruct (Hset value Hs) as (inputs & ? & ? & ?).
    right. exists d, inputs, value. auto.
  - destruct (py_contains "prompt" params) as [[|]|e];
      cbn [Res.bind]; try discriminate; [|intros [= <-]; now left].
    destruct (py_getitem params "prompt") as [value|e];
      cbn [Res.bind]; [|discriminate].
    intros Hs. destruct (Hset value Hs) as (inputs & ? & ? & ?).
    right. exists d, inputs, value. auto.
Qed.

(** What the image step does to a node it accepts. *)
Lemma update_image_ok (node_id : string) (node params node2 : json)
      (w w' : World) :
  update_image E node_id node params w = (Ok node2, w') ->
  node2 = node
  \/ exists d inputs name,
       node = JObj d
       /\ class_is node "LoadImage" = true
       /\ dict_get "inputs" d = Some (JObj inputs)
       /\ node2 = JObj (dict_set "inputs"
                          (JObj (dict_set "image" (JStr name) inputs)) d).
Proof.
  unfold update_image, Mon.bind at 1, Mon.lift at 1.
  destruct node as [| | | | |d]; try discriminate.
  cbn [py_get]. rewrite class_is_get.
  destruct (class_is (JObj d) "LoadImage") eqn:Hcls;
    [|intros [= <- _]; now left].
  unfold Mon.bind at 1, Mon.lift at 1.
  destruct (py_contains "image_url" params) as [[|]|e]; try discriminate;
    [|intros [= <- _]; now left].
  unfold Mon.bind at 1, Mon.lift at 1.
  destruct (py_getitem params "image_url") as [url|e]; [|discriminate].
  unfold Mon.bind at 1, download_image, Mon.bind at 1, external.
  destruct (fetch_image E (calls w) url _) as [e|]; [discriminate|].
  unfold Mon.ret, Mon.lift.
  intros [= Hs _]. apply set_input_ok in Hs.
  destruct Hs as (d0 & inputs & [= <-] & Hin & ->).
  right. exists d, inputs. eauto.
Qed.

(** The binder changes a node in one of the allowed ways only. *)
Lemma update_node_change (params : json) (item item' : string * json)
      (w w' : World) :
  update_node E params item w = (Ok item', w') ->
  item_change item item'.
Proof.
  destruct item as [node_id node]. unfold update_node, Mon.bind at 1, Mon.lift.
  destruct (update_text node params) as [node1|e] eqn:Htext; [|discriminate].
  unfold Mon.bind at 1.
  destruct (update_image E node_id node1 params w) as [[node2|e] w2] eqn:Himg;
    [|discriminate].
  unfold Mon.ret. intros [= <- _]. split; [reflexivity|]. simpl.
  apply update_text_ok in Htext. apply update_image_ok in Himg.
  destruct Htext as [->|(d & inputs & v & -> & Hcls & Hin & Hhas & ->)].
  - destruct Himg as [->|(d & inputs & name & -> & Hcls & Hin & ->)].
    + constructor.
    + apply class_is_spec in Hcls.
      eapply node_image_bound; eauto.
  - apply class_is_spec in Hcls.
    destruct Himg as [->|(d' & inputs' & name & [= <-] & Hcls' & _ & _)].
    + eapply node_text_bound; eauto.
    + rewrite class_is_set_inputs in Hcls'. apply class_is_spec in Hcls'.
      rewrite Hcls in Hcls'. discriminate.
Qed.

Lemma mapM_update_change (params : json) (items items' : dict)
      (w w' : World) :
  Mon.mapM (update_node E params) items w = (Ok items', w') ->
  Forall2 item_change items items'.
Proof.
  revert items' w w'.
  induction items as [|item items IH]; intros items' w w'; simpl.
  - unfold Mon.ret. intros [= <- _]. constructor.
  - unfold Mon.bind at 1.
    destruct (update_node E params item w) as [[item'|e] w1] eqn:Hnode;
      [|discriminate].
    unfold Mon.bind at 1.
    destruct (Mon.mapM (update_node E params) items w1)
      as [[rest|e] w2] eqn:Hrest; [|discriminate].
    unfold Mon.ret. intros [= <- _].
    constructor;
      [eapply update_node_change; eassumption | eapply IH; eassumption].
Qed.

(** *** Only three parameter keys are read *)

Lemma mapM_ext {A B} (f g : A -> M B) (l : list A) (w : World) :
  (forall x w0, f x w0 = g x w0) -> Mon.mapM f l w = Mon.mapM g l w.
Proof.
  intros H. revert w. induction l as [|x l IH]; intros w; simpl.
  - reflexivity.
  - unfold Mon.bind at 1 3. rewrite H.
    destruct (g x w) as [[y|e] w1]; [|reflexivity].
    unfold Mon.bind. now rewrite IH.
Qed.

Lemma update_node_params (p1 p2 : dict) (item : string * json) (w : World) :
  (forall k, In k USED_PARAMS -> dict_get k p1 = dict_get k p2) ->
  update_node E (JObj p1) item w = update_node E (JObj p2) item w.
Proof.
  intros H.
  assert (H1 := H "positive_prompt" ltac:(simpl; auto)).
  assert (H2 := H "prompt" ltac:(simpl; auto)).
  assert (H3 := H "image_url" ltac:(simpl; auto)).
  destruct item as [node_id node].
  unfold update_node, update_text, update_image.
  cbn [py_contains py_getitem]. unfold dict_has.
  rewrite H1, H2, H3. reflexivity.
Qed.

Lemma update_workflow_params (workflow : json) (p1 p2 : dict) (w : World) :
  (forall k, In k USED_PARAMS -> dict_get k p1 = dict_get k p2) ->
  update_workflow_with_inputs E workflow (JObj p1) w
  = update_workflow_with_inputs E workflow (JObj p2) w.
Proof.
  intros H. unfold update_workflow_with_inputs, Mon.bind at 1 3, Mon.lift.
  destruct (py_items workflow) as [items|e]; [|reflexivity].
  unfold Mon.bind.
  rewrite (mapM_ext (update_node E (JObj p1)) (update_node E (JObj p2)));
    [reflexivity|].
  intros item w0. now apply update_node_params.
Qed.

(** *** The binder on a graph of the data model *)

Lemma class_is_exclusive (node : json) :
  class_is node "CLIPTextEncode" = true -> class_is node "LoadImage" = false.
Proof.
  destruct node as [| | | | |d]; try discriminate.
  intros H. apply class_is_spec in H.
  destruct (class_is (JObj d) "LoadImage") eqn:H'; [|reflexivity].
  apply class_is_spec in H'. rewrite H in H'. discriminate.
Qed.

Lemma node_class_is (node : json) (cls : string) :
  node_class node = Some cls <-> class_is node cls = true.
Proof.
  destruct node as [| | | | |d]; try (split; discriminate).
  rewrite class_is_spec. unfold node_class.
  destruct (dict_get "class_type" d) as [[| | |s| |]|];
    split; try discriminate; now intros [= ->].
Qed.

Lemma node_input_set (d inputs : dict) (key : string) (v : json) :
  node_input key (JObj (dict_set "inputs" (JObj (dict_set key v inputs)) d))
  = Some v.
Proof.
  unfold node_input. now rewrite !dict_get_set_same.
Qed.

(** The text step on a well-formed node: it succeeds, keeps the node
    well-formed and its class, and binds the text of a text-encode node. *)
Lemma update_text_wf (node : json) (p : dict) :
  wf_node node = true ->
  exists node1,
    update_text node (JObj p) = Ok node1
    /\ wf_node node1 = true
    /\ (forall cls, class_is node1 cls = class_is node cls)
    /\ (class_is node "CLIPTextEncode" = true ->
        forall old, node_input "text" node = Some old ->
                    node_input "text" node1 = Some (bound_text p old)).
Proof.
  unfold wf_node.
  destruct node as [| | | | |d]; try discriminate.
  destruct (dict_get "inputs" d) as [[| | | | |inputs]|] eqn:Hin;
    try discriminate.
  intros _. unfold update_text.
  cbn [py_get Res.bind]. rewrite class_is_get, Hin.
  assert (Hself : wf_node (JObj d) = true) by (simpl; now rewrite Hin).
  assert (Hset : forall v,
             wf_node (JObj (dict_set "inputs"
                              (JObj (dict_set "text" v inputs)) d)) = true
             /\ (forall cls,
                    class_is (JObj (dict_set "inputs"
                                 (JObj (dict_set "text" v inputs)) d)) cls
                    = class_is (JObj d) cls)).
  { intros v. split.
    - simpl. now rewrite dict_get_set_same.
    - intros cls. apply class_is_set_inputs. }
  destruct (class_is (JObj d) "CLIPTextEncode") eqn:Hcls.
  2:{ exists (JObj d). repeat split; auto. discriminate. }
  cbn [py_contains py_getitem Res.bind].
  unfold dict_has, bound_text, node_input.
  rewrite Hin.
  destruct (dict_get "text" inputs) as [old|] eqn:Hold.
  2:{ exists (JObj d). repeat split; auto. discriminate. }
  destruct (dict_get "positive_prompt" p) as [a|] eqn:Ha; cbn [Res.bind].
  - rewrite (set_input_obj d inputs "text" a Hin).
    eexists. split; [reflexivity|]. destruct (Hset a) as [Hw Hc].
    repeat split; auto. intros _ old' [= <-].
    apply node_input_set.
  - destruct (dict_get "prompt" p) as [b|] eqn:Hb; cbn [Res.bind].
    + rewrite (set_input_obj d inputs "text" b Hin).
      eexists. split; [reflexivity|]. destruct (Hset b) as [Hw Hc].
      repeat split; auto. intros _ old' [= <-].
      apply node_input_set.
    + exists (JObj d). repeat split; auto.
      intros _ old' [= <-]. now rewrite Hin.
Qed.

(** The image step on a well-formed node when no download fails: it
    succeeds, and leaves every node but a load-image node alone. *)
Lemma update_image_wf (node_id : string) (node : json) (p : dict) (w : World) :
  wf_node node = true ->
  (forall n url path, fetch_image E n url path = None) ->
  exists node2 w',
    update_image E node_id node (JObj p) w = (Ok node2, w')
    /\ (class_is node "LoadImage" = false -> node2 = node).
Proof.
  unfold wf_node.
  destruct node as [| | | | |d]; try discriminate.
  destruct (dict_get "inputs" d) as [[| | | | |inputs]|] eqn:Hin;
    try discriminate.
  intros _ Hfetch.
  unfold update_image, Mon.bind at 1, Mon.lift at 1.
  cbn [py_get]. rewrite class_is_get.
  destruct (class_is (JObj d) "LoadImage") eqn:Hcls.
  2:{ exists (JObj d), w. split; [reflexivity | auto]. }
  unfold Mon.bind at 1, Mon.lift at 1. cbn [py_contains]. unfold dict_has.
  destruct (dict_get "image_url" p) as [url|] eqn:Hurl.
  2:{ exists (JObj d), w. split; [reflexivity | discriminate]. }
  unfold Mon.bind at 1, Mon.lift at 1. cbn [py_getitem]. rewrite Hurl.
  unfold Mon.bind at 1, download_image, Mon.bind at 1, external.
  rewrite Hfetch. unfold Mon.ret, Mon.lift.
  rewrite (set_input_obj d inputs "image" _ Hin).
  eexists. eexists. split; [reflexivity | discriminate].
Qed.

Lemma update_node_wf (p : dict) (node_id : string) (node : json) (w : World) :
  wf_node node = true ->
  (forall n url path, fetch_image E n url path = None) ->
  exists node' w',
    update_node E (JObj p) (node_id, node) w = (Ok (node_id, node'), w')
    /\ (node_class node = Some "CLIPTextEncode" ->
        forall old, node_input "text" node = Some old ->
                    node_input "text" node' = Some (bound_text p old)).
Proof.
  intros Hwf Hfetch.
  destruct (update_text_wf node p Hwf) as (node1 & Htext & Hwf1 & Hcls & Hbind).
  destruct (update_image_wf node_id node1 p w Hwf1 Hfetch)
    as (node2 & w' & Himg & Hsame).
  exists node2, w'. split.
  - unfold update_node, Mon.bind at 1, Mon.lift. rewrite Htext.
    unfold Mon.bind at 1. rewrite Himg. reflexivity.
  - intros Hclip old Hold. apply node_class_is in Hclip.
    rewrite Hsame.
    + now apply Hbind.
    + rewrite Hcls. now apply class_is_exclusive.
Qed.

Lemma mapM_update_wf (p : dict) (nodes : dict) (w : World) :
  wf_graph nodes = true ->
  (forall n url path, fetch_image E n url path = None) ->
  exists nodes' w',
    Mon.mapM (update_node E (JObj p)) nodes w = (Ok nodes', w')
    /\ map fst nodes' = map fst nodes
    /\ forall i node_id node old,
         nth_error nodes i = Some (node_id, node) ->
         node_class node = Some "CLIPTextEncode" ->
         node_input "text" node = Some old ->
         exists node',
           nth_error nodes' i = Some (node_id, node')
           /\ node_input "text" node' = Some (bound_text p old).
Proof.
  intros Hwf Hfetch. revert w.
  induction nodes as [|[node_id node] nodes IH]; intros w.
  - exists [], w. repeat split; auto.
    intros [|i] ? ? ? H; discriminate.
  - unfold wf_graph in Hwf. simpl in Hwf.
    apply andb_true_iff in Hwf. destruct Hwf as [Hnode Hrest].
    destruct (update_node_wf p node_id node w Hnode Hfetch)
      as (node' & w1 & Hrun & Hbind).
    destruct (IH Hrest w1) as (nodes' & w' & Hmap & Hkeys & Hall).
    exists ((node_id, node') :: nodes'), w'. split; [|split].
    + cbn [Mon.mapM]. unfold Mon.bind at 1. rewrite Hrun.
      unfold Mon.bind at 1. rewrite Hmap. reflexivity.
    + simpl. now rewrite Hkeys.
    + intros [|i] id0 node0 old Hnth Hcls Hold; simpl in *.
      * injection Hnth as <- <-. exists node'. split; [reflexivity|].
        now apply Hbind.
      * eapply Hall; eassumption.
Qed.

End Binder.

(** C7.  On a graph whose nodes are mappings with an inputs mapping, with a
    parameter mapping and no failing download, the binder returns the graph
    with the same node identifiers in the same order, and the text input of
    every text-encode node that has one is [positive_prompt] when that key
    is present, else [prompt] when that key is present, else what it was;
    when both keys are present [positive_prompt] wins. *)
Theorem update_workflow_binds_text (E : Env) (nodes p : dict) (w : World) :
  wf_graph nodes = true ->
  (forall n url path, fetch_image E n url path = None) ->
  (exists nodes' w',
      update_workflow_with_inputs E (JObj nodes) (JObj p) w
      = (Ok (JObj nodes'), w')
      /\ map fst nodes' = map fst nodes
      /\ forall i node_id node old,
           nth_error nodes i = Some (node_id, node) ->
           node_class node = Some "CLIPTextEncode" ->
           node_input "text" node = Some old ->
           exists node',
             nth_error nodes' i = Some (node_id, node')
             /\ node_input "text" node' = Some (bound_text p old))
  /\ (forall a b old,
         dict_get "positive_prompt" p = Some a ->
         dict_get "prompt" p = Some b ->
         bound_text p old = a).
Proof.
  intros Hwf Hfetch. split.
  - destruct (mapM_update_wf E p nodes w Hwf Hfetch)
      as (nodes' & w' & Hmap & Hkeys & Hall).
    exists nodes', w'. split; [|split; assumption].
    unfold update_workflow_with_inputs, Mon.bind at 1, Mon.lift.
    cbn [py_items]. unfold Mon.bind. rewrite Hmap. reflexivity.
  - intros a b old Ha _. unfold bound_text. now rewrite Ha.
Qed.

(** C10.  Whenever the binder returns a graph, that graph has the nodes of
    the given one, in the same order and under the same identifiers, and
    each node is either untouched, or a [CLIPTextEncode] node with only its
    [text] input replaced, or a [LoadImage] node with only its [image]
    input set.  The result depends on the parameters through the keys
    [positive_prompt], [prompt] and [image_url] only; in particular,
    setting [negative_prompt], [seed], [steps] or [cfg] to any value
    changes nothing. *)
Theorem update_workflow_frame (E : Env) (workflow : json) (w : World) :
  (forall params answer w',
      update_workflow_with_inputs E workflow params w = (Ok answer, w') ->
      exists nodes nodes',
        workflow = JObj nodes /\ answer = JObj nodes'
        /\ Forall2 item_change nodes nodes')
  /\ (forall p1 p2,
         (forall k, In k USED_PARAMS -> dict_get k p1 = dict_get k p2) ->
         update_workflow_with_inputs E workflow (JObj p1) w
         = update_workflow_with_inputs E workflow (JObj p2) w)
  /\ (forall k v p,
         In k UNUSED_PARAMS ->
         update_workflow_with_inputs E workflow (JObj (dict_set k v p)) w
         = update_workflow_with_inputs E workflow (JObj p) w).
Proof.
  split; [|split].
  - intros params answer w'.
    unfold update_workflow_with_inputs, Mon.bind at 1, Mon.lift.
    destruct workflow as [| | | | |nodes]; try discriminate.
    cbn [py_items]. unfold Mon.bind.
    destruct (Mon.mapM (update_node E params) nodes w)
      as [[nodes'|e] w1] eqn:Hmap; [|discriminate].
    unfold Mon.ret. intros [= <- _].
    exists nodes, nodes'. repeat split.
    eapply mapM_update_change; eassumption.
  - intros p1 p2 H. now apply update_workflow_params.
  - intros k v p Hk. apply update_workflow_params.
    intros k0 Hk0. apply dict_get_set_other.
    intros ->. simpl in Hk, Hk0.
    repeat (destruct Hk as [<-|Hk];
            [repeat (destruct Hk0 as [Hk0|Hk0]; [discriminate|]);
             contradiction|]).
    contradiction.
Qed.

(** ** Delivery *)

Section Delivery.
Variable E : Env.

Lemma upload_unconfigured (file_path s3_key : string) (w : World) :
  s3_configured E = false ->
  upload_to_s3 E file_path s3_key w
  = (Err (Exn ValueError "S3 configuration is incomplete"), w).
Proof.
  intros H. unfold upload_to_s3. now rewrite H.
Qed.

(** A configured upload makes exactly one external call. *)
Lemma upload_configured_world (file_path s3_key : string) (w : World) :
  s3_configured E = true ->
  snd (upload_to_s3 E file_path s3_key w) = advance E w 1 0.
Proof.
  intros H. unfold upload_to_s3. rewrite H. cbn [negb].
  unfold Mon.bind, external. rewrite advance_one.
  destruct (s3_upload_file E (calls w) file_path _ s3_key); reflexivity.
Qed.

Lemma upload_world_step (file_path s3_key : string) (w : World) :
  snd (upload_to_s3 E file_path s3_key w) = upload_world E w 1.
Proof.
  unfold upload_world. destruct (s3_configured E) eqn:H.
  - now apply upload_configured_world.
  - now rewrite upload_unconfigured.
Qed.

Lemma upload_world_shift (w : World) (k : nat) :
  upload_world E (upload_world E w 1) k = upload_world E w (S k).
Proof.
  unfold upload_world. destruct (s3_configured E); [|reflexivity].
  now rewrite advance_advance.
Qed.

Lemma upload_world_next (w : World) (k : nat) :
  upload_world E (upload_world E w k) 1 = upload_world E w (S k).
Proof.
  unfold upload_world. destruct (s3_configured E); [|reflexivity].
  rewrite advance_advance. f_equal; lia.
Qed.

Lemma upload_world_0 (w : World) : upload_world E w 0 = w.
Proof.
  unfold upload_world. destruct (s3_configured E); [|reflexivity].
  apply advance_0_0.
Qed.

Lemma deliver_fallback_regular (file_ext file_path content : string) :
  fs E file_path = Some (File content) ->
  deliver_fallback E file_ext file_path
  = Ok (fallback_record file_ext content).
Proof.
  intros H. unfold deliver_fallback, os_path_getsize, read_file, fallback_record.
  rewrite H. cbn [Res.bind].
  destruct (N.of_nat (String.length content) <? BASE64_LIMIT)%N; reflexivity.
Qed.

(** One iteration of the loop on a regular file never raises. *)
Lemma deliver_file_regular (workflow_name : json) (timestamp i : nat)
      (file_path content : string) (w : World) :
  fs E file_path = Some (File content) ->
  deliver_file E workflow_name timestamp i file_path w
  = (Ok (delivery_record E file_path content
           (s3_key_of E workflow_name timestamp i file_path) w),
     upload_world E w 1).
Proof.
  intros H. rewrite <- (upload_world_step file_path
                          (s3_key_of E workflow_name timestamp i file_path) w).
  unfold deliver_file, delivery_record, Mon.try_except, Mon.bind, Mon.lift.
  fold (s3_key_of E workflow_name timestamp i file_path).
  destruct (upload_to_s3 E file_path
              (s3_key_of E workflow_name timestamp i file_path) w)
    as [[url|e] w1]; [reflexivity|].
  now rewrite (deliver_fallback_regular _ _ _ H).
Qed.

Lemma deliver_from_regular (workflow_name : json) (timestamp : nat)
      (files : list string) (i0 : nat) (w : World) :
  forallb (is_regular E) files = true ->
  exists records,
    deliver_from E workflow_name timestamp i0 files w
    = (Ok records, upload_world E w (List.length files))
    /\ List.length records = List.length files
    /\ forall k file_path,
         nth_error files k = Some file_path ->
         exists content,
           fs E file_path = Some (File content)
           /\ nth_error records k
              = Some (delivery_record E file_path content
                        (s3_key_of E workflow_name timestamp (i0 + k)
                                   file_path)
                        (upload_world E w k)).
Proof.
  revert i0 w. induction files as [|file_path files IH]; intros i0 w Hreg.
  - exists []. rewrite upload_world_0. repeat split.
    intros [|k] ? H; discriminate.
  - cbn [forallb] in Hreg. apply andb_true_iff in Hreg.
    destruct Hreg as [Hfile Hrest].
    unfold is_regular in Hfile.
    destruct (fs E file_path) as [[content|n]|] eqn:Hfs; try discriminate.
    destruct (IH (S i0) (upload_world E w 1) Hrest)
      as (records & Hrun & Hlen & Hall).
    eexists. split; [|split].
    + cbn [deliver_from]. unfold Mon.bind at 1.
      rewrite (deliver_file_regular _ _ _ _ _ _ Hfs).
      unfold Mon.bind at 1. rewrite Hrun.
      unfold Mon.ret. rewrite upload_world_shift. reflexivity.
    + simpl. now rewrite Hlen.
    + intros [|k] path Hnth; cbn [nth_error] in *.
      * injection Hnth as <-. exists content.
        rewrite Nat.add_0_r, upload_world_0. auto.
      * destruct (Hall k path Hnth) as (c & Hc & Hrec).
        exists c. split; [exact Hc|].
        rewrite Hrec, upload_world_shift.
        now replace (S i0 + k) with (i0 + S k) by lia.
Qed.

(** One iteration of the loop on a directory under the size limit whose
    upload fails: the fallback raises, and so does the iteration. *)
Lemma deliver_file_directory (workflow_name : json) (timestamp i : nat)
      (file_path : string) (n : N) (e : exn) (w : World) :
  fs E file_path = Some (Dir n) ->
  (n <? BASE64_LIMIT)%N = true ->
  fst (upload_to_s3 E file_path
         (s3_key_of E workflow_name timestamp i file_path) w) = Err e ->
  deliver_file E workflow_name timestamp i file_path w
  = (Err (Exn IsADirectoryError
            ("[Errno 21] Is a directory: '" ++ file_path ++ "'")),
     upload_world E w 1).
Proof.
  intros Hfs Hsize Hup.
  rewrite <- (upload_world_step file_path
                (s3_key_of E workflow_name timestamp i file_path) w).
  unfold deliver_file, Mon.try_except, Mon.bind, Mon.lift.
  fold (s3_key_of E workflow_name timestamp i file_path).
  destruct (upload_to_s3 E file_path
              (s3_key_of E workflow_name timestamp i file_path) w)
    as [[url|e'] w1]; [discriminate|].
  cbn [snd]. unfold deliver_fallback, os_path_getsize, read_file.
  rewrite Hfs. cbn [Res.bind]. rewrite Hsize. reflexivity.
Qed.

(** The loop stops at the first iteration that raises. *)
Lemma deliver_from_raises (workflow_name : json) (timestamp : nat)
      (pre : list string) (file_path : string) (rest : list string)
      (i0 : nat) (e : exn) (w w' : World) :
  forallb (is_regular E) pre = true ->
  deliver_file E workflow_name timestamp (i0 + List.length pre) file_path
               (upload_world E w (List.length pre)) = (Err e, w') ->
  deliver_from E workflow_name timestamp i0 (pre ++ file_path :: rest)%list w
  = (Err e, w').
Proof.
  revert i0 w. induction pre as [|p pre IH]; intros i0 w Hreg Hfail.
  - cbn [List.length app] in *. rewrite Nat.add_0_r, upload_world_0 in Hfail.
    cbn [deliver_from]. unfold Mon.bind at 1. now rewrite Hfail.
  - cbn [forallb] in Hreg. apply andb_true_iff in Hreg.
    destruct Hreg as [Hp Hpre]. unfold is_regular in Hp.
    destruct (fs E p) as [[content|n]|] eqn:Hfs; try discriminate.
    cbn [app deliver_from]. unfold Mon.bind at 1.
    rewrite (deliver_file_regular _ _ _ _ _ _ Hfs).
    unfold Mon.bind at 1.
    rewrite (IH (S i0) (upload_world E w 1) Hpre); [reflexivity|].
    rewrite upload_world_shift.
    cbn [List.length] in Hfail.
    now replace (S i0 + List.length pre) with (i0 + S (List.length pre))
      by lia.
Qed.

End Delivery.

(** C1, as the claim has it, fails: a produced path that is a directory
    exists, so it is collected; its upload fails and its size is under
    10 MiB, yet no inline record is produced: reading it raises, and the
    whole invocation ends FAILED. *)
Lemma delivery_of_directory_aborts :
  let E := Scenario.no_bucket (Scenario.media_manifest ["previews"]) in
  let file_path := "/comfyui/output/previews" in
  get_output_files E (Scenario.media_manifest ["previews"]) = Ok [file_path]
  /\ (forall s3_key w,
         fst (upload_to_s3 E file_path s3_key w)
         = Err (Exn ValueError "S3 configuration is incomplete"))
  /\ os_path_getsize E file_path = Ok 4096%N
  /\ (4096 <? BASE64_LIMIT)%N = true
  /\ fst (handler E Scenario.t2v_event Scenario.ready_world)
     = JObj [ ("error",
               JStr "[Errno 21] Is a directory: '/comfyui/output/previews'");
              ("status", JStr "FAILED");
              ("execution_time", JInt 2) ].
Proof.
  cbv zeta. repeat split; vm_compute; reflexivity.
Qed.

(** C3: the fallback branch never classifies a file as unknown.  A produced
    [.webp] file whose upload fails is delivered with type image, while the
    upload branch gives the same extension the type unknown. *)
Theorem fallback_type_is_never_unknown :
  (forall file_ext, media_type_inline file_ext <> "unknown")
  /\ media_type_uploaded ".webp" = "unknown"
  /\ deliver_file (Scenario.no_bucket Scenario.cat_manifest) (JStr "t2v")
       100 0 "/comfyui/output/anim.webp" Scenario.ready_world
     = (Ok (JObj [ ("type", JStr "image");
                   ("data", JStr "UklGRg==");
                   ("format", JStr "webp") ]),
        Scenario.ready_world).
Proof.
  split; [|split].
  - intros file_ext. unfold media_type_inline.
    destruct (str_in file_ext VIDEO_EXTS); discriminate.
  - reflexivity.
  - vm_compute. reflexivity.
Qed.




(** C2: the two FAILED answers the handler returns itself carry the error
    text and the status but no execution time: the one for an event that
    names no workflow, and the one for a job that produced no file. *)
Theorem early_failures_lack_execution_time :
  (let answer :=
     fst (handler Scenario.good (JObj [("input", JObj [])])
            Scenario.ready_world) in
   answer = JObj [ ("error", JStr "workflow_name or workflow_json is required");
                   ("status", JStr "FAILED") ]
   /\ py_get answer "execution_time" JNull = Ok JNull)
  /\ (let answer :=
        fst (handler
               (Scenario.no_bucket (Scenario.media_manifest ["missing.png"]))
               Scenario.t2v_event Scenario.ready_world) in
      answer = JObj [ ("error", JStr "No output files generated");
                      ("status", JStr "FAILED") ]
      /\ py_get answer "execution_time" JNull = Ok JNull).
Proof.
  cbv zeta. repeat split; vm_compute; reflexivity.
Qed.

(** * The invocation as a pipeline *)

Lemma bind_ext {A B} (m : M A) (k1 k2 : A -> M B) (w : World) :
  (forall a w', k1 a w' = k2 a w') -> Mon.bind m k1 w = Mon.bind m k2 w.
Proof.
  intros H. unfold Mon.bind. destruct (m w) as [[a|e] w']; [apply H|reflexivity].
Qed.

Lemma bind_lift_ok {A B} (a : A) (k : A -> M B) (w : World) :
  Mon.bind (Mon.lift (Ok a)) k w = k a w.
Proof.
  reflexivity.
Qed.

Lemma bind_ret_ok {A B} (a : A) (k : A -> M B) (w : World) :
  Mon.bind (Mon.ret a) k w = k a w.
Proof.
  reflexivity.
Qed.

Lemma bind_run {A B} (m : M A) (k : A -> M B) (a : A) (w w1 : World) :
  m w = (Ok a, w1) -> Mon.bind m k w = k a w1.
Proof.
  intros H. unfold Mon.bind. now rewrite H.
Qed.

Lemma bind_fail {A B} (m : M A) (k : A -> M B) (e : exn) (w w1 : World) :
  m w = (Err e, w1) -> Mon.bind m k w = (Err e, w1).
Proof.
  intros H. unfold Mon.bind. now rewrite H.
Qed.

Lemma load_workflow_ok_truthy (E : Env) (workflow_type graph : json) :
  load_workflow E workflow_type = Ok graph -> py_truthy workflow_type = true.
Proof.
  destruct workflow_type as [|b|z|name|l|d]; try discriminate.
  destruct name; [discriminate | reflexivity].
Qed.

Section Pipeline.
Variable E : Env.

Lemma queue_workflow_run (workflow : json) (w : World) :
  queue_workflow E workflow w
  = (post_prompt E (calls w) workflow, advance E w 1 0).
Proof.
  unfold queue_workflow, Mon.bind, external, Mon.lift. rewrite advance_one.
  now destruct (post_prompt E (calls w) workflow).
Qed.

(** The [try] block on a ready worker, from the binder on, for an input
    that resolves to a graph. *)
Lemma handler_body_resolved (event input_data : dict) (workflow : json)
      (start_time : nat) (w : World) :
  comfyui_ready w = true ->
  input_of event = JObj input_data ->
  resolves_to E input_data workflow ->
  handler_body E (JObj event) start_time w
  = Mon.bind (update_workflow_with_inputs E workflow (params_of input_data))
      (fun workflow' =>
         Mon.bind (queue_workflow E workflow')
           (fun prompt_id =>
              Mon.bind (wait_for_completion E prompt_id DEFAULT_TIMEOUT)
                (fun outputs =>
                   Mon.bind (Mon.lift (get_output_files E outputs))
                     (fun output_files =>
                        match output_files with
                        | [] =>
                            Mon.ret (failed_early "No output files generated")
                        | _ =>
                            handler_deliver E
                              (field "workflow_name" input_data) prompt_id
                              output_files start_time
                        end)))) w.
Proof.
  intros Hready Hinput Hres. unfold handler_body.
  unfold Mon.bind at 1. unfold Mon.get_world. cbv beta iota.
  rewrite Hready. rewrite bind_ret_ok. cbv beta.
  change (py_get (JObj event) "input" (JObj [])) with (Ok (input_of event)).
  rewrite Hinput. rewrite bind_lift_ok. cbv beta.
  change (py_get (JObj input_data) "workflow_name" JNull)
    with (Ok (field "workflow_name" input_data)).
  rewrite bind_lift_ok. cbv beta.
  change (py_get (JObj input_data) "workflow_json" JNull)
    with (Ok (field "workflow_json" input_data)).
  rewrite bind_lift_ok. cbv beta.
  change (py_get (JObj input_data) "params" (JObj []))
    with (Ok (params_of input_data)).
  rewrite bind_lift_ok. cbv beta.
  change (py_get (JObj input_data) "input_assets" (JList []))
    with (Ok (match dict_get "input_assets" input_data with
              | Some v => v
              | None => JList []
              end)).
  rewrite bind_lift_ok. cbv beta.
  destruct Hres as [[Hjson ->]|[Hjson Hload]].
  - rewrite Hjson, andb_false_r. rewrite bind_ret_ok. reflexivity.
  - rewrite Hjson, (load_workflow_ok_truthy E _ _ Hload), Hload.
    cbn [negb andb]. rewrite bind_lift_ok. reflexivity.
Qed.

End Pipeline.

Section Waiting.
Variable E : Env.
Variable prompt_id : string.

Lemma elapsed_now (w : World) : elapsed (clock w) w = 0%Z.
Proof.
  unfold elapsed. now rewrite Nat.sub_diag.
Qed.

Lemma wait_for_completion_unfold (timeout : Z) (w : World) :
  wait_for_completion E prompt_id timeout w
  = poll_history E (Z.to_nat timeout) prompt_id timeout (clock w) w.
Proof.
  reflexivity.
Qed.

End Waiting.

(** * Polling and delivery within the invocation *)




(** C1, as the code has it.  Take an invocation on a ready worker whose
    graph was bound, queued and reported done, and whose outputs name at
    least one existing path.

    When every collected path is a regular file, the invocation ends
    COMPLETED with one record per file, in order.  The record of a file
    whose upload succeeds is the remote-url record: its type (video for
    mp4, webm, avi and mov, image for png, jpg and jpeg, unknown
    otherwise), the url the upload returned and the file's base name, and
    nothing else.  The record of a file whose upload fails is, for a size
    under 10 MiB, the inline record: type, the base64 text of the content
    and the extension without its dot; and otherwise the error record
    citing the size in bytes.

    The fallback is not protected: when a collected path is a directory
    under 10 MiB whose upload fails, with regular files before it, reading
    it raises, no record is produced for it or for any later file, and the
    invocation ends FAILED with that error. *)
Theorem delivery_of_regular_files (E : Env) (event input_data : dict)
        (workflow workflow' outputs : json) (prompt_id : string)
        (files : list string) (w w1 w2 : World) :
  comfyui_ready w = true ->
  input_of event = JObj input_data ->
  resolves_to E input_data workflow ->
  update_workflow_with_inputs E workflow (params_of input_data) w
  = (Ok workflow', w1) ->
  post_prompt E (calls w1) workflow' = Ok prompt_id ->
  wait_for_completion E prompt_id 600 (advance E w1 1 0) = (Ok outputs, w2) ->
  get_output_files E outputs = Ok files ->
  files <> [] ->
  (forallb (is_regular E) files = true ->
   exists records,
     handler E (JObj event) w
     = (JObj [ ("status", JStr "COMPLETED");
               ("outputs", JList records);
               ("metadata",
                JObj [ ("workflow_name", field "workflow_name" input_data);
                       ("execution_time",
                        JInt (Z.of_nat
                                (clock (upload_world E w2 (List.length files))
                                 - clock w)));
                       ("prompt_id", JStr prompt_id) ]) ],
        upload_world E w2 (List.length files))
     /\ List.length records = List.length files
     /\ forall k file_path,
          nth_error files k = Some file_path ->
          exists content,
            fs E file_path = Some (File content)
            /\ nth_error records k
               = Some
                   (match
                       fst (upload_to_s3 E file_path
                              (s3_key_of E (field "workflow_name" input_data)
                                         (clock w2) k file_path)
                              (upload_world E w2 k))
                     with
                     | Ok url =>
                         JObj [ ("type",
                                 JStr (if str_in (splitext_ext file_path)
                                            [".mp4"; ".webm"; ".avi"; ".mov"]
                                       then "video"
                                       else if str_in (splitext_ext file_path)
                                                 [".png"; ".jpg"; ".jpeg"]
                                            then "image"
                                            else "unknown"));
                                ("url", JStr url);
                                ("filename",
                                 JStr (os_path_basename file_path)) ]
                     | Err _ =>
                         if (N.of_nat (String.length content)
                             <? 10 * 1024 * 1024)%N
                         then
                           JObj [ ("type",
                                   JStr (if str_in (splitext_ext file_path)
                                              [".mp4"; ".webm"; ".avi"; ".mov"]
                                         then "video" else "image"));
                                  ("data", JStr (b64encode content));
                                  ("format",
                                   JStr (str_tail (splitext_ext file_path))) ]
                         else
                           JObj [ ("type", JStr "error");
                                  ("error",
                                   JStr ("File too large for base64 encoding: "
                                         ++ N_str (N.of_nat
                                                     (String.length content))
                                         ++ " bytes")) ]
                     end))
  /\ (forall pre file_path rest n e,
         files = (pre ++ file_path :: rest)%list ->
         forallb (is_regular E) pre = true ->
         fs E file_path = Some (Dir n) ->
         (n < 10 * 1024 * 1024)%N ->
         fst (upload_to_s3 E file_path
                (s3_key_of E (field "workflow_name" input_data) (clock w2)
                           (List.length pre) file_path)
                (upload_world E w2 (List.length pre))) = Err e ->
         handler E (JObj event) w
         = (JObj [ ("error",
                    JStr ("[Errno 21] Is a directory: '" ++ file_path ++ "'"));
                   ("status", JStr "FAILED");
                   ("execution_time",
                    JInt (Z.of_nat
                            (clock (upload_world E w2 (S (List.length pre)))
                             - clock w))) ],
            upload_world E w2 (S (List.length pre)))).
Proof.
  intros Hready Hinput Hres Hbind Hpost Hwait Hfiles Hsome.
  pose proof (handler_body_resolved E event input_data workflow (clock w) w
                Hready Hinput Hres) as Hbody.
  rewrite (bind_run _ _ _ _ _ Hbind) in Hbody.
  rewrite (bind_run _ _ prompt_id w1 (advance E w1 1 0)) in Hbody
    by now rewrite queue_workflow_run, Hpost.
  rewrite (bind_run _ _ _ _ _ Hwait) in Hbody.
  rewrite Hfiles, bind_lift_ok in Hbody.
  assert (Hdeliver :
            handler_body E (JObj event) (clock w) w
            = handler_deliver E (field "workflow_name" input_data) prompt_id
                files (clock w) w2).
  { rewrite Hbody. destruct files; [now elim Hsome | reflexivity]. }
  clear Hbody. unfold handler. rewrite Hdeliver.
  unfold handler_deliver.
  rewrite (bind_run _ _ (clock w2) w2 w2) by reflexivity.
  split.
  - intros Hreg.
    destruct (deliver_from_regular E (field "workflow_name" input_data)
                (clock w2) files 0 w2 Hreg) as (records & Hrun & Hlen & Hall).
    exists records. split; [|split; [exact Hlen|]].
    + rewrite (bind_run _ _ _ _ _ Hrun). reflexivity.
    + intros k file_path Hnth.
      destruct (Hall k file_path Hnth) as (content & Hfs & Hrec).
      exists content. split; [exact Hfs|].
      rewrite Hrec. unfold delivery_record. reflexivity.
  - intros pre file_path rest n e -> Hpre Hdir Hsize Hup.
    rewrite (bind_fail _ _
               (Exn IsADirectoryError
                  ("[Errno 21] Is a directory: '" ++ file_path ++ "'"))
               w2 (upload_world E w2 (S (List.length pre))));
      [reflexivity|].
    apply deliver_from_raises; [exact Hpre|].
    rewrite (deliver_file_directory E _ _ _ _ n e); try assumption.
    + now rewrite upload_world_next.
    + now apply N.ltb_lt.
Qed.

Lemma delivery_of_regular_files_witness :
  fst (handler Scenario.good
         (JObj [ ("input",
                  JObj [ ("workflow_name", JStr "t2v");
                         ("workflow_json",
                          JObj [ ("9", JObj [ ("class_type",
                                               JStr "SaveImage") ]) ]) ]) ])
         Scenario.ready_world)
  = JObj [ ("status", JStr "COMPLETED");
           ("outputs",
            JList [ JObj [ ("type", JStr "image");
                           ("url",
                            JStr "https://s3.example.com/media/generated/t2v/102_0.png");
                           ("filename", JStr "cat.png") ] ]);
           ("metadata",
            JObj [ ("workflow_name", JStr "t2v");
                   ("execution_time", JInt 2);
                   ("prompt_id", JStr "abc") ]) ]
  /\ fst (handler (Scenario.no_bucket (Scenario.media_manifest ["previews"]))
            (JObj [ ("input",
                     JObj [ ("workflow_name", JStr "t2v");
                            ("workflow_json",
                             JObj [ ("9", JObj [ ("class_type",
                                                  JStr "SaveImage") ]) ]) ]) ])
            Scenario.ready_world)
     = JObj [ ("error",
               JStr "[Errno 21] Is a directory: '/comfyui/output/previews'");
              ("status", JStr "FAILED");
              ("execution_time", JInt 2) ].
Proof.
  split.
  - destruct (delivery_of_regular_files Scenario.good
                [ ("input",
                   JObj [ ("workflow_name", JStr "t2v");
                          ("workflow_json",
                           JObj [ ("9", JObj [ ("class_type",
                                                JStr "SaveImage") ]) ]) ]) ]
                [ ("workflow_name", JStr "t2v");
                  ("workflow_json",
                   JObj [ ("9", JObj [ ("class_type", JStr "SaveImage") ]) ]) ]
                (JObj [ ("9", JObj [ ("class_type", JStr "SaveImage") ]) ])
                (JObj [ ("9", JObj [ ("class_type", JStr "SaveImage") ]) ])
                Scenario.cat_manifest "abc" ["/comfyui/output/cat.png"]
                Scenario.ready_world Scenario.ready_world
                {| comfyui_process := Some 1; comfyui_ready := true;
                   clock := 102; calls := 9 |}
                eq_refl eq_refl (or_introl (conj eq_refl eq_refl))
                eq_refl eq_refl
                ltac:(vm_compute; reflexivity) eq_refl
                ltac:(discriminate)) as [Hregular _].
    destruct (Hregular eq_refl) as (records & Hrun & Hlen & Hall).
    destruct (Hall 0 "/comfyui/output/cat.png" eq_refl)
      as (content & _ & Hrec).
    destruct records as [|record [|record' records]]; try discriminate Hlen.
    vm_compute in Hrec. injection Hrec as ->.
    rewrite Hrun. reflexivity.
  - destruct (delivery_of_regular_files
                (Scenario.no_bucket (Scenario.media_manifest ["previews"]))
                [ ("input",
                   JObj [ ("workflow_name", JStr "t2v");
                          ("workflow_json",
                           JObj [ ("9", JObj [ ("class_type",
                                                JStr "SaveImage") ]) ]) ]) ]
                [ ("workflow_name", JStr "t2v");
                  ("workflow_json",
                   JObj [ ("9", JObj [ ("class_type", JStr "SaveImage") ]) ]) ]
                (JObj [ ("9", JObj [ ("class_type", JStr "SaveImage") ]) ])
                (JObj [ ("9", JObj [ ("class_type", JStr "SaveImage") ]) ])
                (Scenario.media_manifest ["previews"]) "abc"
                ["/comfyui/output/previews"]
                Scenario.ready_world Scenario.ready_world
                {| comfyui_process := Some 1; comfyui_ready := true;
                   clock := 102; calls := 9 |}
                eq_refl eq_refl (or_introl (conj eq_refl eq_refl))
                eq_refl eq_refl
                ltac:(vm_compute; reflexivity) eq_refl
                ltac:(discriminate)) as [_ Hdirectory].
    rewrite (Hdirectory [] "/comfyui/output/previews" [] 4096%N
               (Exn ValueError "S3 configuration is incomplete")
               eq_refl eq_refl eq_refl eq_refl eq_refl).
    reflexivity.
Defined.

(** ** The claims on the concrete deployment *)

Lemma load_workflow_resolves_witness :
  load_workflow Scenario.good (JStr "t2v") = Ok Scenario.t2v_graph
  /\ load_workflow Scenario.good (JStr "i2v")
     = Err (Exn FileNotFoundError
              "Workflow file not found: /comfyui/workflows/i2v.json")
  /\ load_workflow Scenario.good (JStr "upscale")
     = Err (Exn ValueError
              "Unknown workflow_type: upscale. Available: t2v, i2v, fun_camera, vace").
Proof.
  split; [|split].
  - destruct (load_workflow_resolves Scenario.good "t2v") as (H & _ & _).
    exact (H "t2v.json" "t2v" eq_refl eq_refl).
  - destruct (load_workflow_resolves Scenario.good "i2v") as (_ & _ & H).
    exact (H "i2v.json" eq_refl eq_refl).
  - destruct (load_workflow_resolves Scenario.good "upscale") as (_ & H & _).
    exact (H eq_refl).
Defined.

Lemma get_output_files_collects_witness :
  get_output_files Scenario.good
    (Scenario.media_manifest ["cat.png"; "missing.png"; "cat.png"])
  = Ok ["/comfyui/output/cat.png"; "/comfyui/output/cat.png"].
Proof.
  exact (get_output_files_collects Scenario.good
           (Scenario.media_manifest ["cat.png"; "missing.png"; "cat.png"])
           _ eq_refl).
Defined.

Lemma update_workflow_binds_text_witness :
  exists nodes' w' node',
    update_workflow_with_inputs Scenario.good Scenario.t2v_graph
      (JObj [ ("prompt", JStr "a dog"); ("positive_prompt", JStr "a cat") ])
      Scenario.ready_world
    = (Ok (JObj nodes'), w')
    /\ nth_error nodes' 0 = Some ("6", node')
    /\ node_input "text" node' = Some (JStr "a cat").
Proof.
  destruct (update_workflow_binds_text Scenario.good Scenario.t2v_nodes
              [ ("prompt", JStr "a dog"); ("positive_prompt", JStr "a cat") ]
              Scenario.ready_world eq_refl (fun _ _ _ => eq_refl))
    as ((nodes' & w' & Hrun & _ & Hall) & _).
  destruct (Hall 0 "6" _ (JStr "placeholder") eq_refl eq_refl eq_refl)
    as (node' & Hnth & Htext).
  exists nodes', w', node'. repeat split; assumption.
Defined.

Lemma update_workflow_frame_witness :
  update_workflow_with_inputs Scenario.good Scenario.t2v_graph
    (JObj [ ("prompt", JStr "a cat"); ("seed", JInt 7) ]) Scenario.ready_world
  = update_workflow_with_inputs Scenario.good Scenario.t2v_graph
      (JObj [ ("prompt", JStr "a cat") ]) Scenario.ready_world.
Proof.
  destruct (update_workflow_frame Scenario.good Scenario.t2v_graph
              Scenario.ready_world) as (_ & _ & H).
  exact (H "seed" (JInt 7) [ ("prompt", JStr "a cat") ]
           (or_intror (or_introl eq_refl))).
Defined.

(** * Further properties of the handler *)

(** ** Computations that leave the server state alone *)

Lemma same_server_refl (w : World) : same_server w w.
Proof.
  unfold same_server. auto.
Qed.

Lemma same_server_trans (w1 w2 w3 : World) :
  same_server w1 w2 -> same_server w2 w3 -> same_server w1 w3.
Proof.
  unfold same_server. intros (Hp & Hr & Hc & Hn) (Hp' & Hr' & Hc' & Hn').
  repeat split; try congruence; lia.
Qed.

Lemma quiet_ret {A} (a : A) : quiet (Mon.ret a).
Proof.
  intros w. apply same_server_refl.
Qed.

Lemma quiet_raise {A} (e : exn) : quiet (@Mon.raise A e).
Proof.
  intros w. apply same_server_refl.
Qed.

Lemma quiet_lift {A} (r : result A) : quiet (Mon.lift r).
Proof.
  intros w. apply same_server_refl.
Qed.

Lemma quiet_bind {A B} (m : M A) (k : A -> M B) :
  quiet m -> (forall a, quiet (k a)) -> quiet (Mon.bind m k).
Proof.
  intros Hm Hk w. unfold Mon.bind. specialize (Hm w).
  destruct (m w) as [[a|e] w1]; cbn [snd] in *; [|exact Hm].
  eapply same_server_trans; [exact Hm | apply Hk].
Qed.

Lemma quiet_try_except {A} (m : M A) (h : exn -> M A) :
  quiet m -> (forall e, quiet (h e)) -> quiet (Mon.try_except m h).
Proof.
  intros Hm Hh w. unfold Mon.try_except. specialize (Hm w).
  destruct (m w) as [[a|e] w1]; cbn [snd] in *; [exact Hm|].
  eapply same_server_trans; [exact Hm | apply Hh].
Qed.

Lemma quiet_mapM {A B} (f : A -> M B) (l : list A) :
  (forall x, quiet (f x)) -> quiet (Mon.mapM f l).
Proof.
  intros Hf. induction l as [|x l IH]; cbn [Mon.mapM].
  - apply quiet_ret.
  - apply quiet_bind; [apply Hf|]. intros y.
    apply quiet_bind; [exact IH|]. intros ys. apply quiet_ret.
Qed.

Section Quiet.
Variable E : Env.

Lemma quiet_external {A} (oracle : nat -> A) : quiet (external E oracle).
Proof.
  intros w. unfold external, same_server. cbn. repeat split; lia.
Qed.

Lemma quiet_sleep (n : nat) : quiet (sleep n).
Proof.
  intros w. unfold sleep, same_server. cbn. repeat split; lia.
Qed.

Lemma quiet_time_time : quiet time_time.
Proof.
  intros w. apply same_server_refl.
Qed.

Lemma quiet_upload_to_s3 (file_path s3_key : string) :
  quiet (upload_to_s3 E file_path s3_key).
Proof.
  unfold upload_to_s3. destruct (negb (s3_configured E)).
  - apply quiet_raise.
  - apply quiet_bind; [apply quiet_external|].
    intros [e|]; [apply quiet_raise | apply quiet_ret].
Qed.

Lemma quiet_queue_workflow (workflow : json) :
  quiet (queue_workflow E workflow).
Proof.
  unfold queue_workflow.
  apply quiet_bind; [apply quiet_external | intros; apply quiet_lift].
Qed.

Lemma quiet_poll_once (prompt_id : string) : quiet (poll_once E prompt_id).
Proof.
  unfold poll_once.
  apply quiet_bind; [apply quiet_external | intros response].
  apply quiet_bind; [apply quiet_lift | intros history].
  apply quiet_bind; [apply quiet_lift | intros [|]]; [|apply quiet_ret].
  apply quiet_bind; [apply quiet_lift | intros entry].
  apply quiet_bind; [apply quiet_lift | intros output]. apply quiet_ret.
Qed.

Lemma quiet_poll_history (fuel : nat) (prompt_id : string) (timeout : Z)
      (start_time : nat) :
  quiet (poll_history E fuel prompt_id timeout start_time).
Proof.
  induction fuel as [|fuel IH]; cbn [poll_history];
    (apply quiet_bind; [apply quiet_time_time | intros now]);
    destruct (Z.of_nat (now - start_time) <? timeout)%Z;
    try apply quiet_raise.
  apply quiet_bind; [apply quiet_poll_once | intros [output|]].
  - apply quiet_ret.
  - apply quiet_bind; [apply quiet_sleep | intros _; exact IH].
Qed.

Lemma quiet_wait_for_completion (prompt_id : string) (timeout : Z) :
  quiet (wait_for_completion E prompt_id timeout).
Proof.
  unfold wait_for_completion.
  apply quiet_bind; [apply quiet_time_time | intros start_time].
  apply quiet_poll_history.
Qed.

Lemma quiet_download_image (url : json) (save_path : string) :
  quiet (download_image E url save_path).
Proof.
  unfold download_image.
  apply quiet_bind; [apply quiet_external|].
  intros [e|]; [apply quiet_raise | apply quiet_ret].
Qed.

Lemma quiet_update_node (params : json) (item : string * json) :
  quiet (update_node E params item).
Proof.
  destruct item as [node_id node]. unfold update_node.
  apply quiet_bind; [apply quiet_lift | intros node1].
  apply quiet_bind; [|intros; apply quiet_ret].
  unfold update_image.
  apply quiet_bind; [apply quiet_lift | intros class_type].
  destruct (json_eq_str class_type "LoadImage"); [|apply quiet_ret].
  apply quiet_bind; [apply quiet_lift | intros [|]]; [|apply quiet_ret].
  apply quiet_bind; [apply quiet_lift | intros url].
  apply quiet_bind; [apply quiet_download_image | intros; apply quiet_lift].
Qed.

Lemma quiet_update_workflow (workflow params : json) :
  quiet (update_workflow_with_inputs E workflow params).
Proof.
  unfold update_workflow_with_inputs.
  apply quiet_bind; [apply quiet_lift | intros items].
  apply quiet_bind; [|intros; apply quiet_ret].
  apply quiet_mapM. apply quiet_update_node.
Qed.

Lemma quiet_deliver_from (workflow_name : json) (timestamp : nat)
      (files : list string) (i : nat) :
  quiet (deliver_from E workflow_name timestamp i files).
Proof.
  revert i. induction files as [|file_path files IH]; intros i;
    cbn [deliver_from]; [apply quiet_ret|].
  apply quiet_bind.
  - unfold deliver_file. apply quiet_try_except.
    + apply quiet_bind; [apply quiet_upload_to_s3 | intros; apply quiet_ret].
    + intros e. apply quiet_lift.
  - intros record. apply quiet_bind; [apply IH | intros; apply quiet_ret].
Qed.

Lemma quiet_handler_deliver (workflow_name : json) (prompt_id : string)
      (files : list string) (start_time : nat) :
  quiet (handler_deliver E workflow_name prompt_id files start_time).
Proof.
  unfold handler_deliver.
  apply quiet_bind; [apply quiet_time_time | intros timestamp].
  apply quiet_bind; [apply quiet_deliver_from | intros records].
  apply quiet_bind; [apply quiet_time_time | intros; apply quiet_ret].
Qed.

(** On a worker whose ready flag is set, the [try] block goes straight to
    the event. *)
Lemma handler_body_quiet (event : json) (start_time : nat) (w : World) :
  comfyui_ready w = true ->
  same_server w (snd (handler_body E event start_time w)).
Proof.
  intros Hready. unfold handler_body.
  unfold Mon.bind at 1. unfold Mon.get_world. cbv beta iota.
  rewrite Hready.
  refine (quiet_bind _ _ _ _ w); [apply quiet_ret | intros _].
  apply quiet_bind; [apply quiet_lift | intros input_data].
  apply quiet_bind; [apply quiet_lift | intros workflow_name].
  apply quiet_bind; [apply quiet_lift | intros workflow_json].
  apply quiet_bind; [apply quiet_lift | intros params].
  apply quiet_bind; [apply quiet_lift | intros input_assets].
  destruct (negb (py_truthy workflow_name) && negb (py_truthy workflow_json));
    [apply quiet_ret|].
  apply quiet_bind.
  { destruct (py_truthy workflow_json); [apply quiet_ret | apply quiet_lift]. }
  intros workflow.
  apply quiet_bind; [apply quiet_update_workflow | intros workflow'].
  apply quiet_bind; [apply quiet_queue_workflow | intros prompt_id].
  apply quiet_bind; [apply quiet_wait_for_completion | intros outputs].
  apply quiet_bind; [apply quiet_lift | intros output_files].
  destruct output_files; [apply quiet_ret | apply quiet_handler_deliver].
Qed.

End Quiet.

(** X1.  An invocation on a worker whose ready flag is set never changes
    the process handle or the flag, however the invocation ends and
    whatever the deployment does: the flag, once set, is not cleared, even
    when the process behind it has exited.  Neither the clock nor the count
    of external calls goes back, so the reported execution time is the time
    that passed. *)
Theorem handler_keeps_ready_server (E : Env) (event : json) (w : World) :
  comfyui_ready w = true ->
  comfyui_process (snd (handler E event w)) = comfyui_process w
  /\ comfyui_ready (snd (handler E event w)) = true
  /\ clock w <= clock (snd (handler E event w))
  /\ calls w <= calls (snd (handler E event w)).
Proof.
  intros Hready.
  pose proof (handler_body_quiet E event (clock w) w Hready) as H.
  unfold handler.
  destruct (handler_body E event (clock w) w) as [[answer|e] w'];
    cbn [snd] in *; destruct H as (Hp & Hr & Hc & Hn);
    repeat split; congruence || assumption.
Qed.

Lemma handler_keeps_ready_server_witness :
  comfyui_process
    (snd (handler Scenario.good Scenario.t2v_event Scenario.ready_world))
  = Some 1
  /\ comfyui_ready
       (snd (handler Scenario.good Scenario.t2v_event Scenario.ready_world))
     = true.
Proof.
  destruct (handler_keeps_ready_server Scenario.good Scenario.t2v_event
              Scenario.ready_world eq_refl) as (Hp & Hr & _).
  split; assumption.
Defined.

(** ** The shape of an answer *)

Lemma yields_bind {A B} (P : B -> Prop) (m : M A) (k : A -> M B) :
  (forall a, yields P (k a)) -> yields P (Mon.bind m k).
Proof.
  intros Hk w b w'. unfold Mon.bind.
  destruct (m w) as [[a|e] w1]; [apply Hk | discriminate].
Qed.

Lemma yields_ret {A} (P : A -> Prop) (a : A) : P a -> yields P (Mon.ret a).
Proof.
  intros H w b w' [= <- _]. exact H.
Qed.

Lemma failed_early_is_failed (message : string) :
  is_failed (failed_early message).
Proof.
  exists message. now left.
Qed.

Lemma failed_exception_is_failed (e : exn) (elapsed : nat) :
  is_failed (failed_exception e elapsed).
Proof.
  exists (exn_msg e). right. now exists elapsed.
Qed.

Lemma handler_body_yields (E : Env) (event : json) (start_time : nat) :
  yields (fun answer => is_completed answer \/ is_failed answer)
         (handler_body E event start_time).
Proof.
  unfold handler_body.
  apply yields_bind; intros w0.
  apply yields_bind; intros _.
  apply yields_bind; intros input_data.
  apply yields_bind; intros workflow_name.
  apply yields_bind; intros workflow_json.
  apply yields_bind; intros params.
  apply yields_bind; intros input_assets.
  destruct (negb (py_truthy workflow_name) && negb (py_truthy workflow_json)).
  { apply yields_ret. right. apply failed_early_is_failed. }
  apply yields_bind; intros workflow.
  apply yields_bind; intros workflow'.
  apply yields_bind; intros prompt_id.
  apply yields_bind; intros outputs.
  apply yields_bind; intros output_files.
  destruct output_files.
  { apply yields_ret. right. apply failed_early_is_failed. }
  unfold handler_deliver.
  apply yields_bind; intros timestamp.
  apply yields_bind; intros records.
  apply yields_bind; intros end_time.
  apply yields_ret. left. unfold is_completed. eauto.
Qed.

(** X2.  Whatever the event and whatever the deployment does, [handler]
    answers with a mapping of one of three shapes: the COMPLETED answer
    (status, outputs, metadata), the FAILED answer of the two early returns
    (error, status), or the FAILED answer of the top-level [except] (error,
    status, execution_time).  No exception leaves it. *)
Theorem handler_answer_shape (E : Env) (event : json) (w : World) :
  (exists records workflow_name elapsed prompt_id,
      fst (handler E event w)
      = JObj [ ("status", JStr "COMPLETED");
               ("outputs", JList records);
               ("metadata",
                JObj [ ("workflow_name", workflow_name);
                       ("execution_time", JInt (Z.of_nat elapsed));
                       ("prompt_id", JStr prompt_id) ]) ])
  \/ (exists message,
         fst (handler E event w)
         = JObj [ ("error", JStr message); ("status", JStr "FAILED") ])
  \/ (exists message elapsed,
         fst (handler E event w)
         = JObj [ ("error", JStr message);
                  ("status", JStr "FAILED");
                  ("execution_time", JInt (Z.of_nat elapsed)) ]).
Proof.
  unfold handler.
  destruct (handler_body E event (clock w) w) as [[answer|e] w'] eqn:Hrun;
    cbn [fst].
  - destruct (handler_body_yields E event (clock w) w answer w' Hrun)
      as [(records & name & elapsed & prompt_id & ->)
         |(message & [->|(elapsed & ->)])].
    + left. now exists records, name, elapsed, prompt_id.
    + right. left. now exists message.
    + right. right. now exists message, elapsed.
  - right. right. now exists (exn_msg e), (clock w' - clock w).
Qed.

(** ** Events the handler turns down before any work *)

Section Refusals.
Variable E : Env.

(** The [try] block on a ready worker, up to the test on the two workflow
    fields. *)
Lemma handler_body_unnamed (event input_data : dict) (start_time : nat)
      (w : World) :
  comfyui_ready w = true ->
  input_of event = JObj input_data ->
  py_truthy (field "workflow_name" input_data) = false ->
  py_truthy (field "workflow_json" input_data) = false ->
  handler_body E (JObj event) start_time w
  = (Ok (failed_early "workflow_name or workflow_json is required"), w).
Proof.
  intros Hready Hinput Hname Hjson.
  unfold handler_body, Mon.bind, Mon.get_world, Mon.lift, Mon.ret.
  rewrite Hready. cbn [py_get]. fold (input_of event). rewrite Hinput.
  cbn [py_get]. fold (field "workflow_name" input_data).
  fold (field "workflow_json" input_data).
  now rewrite Hname, Hjson.
Qed.

Lemma handler_body_load_fails (event input_data : dict) (start_time : nat)
      (e : exn) (w : World) :
  comfyui_ready w = true ->
  input_of event = JObj input_data ->
  py_truthy (field "workflow_json" input_data) = false ->
  py_truthy (field "workflow_name" input_data) = true ->
  load_workflow E (field "workflow_name" input_data) = Err e ->
  handler_body E (JObj event) start_time w = (Err e, w).
Proof.
  intros Hready Hinput Hjson Hname Hload.
  unfold handler_body, Mon.bind, Mon.get_world, Mon.lift, Mon.ret.
  rewrite Hready. cbn [py_get]. fold (input_of event). rewrite Hinput.
  cbn [py_get]. fold (field "workflow_name" input_data).
  fold (field "workflow_json" input_data).
  now rewrite Hname, Hjson, Hload.
Qed.

End Refusals.

(** X3.  On a ready worker, an event whose input names no workflow and
    carries no graph (both absent, or falsy: null, empty string, empty
    mapping) is answered at once with the early FAILED mapping: no request
    is sent, no time passes, nothing changes. *)
Theorem handler_requires_a_workflow (E : Env) (event input_data : dict)
        (w : World) :
  comfyui_ready w = true ->
  input_of event = JObj input_data ->
  py_truthy (field "workflow_name" input_data) = false ->
  py_truthy (field "workflow_json" input_data) = false ->
  handler E (JObj event) w
  = (JObj [ ("error", JStr "workflow_name or workflow_json is required");
            ("status", JStr "FAILED") ], w).
Proof.
  intros Hready Hinput Hname Hjson. unfold handler.
  now rewrite (handler_body_unnamed E event input_data (clock w) w).
Qed.

Lemma handler_requires_a_workflow_witness :
  handler Scenario.good
    (JObj [ ("input", JObj [ ("workflow_name", JStr EmptyString);
                             ("params", JObj [ ("prompt", JStr "a cat") ]) ]) ])
    Scenario.ready_world
  = (JObj [ ("error", JStr "workflow_name or workflow_json is required");
            ("status", JStr "FAILED") ], Scenario.ready_world).
Proof.
  apply (handler_requires_a_workflow Scenario.good
           [ ("input", JObj [ ("workflow_name", JStr EmptyString);
                              ("params", JObj [ ("prompt", JStr "a cat") ]) ]) ]
           [ ("workflow_name", JStr EmptyString);
             ("params", JObj [ ("prompt", JStr "a cat") ]) ]);
    reflexivity.
Defined.

(** X4.  On a ready worker, when no graph is supplied and [load_workflow]
    raises for the given name, the invocation ends there: the answer is the
    FAILED mapping with the text of that exception and an execution time,
    and no request was sent. *)
Theorem handler_reports_load_failure (E : Env) (event input_data : dict)
        (e : exn) (w : World) :
  comfyui_ready w = true ->
  input_of event = JObj input_data ->
  py_truthy (field "workflow_json" input_data) = false ->
  py_truthy (field "workflow_name" input_data) = true ->
  load_workflow E (field "workflow_name" input_data) = Err e ->
  exists elapsed,
    handler E (JObj event) w
    = (JObj [ ("error", JStr (exn_msg e));
              ("status", JStr "FAILED");
              ("execution_time", JInt (Z.of_nat elapsed)) ], w).
Proof.
  intros Hready Hinput Hjson Hname Hload. unfold handler.
  rewrite (handler_body_load_fails E event input_data (clock w) e w);
    try assumption.
  now exists (clock w - clock w).
Qed.

Lemma handler_reports_load_failure_witness :
  exists elapsed,
    handler Scenario.good
      (JObj [ ("input", JObj [ ("workflow_name", JStr "upscale") ]) ])
      Scenario.ready_world
    = (JObj [ ("error",
               JStr "Unknown workflow_type: upscale. Available: t2v, i2v, fun_camera, vace");
              ("status", JStr "FAILED");
              ("execution_time", JInt (Z.of_nat elapsed)) ],
       Scenario.ready_world).
Proof.
  apply (handler_reports_load_failure Scenario.good
           [ ("input", JObj [ ("workflow_name", JStr "upscale") ]) ]
           [ ("workflow_name", JStr "upscale") ]
           (Exn ValueError
              "Unknown workflow_type: upscale. Available: t2v, i2v, fun_camera, vace"));
    reflexivity.
Defined.

(** ** A supplied graph *)

Section AnotherLoader.
Variable E : Env.
Variable load : string -> result json.

Lemma wait_until_ready_loader (retries : nat) :
  wait_until_ready (with_json_load E load) retries = wait_until_ready E retries.
Proof.
  reflexivity.
Qed.

Lemma start_comfyui_loader : start_comfyui (with_json_load E load) = start_comfyui E.
Proof.
  unfold start_comfyui, spawn_and_wait.
  rewrite wait_until_ready_loader. reflexivity.
Qed.

Lemma poll_history_loader (fuel : nat) :
  poll_history (with_json_load E load) fuel = poll_history E fuel.
Proof.
  reflexivity.
Qed.

Lemma wait_for_completion_loader :
  wait_for_completion (with_json_load E load) = wait_for_completion E.
Proof.
  reflexivity.
Qed.

Lemma update_workflow_loader :
  update_workflow_with_inputs (with_json_load E load) = update_workflow_with_inputs E.
Proof.
  reflexivity.
Qed.

Lemma queue_workflow_loader : queue_workflow (with_json_load E load) = queue_workflow E.
Proof.
  reflexivity.
Qed.

Lemma get_output_files_loader : get_output_files (with_json_load E load) = get_output_files E.
Proof.
  reflexivity.
Qed.

Lemma handler_deliver_loader : handler_deliver (with_json_load E load) = handler_deliver E.
Proof.
  reflexivity.
Qed.

Lemma handler_body_loader (event input_data : dict) (start_time : nat)
      (w : World) :
  input_of event = JObj input_data ->
  py_truthy (field "workflow_json" input_data) = true ->
  handler_body (with_json_load E load) (JObj event) start_time w
  = handler_body E (JObj event) start_time w.
Proof.
  intros Hinput Hjson. unfold handler_body.
  rewrite start_comfyui_loader, update_workflow_loader, queue_workflow_loader,
    wait_for_completion_loader, get_output_files_loader,
    handler_deliver_loader.
  apply bind_ext; intros w0 w1.
  apply bind_ext; intros _ w2.
  change (py_get (JObj event) "input" (JObj [])) with (Ok (input_of event)).
  rewrite Hinput.
  do 2 (rewrite bind_lift_ok; cbv beta).
  change (py_get (JObj input_data) "workflow_name" JNull)
    with (Ok (field "workflow_name" input_data)).
  do 2 (rewrite bind_lift_ok; cbv beta).
  change (py_get (JObj input_data) "workflow_json" JNull)
    with (Ok (field "workflow_json" input_data)).
  do 2 (rewrite bind_lift_ok; cbv beta).
  apply bind_ext; intros params w3.
  apply bind_ext; intros input_assets w4.
  rewrite Hjson, andb_false_r. reflexivity.
Qed.

End AnotherLoader.

(** X5.  A graph supplied in the event overrides the lookup by name:
    [load_workflow] is not called, so the answer and the final state are the
    same whatever [json.load] would make of the definition files. *)
Theorem handler_graph_overrides_name (E : Env) (load : string -> result json)
        (event input_data : dict) (w : World) :
  input_of event = JObj input_data ->
  py_truthy (field "workflow_json" input_data) = true ->
  handler (with_json_load E load) (JObj event) w = handler E (JObj event) w.
Proof.
  intros Hinput Hjson. unfold handler.
  now rewrite (handler_body_loader E load event input_data (clock w) w).
Qed.

Lemma handler_graph_overrides_name_witness :
  handler (with_json_load Scenario.good
             (fun _ => Err (Exn LibraryError "Expecting value")))
    (JObj [ ("input", JObj [ ("workflow_name", JStr "t2v");
                             ("workflow_json", Scenario.t2v_graph) ]) ])
    Scenario.ready_world
  = handler Scenario.good
      (JObj [ ("input", JObj [ ("workflow_name", JStr "t2v");
                               ("workflow_json", Scenario.t2v_graph) ]) ])
      Scenario.ready_world.
Proof.
  apply (handler_graph_overrides_name Scenario.good _
           [ ("input", JObj [ ("workflow_name", JStr "t2v");
                              ("workflow_json", Scenario.t2v_graph) ]) ]
           [ ("workflow_name", JStr "t2v");
             ("workflow_json", Scenario.t2v_graph) ]);
    reflexivity.
Defined.

(** ** Start-up of the server *)

Lemma not_200_branch {A} (code : N) (a b : A) :
  code <> 200%N ->
  match code with
  | 200%N => a
  | _ => b
  end = b.
Proof.
  intros Hne. destruct code as [|q]; [reflexivity|].
  do 8 (destruct q as [q|q|]; try reflexivity).
  exfalso. now apply Hne.
Qed.

Section StartUp.
Variable E : Env.

(** One pass through the readiness loop when the status request does not
    succeed, up to the look at the process. *)
Lemma wait_until_ready_step (retries p : nat) (w : World) :
  get_system_stats E (calls w) <> Some 200%N ->
  wait_until_ready E (S retries) p w
  = if proc_exited E p (S (calls w))
    then (Err (Exn RuntimeError
                 ("ComfyUI process died: " ++ proc_stderr E p)),
          advance E w 2 0)
    else wait_until_ready E retries p (advance E w 2 2).
Proof.
  intros Hcode. cbn [wait_until_ready].
  unfold Mon.bind at 1. unfold external at 1. rewrite advance_one.
  assert (Hgo : forall k1 k2 : M unit,
             match get_system_stats E (calls w) with
             | Some 200%N => k1
             | _ => k2
             end = k2).
  { intros k1 k2. destruct (get_system_stats E (calls w)) as [code|];
      [|reflexivity].
    apply not_200_branch. congruence. }
  rewrite Hgo. clear Hgo.
  unfold Mon.bind at 1. unfold external at 1. rewrite advance_one.
  rewrite advance_advance.
  change (calls (advance E w 1 0)) with (calls w + 1).
  replace (calls w + 1) with (S (calls w)) by lia.
  destruct (proc_exited E p (S (calls w))); [reflexivity|].
  unfold Mon.bind at 1. unfold sleep at 1.
  f_equal. unfold advance.
  cbn [comfyui_process comfyui_ready clock calls Nat.add busy].
  f_equal; lia.
Qed.

(** The readiness loop on a server that never answers and never exits. *)
Lemma wait_until_ready_gives_up (retries p : nat) (w : World) :
  (forall n, get_system_stats E n <> Some 200%N) ->
  (forall n, proc_exited E p n = false) ->
  wait_until_ready E retries p w
  = (Err (Exn RuntimeError
            "ComfyUI API server failed to start within timeout"),
     advance E w (2 * retries) (2 * retries)).
Proof.
  intros Hstats Hproc. revert w.
  induction retries as [|retries IH]; intros w.
  - cbn [wait_until_ready Nat.mul]. now rewrite advance_0_0.
  - rewrite wait_until_ready_step by apply Hstats.
    rewrite Hproc, IH, advance_advance.
    do 2 f_equal; lia.
Qed.

Lemma spawn_and_wait_gives_up (p : nat) (w : World) :
  popen E (calls w) = Ok p ->
  (forall n, get_system_stats E n <> Some 200%N) ->
  (forall n, proc_exited E p n = false) ->
  exists w',
    spawn_and_wait E w
    = (Err (Exn RuntimeError
              "ComfyUI API server failed to start within timeout"), w')
    /\ comfyui_process w' = Some p
    /\ comfyui_ready w' = comfyui_ready w
    /\ calls w' = calls w + 121
    /\ clock w' = clock w + busy E (calls w) 121 + 120.
Proof.
  intros Hpopen Hstats Hproc.
  unfold spawn_and_wait, Mon.bind at 1, external at 1.
  rewrite Hpopen. unfold Mon.bind at 1, Mon.lift at 1.
  unfold Mon.bind at 1, set_process at 1.
  cbn [comfyui_process comfyui_ready clock calls].
  rewrite (wait_until_ready_gives_up 60 p _ Hstats Hproc).
  eexists. split; [reflexivity|].
  unfold advance. cbn [comfyui_process comfyui_ready clock calls].
  repeat split; try lia.
  change (busy E (calls w) 121)
    with (latency E (calls w) + busy E (S (calls w)) 120).
  change (2 * 60) with 120. lia.
Qed.

End StartUp.

(** X6.  A cold start against a server that never answers the status
    request with 200 and never exits: [start_comfyui] asks sixty times,
    looks at the process after every miss and sleeps two seconds each time,
    then raises the start-up timeout.  The spawned process stays recorded
    and the ready flag stays as it was. *)
Theorem start_comfyui_gives_up (E : Env) (p : nat) (w : World) :
  comfyui_process w = None ->
  popen E (calls w) = Ok p ->
  (forall n, get_system_stats E n <> Some 200%N) ->
  (forall n, proc_exited E p n = false) ->
  exists w',
    start_comfyui E w
    = (Err (Exn RuntimeError
              "ComfyUI API server failed to start within timeout"), w')
    /\ comfyui_process w' = Some p
    /\ comfyui_ready w' = comfyui_ready w
    /\ calls w' = calls w + 121
    /\ clock w' = clock w + busy E (calls w) 121 + 120.
Proof.
  intros Hnone Hpopen Hstats Hproc.
  unfold start_comfyui, Mon.bind at 1, Mon.get_world. rewrite Hnone.
  now apply spawn_and_wait_gives_up.
Qed.

Lemma start_comfyui_gives_up_witness :
  exists w',
    start_comfyui Scenario.never_ready initial_world
    = (Err (Exn RuntimeError
              "ComfyUI API server failed to start within timeout"), w')
    /\ comfyui_process w' = Some 1
    /\ calls w' = calls initial_world + 121.
Proof.
  destruct (start_comfyui_gives_up Scenario.never_ready 1 initial_world
              eq_refl eq_refl
              (fun n => ltac:(discriminate)) (fun n => eq_refl))
    as (w' & Hrun & Hp & _ & Hcalls & _).
  exists w'. repeat split; assumption.
Defined.

(** X7.  When the status request fails and the spawned process is found
    exited, [start_comfyui] stops at once with the text the process wrote to
    its error stream; it does not sleep and does not ask again. *)
Theorem start_comfyui_reports_dead_process (E : Env) (p : nat) (w : World) :
  comfyui_process w = None ->
  popen E (calls w) = Ok p ->
  get_system_stats E (S (calls w)) <> Some 200%N ->
  proc_exited E p (S (S (calls w))) = true ->
  start_comfyui E w
  = (Err (Exn RuntimeError ("ComfyUI process died: " ++ proc_stderr E p)),
     {| comfyui_process := Some p;
        comfyui_ready := comfyui_ready w;
        clock := clock w + busy E (calls w) 3;
        calls := calls w + 3 |}).
Proof.
  intros Hnone Hpopen Hstats Hdead.
  unfold start_comfyui, Mon.bind at 1, Mon.get_world. rewrite Hnone.
  unfold spawn_and_wait, Mon.bind at 1, external at 1.
  rewrite Hpopen. unfold Mon.bind at 1, Mon.lift at 1.
  unfold Mon.bind at 1, set_process at 1.
  cbn [comfyui_process comfyui_ready clock calls].
  rewrite (wait_until_ready_step E 59) by exact Hstats.
  cbn [calls]. rewrite Hdead.
  f_equal. unfold advance. cbn [comfyui_process comfyui_ready clock calls busy].
  f_equal; lia.
Qed.

Lemma start_comfyui_reports_dead_process_witness :
  start_comfyui (with_proc_exited Scenario.never_ready (fun _ _ => true))
    initial_world
  = (Err (Exn RuntimeError "ComfyUI process died: Traceback"),
     {| comfyui_process := Some 1; comfyui_ready := false;
        clock := 0; calls := 3 |}).
Proof.
  exact (start_comfyui_reports_dead_process
           (with_proc_exited Scenario.never_ready (fun _ _ => true))
           1 initial_world eq_refl eq_refl
           ltac:(discriminate) eq_refl).
Defined.

(** X8.  The handler on a worker that is not ready, against such a server:
    the start-up timeout is not propagated but answered as a FAILED mapping
    with the two minutes of waiting as execution time; the event is not
    looked at. *)
Theorem handler_reports_startup_timeout (E : Env) (event : json) (p : nat)
        (w : World) :
  comfyui_ready w = false ->
  comfyui_process w = None ->
  popen E (calls w) = Ok p ->
  (forall n, get_system_stats E n <> Some 200%N) ->
  (forall n, proc_exited E p n = false) ->
  fst (handler E event w)
  = JObj [ ("error",
            JStr "ComfyUI API server failed to start within timeout");
           ("status", JStr "FAILED");
           ("execution_time",
            JInt (Z.of_nat (busy E (calls w) 121 + 120))) ].
Proof.
  intros Hready Hnone Hpopen Hstats Hproc.
  destruct (spawn_and_wait_gives_up E p w Hpopen Hstats Hproc)
    as (w' & Hrun & _ & _ & _ & Hclock).
  unfold handler, handler_body.
  unfold Mon.bind at 1. unfold Mon.get_world. cbv beta iota.
  rewrite Hready. unfold Mon.bind at 1.
  unfold start_comfyui, Mon.bind at 1, Mon.get_world. rewrite Hnone, Hrun.
  cbn [fst]. unfold failed_exception. cbn [exn_msg].
  do 6 f_equal. lia.
Qed.

Lemma handler_reports_startup_timeout_witness :
  fst (handler Scenario.never_ready Scenario.t2v_event initial_world)
  = JObj [ ("error",
            JStr "ComfyUI API server failed to start within timeout");
           ("status", JStr "FAILED");
           ("execution_time", JInt 120) ].
Proof.
  exact (handler_reports_startup_timeout Scenario.never_ready
           Scenario.t2v_event 1 initial_world eq_refl eq_refl eq_refl
           (fun n => ltac:(discriminate)) (fun n => eq_refl)).
Defined.

(** ** Workflow loader *)

(** X9.  [load_workflow] returns a graph only for a string that is a key of
    the registry and whose definition file is a regular file that
    [json.load] accepts; the graph is what [json.load] made of that file.
    Any other identifier, of whatever type, is refused. *)
Theorem load_workflow_only_registered (E : Env) (workflow_type graph : json) :
  load_workflow E workflow_type = Ok graph ->
  exists name file content,
    workflow_type = JStr name
    /\ dict_get name AVAILABLE_WORKFLOWS = Some file
    /\ fs E (os_path_join WORKFLOWS_DIR file) = Some (File content)
    /\ json_load E content = Ok graph.
Proof.
  unfold load_workflow.
  destruct workflow_type as [|b|z|name|l|d]; try discriminate.
  destruct (dict_get name AVAILABLE_WORKFLOWS) as [file|] eqn:Hreg;
    [|discriminate].
  unfold os_path_exists, read_file.
  destruct (fs E (os_path_join WORKFLOWS_DIR file)) as [[content|n]|] eqn:Hfs;
    try discriminate.
  cbn [negb Res.bind]. intros Hload.
  now exists name, file, content.
Qed.

Lemma load_workflow_only_registered_witness :
  exists name file content,
    JStr "t2v" = JStr name
    /\ dict_get name AVAILABLE_WORKFLOWS = Some file
    /\ fs Scenario.good (os_path_join WORKFLOWS_DIR file)
       = Some (File content)
    /\ json_load Scenario.good content = Ok Scenario.t2v_graph.
Proof.
  exact (load_workflow_only_registered Scenario.good (JStr "t2v")
           Scenario.t2v_graph eq_refl).
Defined.

(** ** Remote storage *)

Lemma str_drop_last_slash (s : string) :
  str_endswith_char slash s = true -> str_drop_last s ++ "/" = s.
Proof.
  induction s as [|c s IH]; [discriminate|].
  destruct s as [|c' s'].
  - cbn [str_endswith_char str_drop_last append]. intros H.
    apply Ascii.eqb_eq in H. now subst c.
  - intros H. change (str_endswith_char slash (String c (String c' s')))
      with (str_endswith_char slash (String c' s')) in H.
    change (str_drop_last (String c (String c' s')))
      with (String c (str_drop_last (String c' s'))).
    cbn [append]. now rewrite IH.
Qed.

(** X10.  With the four settings present, [upload_to_s3] makes exactly one
    upload attempt.  If it fails, that exception is raised: there is no
    second attempt.  If it succeeds, the url returned is the endpoint, the
    bucket and the key joined by single slashes, where one trailing slash
    of the endpoint, if there is one, is dropped first. *)
Theorem upload_to_s3_once (E : Env) (endpoint bucket file_path s3_key : string)
        (w : World) :
  s3_configured E = true ->
  S3_ENDPOINT_URL E = Some endpoint ->
  S3_BUCKET E = Some bucket ->
  (forall e,
      s3_upload_file E (calls w) file_path bucket s3_key = Some e ->
      upload_to_s3 E file_path s3_key w = (Err e, advance E w 1 0))
  /\ (s3_upload_file E (calls w) file_path bucket s3_key = None ->
      exists base,
        upload_to_s3 E file_path s3_key w
        = (Ok (base ++ "/" ++ bucket ++ "/" ++ s3_key), advance E w 1 0)
        /\ (endpoint = base ++ "/"
            \/ (endpoint = base
                /\ str_endswith_char slash endpoint = false))).
Proof.
  intros Hconf Hend Hbucket.
  unfold upload_to_s3. rewrite Hconf, Hend, Hbucket.
  cbn [negb env_value]. unfold Mon.bind, external. rewrite advance_one.
  split.
  - intros e ->. reflexivity.
  - intros ->. unfold Mon.ret.
    destruct (str_endswith_char slash endpoint) eqn:Hslash.
    + exists (str_drop_last endpoint). split; [reflexivity|].
      left. symmetry. now apply str_drop_last_slash.
    + exists endpoint. split; [reflexivity|]. now right.
Qed.

Lemma upload_to_s3_once_witness :
  exists base,
    upload_to_s3 Scenario.good "/comfyui/output/cat.png"
      "generated/t2v/100_0.png" Scenario.ready_world
    = (Ok (base ++ "/media/generated/t2v/100_0.png"),
       advance Scenario.good Scenario.ready_world 1 0)
    /\ "https://s3.example.com/" = base ++ "/".
Proof.
  destruct (upload_to_s3_once Scenario.good "https://s3.example.com/" "media"
              "/comfyui/output/cat.png" "generated/t2v/100_0.png"
              Scenario.ready_world eq_refl eq_refl eq_refl) as [_ H].
  destruct (H eq_refl) as (base & Hrun & [Hbase|[_ Hno]]).
  - exists base. split; assumption.
  - discriminate Hno.
Defined.

(** ** Polling *)

Section Polling.
Variable E : Env.
Variable prompt_id : string.

Lemma poll_history_more_fuel (timeout : Z) (start_time fuel extra : nat)
      (w : World) :
  start_time <= clock w ->
  Z.to_nat (timeout - elapsed start_time w) <= fuel ->
  poll_history E (fuel + extra) prompt_id timeout start_time w
  = poll_history E fuel prompt_id timeout start_time w.
Proof.
  intros Hstart Hfuel. induction extra as [|extra IH].
  - now rewrite Nat.add_0_r.
  - rewrite Nat.add_succ_r, <- IH.
    symmetry. apply poll_history_enough_fuel; [assumption | lia].
Qed.

Lemma poll_history_calls (timeout : Z) (start_time fuel : nat) (w : World) :
  calls (snd (poll_history E fuel prompt_id timeout start_time w))
  <= calls w + fuel.
Proof.
  revert w. induction fuel as [|fuel IH]; intros w;
    rewrite poll_history_step;
    destruct (elapsed start_time w <? timeout)%Z; cbn [snd]; try lia.
  destruct (poll_once E prompt_id w) as [[[out|]|e] w1] eqn:Hpoll;
    apply poll_once_one_call in Hpoll; subst w1; cbn [snd].
  - unfold advance. cbn [calls]. lia.
  - specialize (IH (advance E (advance E w 1 0) 0 1)).
    change (calls (advance E (advance E w 1 0) 0 1))
      with (calls w + 1 + 0) in IH.
    lia.
  - unfold advance. cbn [calls]. lia.
Qed.

Lemma wait_for_completion_first_poll (timeout : Z) (w : World) :
  (0 < timeout)%Z ->
  wait_for_completion E prompt_id timeout w
  = match poll_once E prompt_id w with
    | (Ok (Some output), w1) => (Ok output, w1)
    | (Ok None, w1) =>
        poll_history E (pred (Z.to_nat timeout)) prompt_id timeout (clock w)
                     (advance E w1 0 1)
    | (Err e, w1) => (Err e, w1)
    end.
Proof.
  intros Hpos. rewrite wait_for_completion_unfold, poll_history_step.
  rewrite elapsed_now.
  destruct (Z.ltb_spec 0 timeout); [|lia].
  destruct (Z.to_nat timeout) eqn:Hn; [lia | reflexivity].
Qed.

End Polling.

(** X11.  With a timeout that is zero or negative, [wait_for_completion]
    raises the timeout at once: the history is not asked even once and no
    time passes. *)
Theorem wait_for_completion_no_time (E : Env) (prompt_id : string)
        (timeout : Z) (w : World) :
  (timeout <= 0)%Z ->
  wait_for_completion E prompt_id timeout w
  = (Err (Exn TimeoutError
            ("Workflow " ++ prompt_id ++ " did not complete within "
             ++ Z_str timeout ++ " seconds")), w).
Proof.
  intros Hneg. rewrite wait_for_completion_unfold, poll_history_step.
  rewrite elapsed_now.
  destruct (Z.ltb_spec 0 timeout); [lia | reflexivity].
Qed.

Lemma wait_for_completion_no_time_witness :
  wait_for_completion Scenario.good "abc" 0 Scenario.ready_world
  = (Err (Exn TimeoutError "Workflow abc did not complete within 0 seconds"),
     Scenario.ready_world).
Proof.
  apply (wait_for_completion_no_time Scenario.good "abc" 0
           Scenario.ready_world).
  lia.
Defined.

(** X12.  The polling loop always ends, whatever the server answers: every
    iteration that does not return sleeps a second, so the loop runs at most
    [timeout] times and sends at most [timeout] history requests.  Allowing
    the loop more iterations than that changes nothing. *)
Theorem wait_for_completion_terminates (E : Env) (prompt_id : string)
        (timeout : Z) (w : World) :
  (forall fuel,
      Z.to_nat timeout <= fuel ->
      poll_history E fuel prompt_id timeout (clock w) w
      = wait_for_completion E prompt_id timeout w)
  /\ calls (snd (wait_for_completion E prompt_id timeout w))
     <= calls w + Z.to_nat timeout.
Proof.
  split.
  - intros fuel Hfuel. rewrite wait_for_completion_unfold.
    replace fuel with (Z.to_nat timeout + (fuel - Z.to_nat timeout)) by lia.
    apply poll_history_more_fuel; [lia|].
    rewrite elapsed_now. lia.
  - rewrite wait_for_completion_unfold. apply poll_history_calls.
Qed.

(** X13.  A failure while polling is not retried: when the history request
    raises, or when the history lists the handle with an entry that has no
    [outputs] key, [wait_for_completion] raises at that first request. *)
Theorem wait_for_completion_propagates (E : Env) (prompt_id : string)
        (timeout : Z) (w : World) :
  (0 < timeout)%Z ->
  (forall e,
      get_history E (calls w) prompt_id = Err e ->
      wait_for_completion E prompt_id timeout w = (Err e, advance E w 1 0))
  /\ (forall history entry,
         get_history E (calls w) prompt_id = Ok (JObj history) ->
         dict_get prompt_id history = Some (JObj entry) ->
         dict_get "outputs" entry = None ->
         wait_for_completion E prompt_id timeout w
         = (Err (Exn KeyError "'outputs'"), advance E w 1 0)).
Proof.
  intros Hpos. split.
  - intros e He. rewrite wait_for_completion_first_poll by assumption.
    unfold poll_once, Mon.bind, external, Mon.lift. rewrite advance_one, He.
    reflexivity.
  - intros history entry Hh Hentry Hout.
    rewrite wait_for_completion_first_poll by assumption.
    unfold poll_once, Mon.bind, external, Mon.lift. rewrite advance_one, Hh.
    cbn [py_contains py_getitem]. unfold dict_has. rewrite Hentry.
    cbn [py_getitem]. rewrite Hout. reflexivity.
Qed.

Lemma wait_for_completion_propagates_witness :
  wait_for_completion
    (with_get_history Scenario.good
       (fun _ _ => Ok (JObj [ ("abc", JObj [ ("status", JStr "error") ]) ])))
    "abc" 600 Scenario.ready_world
  = (Err (Exn KeyError "'outputs'"),
     advance Scenario.good Scenario.ready_world 1 0).
Proof.
  destruct (wait_for_completion_propagates
              (with_get_history Scenario.good
                 (fun _ _ =>
                    Ok (JObj [ ("abc", JObj [ ("status", JStr "error") ]) ])))
              "abc" 600 Scenario.ready_world eq_refl) as [_ H].
  exact (H [ ("abc", JObj [ ("status", JStr "error") ]) ]
           [ ("status", JStr "error") ] eq_refl eq_refl eq_refl).
Defined.

Lemma wait_for_completion_terminates_witness :
  poll_history Scenario.never_done 7 "abc" 3 100 Scenario.ready_world
  = wait_for_completion Scenario.never_done "abc" 3 Scenario.ready_world.
Proof.
  destruct (wait_for_completion_terminates Scenario.never_done "abc" 3
              Scenario.ready_world) as [H _].
  apply (H 7). simpl. lia.
Defined.

(** ** Output collector *)

Lemma res_mapM_flat_map {A B} (f : A -> result (list B)) (g : A -> list B)
      (l : list A) (found : list (list B)) :
  (forall x ys, f x = Ok ys -> ys = g x) ->
  Res.mapM f l = Ok found -> List.concat found = flat_map g l.
Proof.
  intros Hf. revert found. induction l as [|x l IH]; intros found.
  - intros [= <-]. reflexivity.
  - cbn [Res.mapM]. unfold Res.bind at 1.
    destruct (f x) as [ys|e] eqn:Hx; [|discriminate].
    unfold Res.bind at 1.
    destruct (Res.mapM f l) as [yss|e]; [|discriminate].
    intros [= <-]. cbn [List.concat flat_map].
    now rewrite (Hf x ys Hx), (IH yss).
Qed.

Lemma filter_map_flat_map {A} (P : string -> bool) (h : string -> string)
      (names : A -> list string) (l : list A) :
  filter P (map h (flat_map names l))
  = flat_map (fun x => filter P (map h (names x))) l.
Proof.
  induction l as [|x l IH]; [reflexivity|].
  cbn [flat_map]. now rewrite map_app, filter_app, IH.
Qed.

Lemma flat_map_nil {A B} (g : A -> list B) (l : list A) :
  (forall x, In x l -> g x = []) -> flat_map g l = [].
Proof.
  induction l as [|x l IH]; [reflexivity|].
  intros H. cbn [flat_map]. rewrite (H x (or_introl eq_refl)).
  apply IH. intros y Hy. apply H. now right.
Qed.

Section Collected.
Variable E : Env.

Lemma collect_info_names (info : json) (found : list string) :
  collect_info E info = Ok found ->
  found = existing_paths (os_path_exists E) (names_of_info info).
Proof.
  unfold collect_info, existing_paths, Res.bind at 1.
  destruct info as [|b|z|s|l|d]; cbn [py_contains names_of_info];
    try discriminate.
  - destruct (str_contains "filename" s); cbn [py_getitem Res.bind];
      [discriminate | now intros [= <-]].
  - destruct (existsb (fun y => json_eq_str y "filename") l);
      cbn [py_getitem Res.bind]; [discriminate | now intros [= <-]].
  - unfold dict_has. cbn [py_getitem].
    destruct (dict_get "filename" d) as [[| | |name| |]|];
      cbn [Res.bind]; try discriminate.
    + intros [= <-]. cbn [map filter].
      now destruct (os_path_exists E (os_path_join OUTPUT_DIR name)).
    + now intros [= <-].
Qed.

Lemma collect_infos_of_strings (strings : list string)
      (found : list (list string)) :
  Res.mapM (collect_info E) (map JStr strings) = Ok found ->
  List.concat found = [].
Proof.
  intros H.
  rewrite (res_mapM_flat_map _
             (fun info => existing_paths (os_path_exists E)
                            (names_of_info info)) _ _
             collect_info_names H).
  apply flat_map_nil. intros x Hx. apply in_map_iff in Hx.
  destruct Hx as (s & <- & _). reflexivity.
Qed.

Lemma collect_media_names (key : string) (node_output : json)
      (found : list string) :
  collect_media E key node_output = Ok found ->
  found = existing_paths (os_path_exists E) (names_of_media key node_output).
Proof.
  unfold collect_media, Res.bind at 1.
  destruct node_output as [|b|z|s|l|d]; cbn [py_contains names_of_media];
    try discriminate.
  - destruct (str_contains key s); cbn [py_getitem Res.bind];
      [discriminate | now intros [= <-]].
  - destruct (existsb (fun y => json_eq_str y key) l);
      cbn [py_getitem Res.bind]; [discriminate | now intros [= <-]].
  - unfold dict_has. cbn [py_getitem].
    destruct (dict_get key d) as [media|]; [|now intros [= <-]].
    unfold Res.bind at 1. unfold Res.bind at 1.
    destruct media as [|b|z|s|infos|items]; cbn [py_iter]; try discriminate;
      unfold Res.bind at 1.
    + destruct (Res.mapM (collect_info E) (map JStr (str_chars s)))
        as [yss|e] eqn:Hmap; [|discriminate].
      intros [= <-]. now rewrite (collect_infos_of_strings _ _ Hmap).
    + destruct (Res.mapM (collect_info E) infos) as [yss|e] eqn:Hmap;
        [|discriminate].
      intros [= <-].
      rewrite (res_mapM_flat_map _ _ _ _ collect_info_names Hmap).
      unfold existing_paths. now rewrite filter_map_flat_map.
    + destruct (Res.mapM (collect_info E) (map JStr (dict_keys items)))
        as [yss|e] eqn:Hmap; [|discriminate].
      intros [= <-]. now rewrite (collect_infos_of_strings _ _ Hmap).
Qed.

Lemma collect_node_names (node_output : json) (found : list string) :
  collect_node E node_output = Ok found ->
  found = existing_paths (os_path_exists E)
            (names_of_media "images" node_output
             ++ names_of_media "videos" node_output)%list.
Proof.
  unfold collect_node, Res.bind at 1.
  destruct (collect_media E "images" node_output) as [images|e] eqn:Hi;
    [|discriminate].
  unfold Res.bind at 1.
  destruct (collect_media E "videos" node_output) as [videos|e] eqn:Hv;
    [|discriminate].
  intros [= <-]. unfold existing_paths. rewrite map_app, filter_app.
  f_equal; now apply collect_media_names.
Qed.

Lemma get_output_files_names (outputs : json) (files : list string) :
  get_output_files E outputs = Ok files ->
  files = existing_paths (os_path_exists E) (descriptor_names outputs).
Proof.
  unfold get_output_files, Res.bind at 1.
  destruct outputs as [|b|z|s|l|nodes]; cbn [py_items]; try discriminate.
  unfold Res.bind at 1.
  destruct (Res.mapM (fun item => collect_node E (snd item)) nodes)
    as [yss|e] eqn:Hmap; [|discriminate].
  intros [= <-].
  rewrite (res_mapM_flat_map _
             (fun item =>
                existing_paths (os_path_exists E)
                  (names_of_media "images" (snd item)
                   ++ names_of_media "videos" (snd item))%list) _ _
             (fun item ys => collect_node_names (snd item) ys) Hmap).
  unfold existing_paths, descriptor_names. now rewrite filter_map_flat_map.
Qed.

End Collected.

(** X14.  Whatever document the server sent as outputs, when
    [get_output_files] returns, it returns exactly this: the file names of
    the descriptors of the document (the string [filename] of every mapping
    in a list under [images] or [videos] of a node that is a mapping, in
    document order), each joined to the output directory, those that exist
    on disk.  A name that starts with a slash is joined to itself, so the
    path may lie outside the output directory. *)
Theorem get_output_files_sound (E : Env) (outputs : json)
        (files : list string) :
  get_output_files E outputs = Ok files ->
  files = filter (os_path_exists E)
            (map (fun name =>
                    if str_startswith "/" name then name
                    else "/comfyui/output/" ++ name)
                 (descriptor_names outputs)).
Proof.
  intros H. rewrite (get_output_files_names E outputs files H) at 1.
  reflexivity.
Qed.

Lemma get_output_files_sound_witness :
  ["/comfyui/output/cat.png"; "/comfyui/workflows/t2v.json"]
  = filter (os_path_exists Scenario.good)
      (map (fun name =>
              if str_startswith "/" name then name
              else "/comfyui/output/" ++ name)
         (descriptor_names
            (Scenario.media_manifest
               ["cat.png"; "missing.png"; "/comfyui/workflows/t2v.json"]))).
Proof.
  exact (get_output_files_sound Scenario.good
           (Scenario.media_manifest
              ["cat.png"; "missing.png"; "/comfyui/workflows/t2v.json"])
           _ eq_refl).
Defined.

(** ** Parameter binder: images *)

Lemma prefix_empty (s : string) : String.prefix EmptyString s = true.
Proof.
  now destruct s.
Qed.

Lemma str_contains_slash_cons (c : ascii) (s : string) :
  str_contains "/" (String c s)
  = if Ascii.eqb c slash then true else str_contains "/" s.
Proof.
  cbn [str_contains String.prefix].
  destruct (ascii_dec "/" c) as [<-|Hne].
  - now rewrite prefix_empty.
  - destruct (Ascii.eqb_spec c slash) as [->|_]; [now elim Hne | reflexivity].
Qed.

Lemma str_contains_slash_app (a b : string) :
  str_contains "/" (a ++ b) = str_contains "/" a || str_contains "/" b.
Proof.
  induction a as [|c a IH].
  - reflexivity.
  - cbn [append]. rewrite !str_contains_slash_cons, IH.
    now destruct (Ascii.eqb c slash).
Qed.

Lemma basename_after_slash (pre s : string) :
  str_contains "/" s = false ->
  os_path_basename (pre ++ "/" ++ s) = s.
Proof.
  intros Hs. induction pre as [|c pre IH].
  - cbn [append os_path_basename]. rewrite Hs. reflexivity.
  - cbn [append os_path_basename] in *.
    rewrite str_contains_slash_app, str_contains_slash_cons.
    cbn [Ascii.eqb slash]. rewrite orb_true_r. exact IH.
Qed.

Lemma image_save_name (node_id : string) :
  str_contains "/" node_id = false ->
  os_path_basename (image_save_path node_id)
  = "input_image_" ++ node_id ++ ".png".
Proof.
  intros Hid.
  change (image_save_path node_id)
    with ("/tmp" ++ "/" ++ ("input_image_" ++ node_id ++ ".png")).
  apply basename_after_slash.
  now rewrite !str_contains_slash_app, Hid.
Qed.

Section ImageBinding.
Variable E : Env.

(** The image step on a mapping node with an inputs mapping, spelled out. *)
Lemma update_image_run (node_id : string) (d inputs p : dict) (w : World) :
  dict_get "inputs" d = Some (JObj inputs) ->
  update_image E node_id (JObj d) (JObj p) w
  = if class_is (JObj d) "LoadImage" then
      match dict_get "image_url" p with
      | Some url =>
          match fetch_image E (calls w) url (image_save_path node_id) with
          | Some e => (Err e, advance E w 1 0)
          | None =>
              (Ok (JObj (dict_set "inputs"
                           (JObj (dict_set "image"
                                    (JStr (os_path_basename
                                             (image_save_path node_id)))
                                    inputs)) d)),
               advance E w 1 0)
          end
      | None => (Ok (JObj d), w)
      end
    else (Ok (JObj d), w).
Proof.
  intros Hin.
  unfold update_image, Mon.bind at 1, Mon.lift at 1.
  cbn [py_get]. rewrite class_is_get.
  destruct (class_is (JObj d) "LoadImage"); [|reflexivity].
  unfold Mon.bind at 1, Mon.lift at 1. cbn [py_contains]. unfold dict_has.
  destruct (dict_get "image_url" p) as [url|] eqn:Hurl; [|reflexivity].
  unfold Mon.bind at 1, Mon.lift at 1. cbn [py_getitem]. rewrite Hurl.
  unfold Mon.bind at 1, download_image, Mon.bind at 1, external.
  rewrite advance_one. fold (image_save_path node_id).
  destruct (fetch_image E (calls w) url (image_save_path node_id));
    [reflexivity|].
  unfold Mon.ret, Mon.lift.
  now rewrite (set_input_obj d inputs "image" _ Hin).
Qed.

Lemma wf_node_inputs (node : json) :
  wf_node node = true ->
  exists d inputs, node = JObj d /\ dict_get "inputs" d = Some (JObj inputs).
Proof.
  unfold wf_node. destruct node as [| | | | |d]; try discriminate.
  destruct (dict_get "inputs" d) as [[| | | | |inputs]|] eqn:Hin;
    try discriminate.
  intros _. now exists d, inputs.
Qed.

(** One node of a well-formed graph when every download succeeds. *)
Lemma update_node_fetches (p : dict) (url : json) (node_id : string)
      (node : json) (w : World) :
  wf_node node = true ->
  dict_get "image_url" p = Some url ->
  (forall n u path, fetch_image E n u path = None) ->
  exists node',
    update_node E (JObj p) (node_id, node) w
    = (Ok (node_id, node'),
       advance E w (if class_is node "LoadImage" then 1 else 0) 0)
    /\ (class_is node "LoadImage" = true ->
        node_input "image" node'
        = Some (JStr (os_path_basename (image_save_path node_id)))).
Proof.
  intros Hwf Hurl Hfetch.
  destruct (update_text_wf node p Hwf) as (node1 & Htext & Hwf1 & Hcls & _).
  destruct (wf_node_inputs node1 Hwf1) as (d1 & inputs1 & -> & Hin1).
  unfold update_node, Mon.bind at 1, Mon.lift. rewrite Htext.
  unfold Mon.bind at 1. rewrite (update_image_run node_id d1 inputs1 p w Hin1).
  rewrite Hcls, Hurl, Hfetch.
  destruct (class_is node "LoadImage").
  - eexists. split; [reflexivity|]. intros _. apply node_input_set.
  - eexists. rewrite advance_0_0. split; [reflexivity | discriminate].
Qed.

Lemma mapM_update_fetches (p : dict) (url : json) (nodes : dict) (w : World) :
  wf_graph nodes = true ->
  dict_get "image_url" p = Some url ->
  (forall n u path, fetch_image E n u path = None) ->
  exists nodes',
    Mon.mapM (update_node E (JObj p)) nodes w
    = (Ok nodes', advance E w (count_class "LoadImage" nodes) 0)
    /\ forall i node_id node,
         nth_error nodes i = Some (node_id, node) ->
         class_is node "LoadImage" = true ->
         exists node',
           nth_error nodes' i = Some (node_id, node')
           /\ node_input "image" node'
              = Some (JStr (os_path_basename (image_save_path node_id))).
Proof.
  intros Hwf Hurl Hfetch. revert w.
  induction nodes as [|[node_id node] nodes IH]; intros w.
  - exists []. unfold count_class. cbn [filter List.length].
    rewrite advance_0_0. split; [reflexivity|].
    intros [|i] ? ? H; discriminate.
  - unfold wf_graph in Hwf. cbn [forallb snd] in Hwf.
    apply andb_true_iff in Hwf. destruct Hwf as [Hnode Hrest].
    destruct (update_node_fetches p url node_id node w Hnode Hurl Hfetch)
      as (node' & Hrun & Himg).
    destruct (IH Hrest
                (advance E w (if class_is node "LoadImage" then 1 else 0) 0))
      as (nodes' & Hmap & Hall).
    exists ((node_id, node') :: nodes'). split.
    + cbn [Mon.mapM]. unfold Mon.bind at 1. rewrite Hrun.
      unfold Mon.bind at 1. rewrite Hmap. unfold Mon.ret.
      rewrite advance_advance. do 2 f_equal.
      unfold count_class. cbn [filter snd].
      destruct (class_is node "LoadImage"); reflexivity.
    + intros [|i] id0 node0 Hnth Hcls; cbn [nth_error] in *.
      * injection Hnth as <- <-. exists node'. split; [reflexivity|].
        now apply Himg.
      * eapply Hall; eassumption.
Qed.

(** One node of a well-formed graph when every download fails with [e]. *)
Lemma update_node_fetch_fails (p : dict) (url : json) (e : exn)
      (node_id : string) (node : json) (w : World) :
  wf_node node = true ->
  dict_get "image_url" p = Some url ->
  (forall n u path, fetch_image E n u path = Some e) ->
  if class_is node "LoadImage"
  then update_node E (JObj p) (node_id, node) w = (Err e, advance E w 1 0)
  else exists node',
         update_node E (JObj p) (node_id, node) w = (Ok (node_id, node'), w).
Proof.
  intros Hwf Hurl Hfetch.
  destruct (update_text_wf node p Hwf) as (node1 & Htext & Hwf1 & Hcls & _).
  destruct (wf_node_inputs node1 Hwf1) as (d1 & inputs1 & -> & Hin1).
  assert (Hrun :
            update_node E (JObj p) (node_id, node) w
            = if class_is node "LoadImage" then (Err e, advance E w 1 0)
              else (Ok (node_id, JObj d1), w)).
  { unfold update_node, Mon.bind at 1, Mon.lift. rewrite Htext.
    unfold Mon.bind at 1.
    rewrite (update_image_run node_id d1 inputs1 p w Hin1).
    rewrite Hcls, Hurl, Hfetch.
    destruct (class_is node "LoadImage"); reflexivity. }
  destruct (class_is node "LoadImage"); [exact Hrun|].
  eexists. exact Hrun.
Qed.

Lemma mapM_update_fetch_fails (p : dict) (url : json) (e : exn) (nodes : dict)
      (w : World) :
  wf_graph nodes = true ->
  dict_get "image_url" p = Some url ->
  (forall n u path, fetch_image E n u path = Some e) ->
  0 < count_class "LoadImage" nodes ->
  Mon.mapM (update_node E (JObj p)) nodes w = (Err e, advance E w 1 0).
Proof.
  intros Hwf Hurl Hfetch.
  induction nodes as [|[node_id node] nodes IH].
  - unfold count_class. cbn. lia.
  - unfold wf_graph in Hwf. cbn [forallb snd] in Hwf.
    apply andb_true_iff in Hwf. destruct Hwf as [Hnode Hrest].
    pose proof (update_node_fetch_fails p url e node_id node w
                  Hnode Hurl Hfetch) as Hrun.
    unfold count_class. cbn [filter snd]. cbn [Mon.mapM]. unfold Mon.bind at 1.
    destruct (class_is node "LoadImage").
    + intros _. now rewrite Hrun.
    + destruct Hrun as (node' & ->). intros Hcount.
      unfold Mon.bind at 1. now rewrite (IH Hrest Hcount).
Qed.

(** A plain node goes through both steps untouched, whatever the
    parameters are. *)
Lemma update_node_plain (params : json) (node_id : string) (node : json)
      (w : World) :
  plain_node node = true ->
  update_node E params (node_id, node) w = (Ok (node_id, node), w).
Proof.
  unfold plain_node. destruct node as [| | | | |d]; try discriminate.
  intros H. apply andb_true_iff in H. destruct H as [Htext Himage].
  apply negb_true_iff in Htext, Himage.
  unfold update_node, Mon.bind at 1, Mon.lift.
  unfold update_text. cbn [py_get Res.bind]. rewrite class_is_get, Htext.
  unfold Mon.bind at 1. unfold update_image, Mon.bind at 1, Mon.lift.
  cbn [py_get]. now rewrite class_is_get, Himage.
Qed.

Lemma mapM_update_plain (params : json) (nodes : dict) (w : World) :
  forallb (fun item => plain_node (snd item)) nodes = true ->
  Mon.mapM (update_node E params) nodes w = (Ok nodes, w).
Proof.
  induction nodes as [|[node_id node] nodes IH]; [reflexivity|].
  cbn [forallb snd]. intros H. apply andb_true_iff in H.
  destruct H as [Hnode Hrest].
  cbn [Mon.mapM]. unfold Mon.bind at 1. rewrite (update_node_plain _ _ _ _ Hnode).
  unfold Mon.bind at 1. now rewrite (IH Hrest).
Qed.

End ImageBinding.

(** X15.  On a well-formed graph, with [image_url] among the parameters and
    downloads that succeed, the binder fetches once per load-image node, in
    node order, and sets the image input of each to the base name of the
    file it saved the download to, [/tmp/input_image_<node id>.png]; for a
    node identifier without a slash that is [input_image_<node id>.png].
    Nothing else is requested. *)
Theorem update_workflow_binds_images (E : Env) (nodes p : dict) (url : json)
        (w : World) :
  wf_graph nodes = true ->
  dict_get "image_url" p = Some url ->
  (forall n u path, fetch_image E n u path = None) ->
  (exists nodes',
      update_workflow_with_inputs E (JObj nodes) (JObj p) w
      = (Ok (JObj nodes'), advance E w (count_class "LoadImage" nodes) 0)
      /\ forall i node_id node,
           nth_error nodes i = Some (node_id, node) ->
           class_is node "LoadImage" = true ->
           exists node',
             nth_error nodes' i = Some (node_id, node')
             /\ node_input "image" node'
                = Some (JStr (os_path_basename
                                ("/tmp/input_image_" ++ node_id ++ ".png"))))
  /\ (forall node_id,
         str_contains "/" node_id = false ->
         os_path_basename ("/tmp/input_image_" ++ node_id ++ ".png")
         = "input_image_" ++ node_id ++ ".png").
Proof.
  intros Hwf Hurl Hfetch. split.
  - destruct (mapM_update_fetches E p url nodes w Hwf Hurl Hfetch)
      as (nodes' & Hmap & Hall).
    exists nodes'. split; [|exact Hall].
    unfold update_workflow_with_inputs, Mon.bind at 1, Mon.lift.
    cbn [py_items]. unfold Mon.bind. now rewrite Hmap.
  - apply image_save_name.
Qed.

Lemma update_workflow_binds_images_witness :
  exists nodes' node',
    update_workflow_with_inputs Scenario.good Scenario.t2v_graph
      (JObj [ ("image_url", JStr "https://example.com/cat.png") ])
      Scenario.ready_world
    = (Ok (JObj nodes'), advance Scenario.good Scenario.ready_world 1 0)
    /\ nth_error nodes' 1 = Some ("7", node')
    /\ node_input "image" node' = Some (JStr "input_image_7.png").
Proof.
  destruct (update_workflow_binds_images Scenario.good Scenario.t2v_nodes
              [ ("image_url", JStr "https://example.com/cat.png") ]
              (JStr "https://example.com/cat.png") Scenario.ready_world
              eq_refl eq_refl (fun _ _ _ => eq_refl))
    as ((nodes' & Hrun & Hall) & _).
  destruct (Hall 1 "7" _ eq_refl eq_refl) as (node' & Hnth & Himg).
  exists nodes', node'. repeat split; assumption.
Defined.

(** X16.  When the download fails, the binder raises that failure at the
    first load-image node: one request was made, no later node is fetched,
    and no graph is returned. *)
Theorem update_workflow_fetch_failure (E : Env) (nodes p : dict)
        (url : json) (e : exn) (w : World) :
  wf_graph nodes = true ->
  dict_get "image_url" p = Some url ->
  (forall n u path, fetch_image E n u path = Some e) ->
  0 < count_class "LoadImage" nodes ->
  update_workflow_with_inputs E (JObj nodes) (JObj p) w
  = (Err e, advance E w 1 0).
Proof.
  intros Hwf Hurl Hfetch Hcount.
  unfold update_workflow_with_inputs, Mon.bind at 1, Mon.lift.
  cbn [py_items]. unfold Mon.bind.
  now rewrite (mapM_update_fetch_fails E p url e nodes w Hwf Hurl Hfetch Hcount).
Qed.

Lemma update_workflow_fetch_failure_witness :
  update_workflow_with_inputs
    (with_fetch_image Scenario.good
       (fun _ _ _ => Some (Exn LibraryError "404 Client Error: Not Found")))
    Scenario.t2v_graph
    (JObj [ ("image_url", JStr "https://example.com/cat.png") ])
    Scenario.ready_world
  = (Err (Exn LibraryError "404 Client Error: Not Found"),
     advance Scenario.good Scenario.ready_world 1 0).
Proof.
  apply (update_workflow_fetch_failure
           (with_fetch_image Scenario.good
              (fun _ _ _ =>
                 Some (Exn LibraryError "404 Client Error: Not Found")))
           Scenario.t2v_nodes
           [ ("image_url", JStr "https://example.com/cat.png") ]
           (JStr "https://example.com/cat.png"));
    [reflexivity | reflexivity | reflexivity | vm_compute; lia].
Defined.

(** X17.  A graph of mapping nodes none of which is a text-encode or a
    load-image node comes back as it went in, without any request, whatever
    the parameters are, be they not even a mapping. *)
Theorem update_workflow_plain_graph (E : Env) (nodes : dict) (params : json)
        (w : World) :
  forallb (fun item => plain_node (snd item)) nodes = true ->
  update_workflow_with_inputs E (JObj nodes) params w = (Ok (JObj nodes), w).
Proof.
  intros Hplain.
  unfold update_workflow_with_inputs, Mon.bind at 1, Mon.lift.
  cbn [py_items]. unfold Mon.bind.
  now rewrite (mapM_update_plain E params nodes w Hplain).
Qed.

Lemma update_workflow_plain_graph_witness :
  update_workflow_with_inputs Scenario.good
    (JObj [ ("9", JObj [ ("class_type", JStr "SaveImage") ]);
            ("3", JObj [ ("inputs", JObj [ ("seed", JInt 7) ]) ]) ])
    JNull Scenario.ready_world
  = (Ok (JObj [ ("9", JObj [ ("class_type", JStr "SaveImage") ]);
                ("3", JObj [ ("inputs", JObj [ ("seed", JInt 7) ]) ]) ]),
     Scenario.ready_world).
Proof.
  apply (update_workflow_plain_graph Scenario.good
           [ ("9", JObj [ ("class_type", JStr "SaveImage") ]);
             ("3", JObj [ ("inputs", JObj [ ("seed", JInt 7) ]) ]) ]).
  reflexivity.
Defined.

(** ** Events that are not mappings *)

(** X18.  On a ready worker, an event that is not a mapping, or whose
    [input] is not a mapping, is answered with the FAILED mapping carrying
    Python's attribute error for the missing [get] and an execution time;
    no request is sent. *)
Theorem handler_rejects_non_mappings (E : Env) (event : json) (w : World) :
  comfyui_ready w = true ->
  ((forall d, event <> JObj d) ->
   exists elapsed,
     handler E event w
     = (JObj [ ("error",
                JStr ("'" ++ py_type_name event
                      ++ "' object has no attribute 'get'"));
               ("status", JStr "FAILED");
               ("execution_time", JInt (Z.of_nat elapsed)) ], w))
  /\ (forall d input_data,
         event = JObj d ->
         dict_get "input" d = Some input_data ->
         (forall d', input_data <> JObj d') ->
         exists elapsed,
           handler E event w
           = (JObj [ ("error",
                      JStr ("'" ++ py_type_name input_data
                            ++ "' object has no attribute 'get'"));
                     ("status", JStr "FAILED");
                     ("execution_time", JInt (Z.of_nat elapsed)) ], w)).
Proof.
  intros Hready. split.
  - intros Hnot. exists (clock w - clock w). unfold handler, handler_body.
    unfold Mon.bind at 1. unfold Mon.get_world. cbv beta iota.
    rewrite Hready. unfold Mon.bind at 1, Mon.ret at 1.
    unfold Mon.bind at 1, Mon.lift at 1.
    destruct event as [| | | | |d]; try (now elim (Hnot d)); reflexivity.
  - intros d input_data -> Hinput Hnot. exists (clock w - clock w).
    unfold handler, handler_body.
    unfold Mon.bind at 1. unfold Mon.get_world. cbv beta iota.
    rewrite Hready. unfold Mon.bind at 1, Mon.ret at 1.
    unfold Mon.bind at 1, Mon.lift at 1. cbn [py_get]. rewrite Hinput.
    unfold Mon.bind at 1, Mon.lift at 1.
    destruct input_data as [| | | | |d']; try (now elim (Hnot d'));
      reflexivity.
Qed.

Lemma handler_rejects_non_mappings_witness :
  exists elapsed,
    handler Scenario.good JNull Scenario.ready_world
    = (JObj [ ("error", JStr "'NoneType' object has no attribute 'get'");
              ("status", JStr "FAILED");
              ("execution_time", JInt (Z.of_nat elapsed)) ],
       Scenario.ready_world).
Proof.
  destruct (handler_rejects_non_mappings Scenario.good JNull
              Scenario.ready_world eq_refl) as [H _].
  apply H. intros d. discriminate.
Defined.

(** ** Failures along the pipeline *)



(** X20.  On a ready worker, once the graph is bound, queued and reported
    done, the answer depends on the files collected.  With none, it is the
    early FAILED mapping and nothing is uploaded.  With regular files, it is
    the COMPLETED mapping: one record per file, in collection order, each
    stored under a key made of the workflow name, the second at which
    delivery began and the file's index; the metadata carry the workflow
    name as given, the seconds elapsed since the invocation began and the
    handle the server gave. *)
Theorem handler_delivers (E : Env) (event input_data : dict)
        (workflow workflow' outputs : json) (prompt_id : string)
        (files : list string) (w w1 w2 : World) :
  comfyui_ready w = true ->
  input_of event = JObj input_data ->
  resolves_to E input_data workflow ->
  update_workflow_with_inputs E workflow (params_of input_data) w
  = (Ok workflow', w1) ->
  post_prompt E (calls w1) workflow' = Ok prompt_id ->
  wait_for_completion E prompt_id 600 (advance E w1 1 0) = (Ok outputs, w2) ->
  get_output_files E outputs = Ok files ->
  (files = [] ->
   handler E (JObj event) w
   = (JObj [ ("error", JStr "No output files generated");
             ("status", JStr "FAILED") ], w2))
  /\ (files <> [] ->
      forallb (is_regular E) files = true ->
      exists records,
        handler E (JObj event) w
        = (JObj [ ("status", JStr "COMPLETED");
                  ("outputs", JList records);
                  ("metadata",
                   JObj [ ("workflow_name", field "workflow_name" input_data);
                          ("execution_time",
                           JInt (Z.of_nat
                                   (clock (upload_world E w2
                                             (List.length files))
                                    - clock w)));
                          ("prompt_id", JStr prompt_id) ]) ],
           upload_world E w2 (List.length files))
        /\ List.length records = List.length files
        /\ forall k file_path,
             nth_error files k = Some file_path ->
             exists content,
               fs E file_path = Some (File content)
               /\ nth_error records k
                  = Some (delivery_record E file_path content
                            (s3_key_of E (field "workflow_name" input_data)
                                       (clock w2) k file_path)
                            (upload_world E w2 k))).
Proof.
  intros Hready Hinput Hres Hbind Hpost Hwait Hfiles.
  pose proof (handler_body_resolved E event input_data workflow (clock w) w
                Hready Hinput Hres) as Hbody.
  rewrite (bind_run _ _ _ _ _ Hbind) in Hbody.
  rewrite (bind_run _ _ prompt_id w1 (advance E w1 1 0)) in Hbody
    by now rewrite queue_workflow_run, Hpost.
  rewrite (bind_run _ _ _ _ _ Hwait) in Hbody.
  rewrite Hfiles, bind_lift_ok in Hbody.
  split.
  - intros ->. unfold handler. now rewrite Hbody.
  - intros Hsome Hreg.
    destruct (deliver_from_regular E (field "workflow_name" input_data)
                (clock w2) files 0 w2 Hreg) as (records & Hrun & Hlen & Hall).
    exists records. split; [|split; assumption].
    unfold handler. rewrite Hbody.
    destruct files as [|file_path files']; [now elim Hsome|].
    unfold handler_deliver, Mon.bind at 1, time_time.
    unfold Mon.bind at 1. rewrite Hrun. reflexivity.
Qed.

Lemma handler_delivers_witness :
  exists records,
    handler Scenario.good
      (JObj [ ("input",
               JObj [ ("workflow_json",
                       JObj [ ("9", JObj [ ("class_type",
                                            JStr "SaveImage") ]) ]) ]) ])
      Scenario.ready_world
    = (JObj [ ("status", JStr "COMPLETED");
              ("outputs", JList records);
              ("metadata",
               JObj [ ("workflow_name", JNull);
                      ("execution_time", JInt 2);
                      ("prompt_id", JStr "abc") ]) ],
       {| comfyui_process := Some 1; comfyui_ready := true;
          clock := 102; calls := 10 |})
    /\ List.length records = 1.
Proof.
  destruct (handler_delivers Scenario.good
              [ ("input",
                 JObj [ ("workflow_json",
                         JObj [ ("9", JObj [ ("class_type",
                                              JStr "SaveImage") ]) ]) ]) ]
              [ ("workflow_json",
                 JObj [ ("9", JObj [ ("class_type", JStr "SaveImage") ]) ]) ]
              (JObj [ ("9", JObj [ ("class_type", JStr "SaveImage") ]) ])
              (JObj [ ("9", JObj [ ("class_type", JStr "SaveImage") ]) ])
              Scenario.cat_manifest "abc" ["/comfyui/output/cat.png"]
              Scenario.ready_world Scenario.ready_world
              {| comfyui_process := Some 1; comfyui_ready := true;
                 clock := 102; calls := 9 |}
              eq_refl eq_refl (or_introl (conj eq_refl eq_refl))
              eq_refl eq_refl
              ltac:(vm_compute; reflexivity) eq_refl) as [_ H].
  destruct (H ltac:(discriminate) eq_refl) as (records & Hrun & Hlen & _).
  exists records. split; [exact Hrun | exact Hlen].
Defined.

(** ** Storage keys *)

Lemma str_app_inv_head (a b c : string) : a ++ b = a ++ c -> b = c.
Proof.
  induction a as [|x a IH]; cbn [append]; [auto|].
  intros [= H]. now apply IH.
Qed.

Lemma string_of_uint_digits (d : Decimal.uint) :
  all_digits (NilEmpty.string_of_uint d) = true.
Proof.
  induction d; cbn [NilEmpty.string_of_uint all_digits]; try reflexivity;
    rewrite IHd; reflexivity.
Qed.

Lemma nat_str_digits (n : nat) : all_digits (nat_str n) = true.
Proof.
  unfold nat_str, NilZero.string_of_uint.
  destruct (Nat.to_uint n); try reflexivity; apply string_of_uint_digits.
Qed.

Lemma little_succ_not_nil (d : Decimal.uint) :
  Decimal.Little.succ d <> Decimal.Nil.
Proof.
  destruct d; discriminate.
Qed.

Lemma to_uint_not_nil (n : nat) : Nat.to_uint n <> Decimal.Nil.
Proof.
  rewrite Unsigned.to_uint_alt. intros H. apply DecimalFacts.rev_nil_inv in H.
  destruct n as [|n].
  - discriminate H.
  - rewrite Unsigned.to_lu_succ in H. now apply little_succ_not_nil in H.
Qed.

Lemma nat_str_inj (i j : nat) : nat_str i = nat_str j -> i = j.
Proof.
  unfold nat_str. intros H. apply Unsigned.to_uint_inj.
  pose proof (NilZero.usu _ (to_uint_not_nil i)) as Hi.
  pose proof (NilZero.usu _ (to_uint_not_nil j)) as Hj.
  rewrite H in Hi. congruence.
Qed.

Lemma digits_app_inj (s1 s2 e1 e2 : string) :
  all_digits s1 = true -> all_digits s2 = true ->
  no_leading_digit e1 = true -> no_leading_digit e2 = true ->
  s1 ++ e1 = s2 ++ e2 -> s1 = s2.
Proof.
  revert s2. induction s1 as [|c s1 IH]; intros [|c' s2];
    cbn [append all_digits]; intros H1 H2 He1 He2 Heq.
  - reflexivity.
  - subst e1. cbn [no_leading_digit] in He1.
    apply andb_true_iff in H2. destruct H2 as [H2 _].
    now rewrite H2 in He1.
  - subst e2. cbn [no_leading_digit] in He2.
    apply andb_true_iff in H1. destruct H1 as [H1 _].
    now rewrite H1 in He2.
  - injection Heq as <- Heq.
    apply andb_true_iff in H1, H2.
    f_equal. apply IH; tauto.
Qed.

Lemma split_last_dot_suffix (b pre suf : string) :
  split_last_dot b = Some (pre, suf) -> exists t, suf = String dot t.
Proof.
  revert pre. induction b as [|c b IH]; intros pre; [discriminate|].
  cbn [split_last_dot].
  destruct (split_last_dot b) as [[pre' suf']|].
  - intros [= _ <-]. now apply (IH pre').
  - destruct (Ascii.eqb_spec c dot) as [->|_]; [|discriminate].
    intros [= _ <-]. now exists b.
Qed.

Lemma splitext_no_leading_digit (p : string) :
  no_leading_digit (splitext_ext p) = true.
Proof.
  unfold splitext_ext.
  destruct (split_last_dot (os_path_basename p)) as [[pre suf]|] eqn:Hsplit;
    [|reflexivity].
  destruct (all_dots pre); [reflexivity|].
  apply split_last_dot_suffix in Hsplit. destruct Hsplit as (t & ->).
  reflexivity.
Qed.

Lemma s3_key_of_inj (E : Env) (workflow_name : json) (timestamp i j : nat)
      (file_path file_path' : string) :
  s3_key_of E workflow_name timestamp i file_path
  = s3_key_of E workflow_name timestamp j file_path' ->
  i = j.
Proof.
  intros Heq. unfold s3_key_of in Heq.
  do 5 apply str_app_inv_head in Heq.
  apply nat_str_inj.
  apply (digits_app_inj _ _ _ _ (nat_str_digits i) (nat_str_digits j)
           (splitext_no_leading_digit file_path)
           (splitext_no_leading_digit file_path') Heq).
Qed.

Lemma str_app_assoc (a b c : string) : (a ++ b) ++ c = a ++ b ++ c.
Proof.
  induction a as [|x a IH]; cbn [append]; [reflexivity | now rewrite IH].
Qed.

Section UploadedKeys.
Variable E : Env.

(** Every url is the same prefix followed by the key. *)
Lemma upload_to_s3_prefix :
  s3_configured E = true ->
  (forall n p b k, s3_upload_file E n p b k = None) ->
  exists prefix,
    forall file_path s3_key w,
      upload_to_s3 E file_path s3_key w
      = (Ok (prefix ++ s3_key), advance E w 1 0).
Proof.
  intros configured accepted.
  exists ((if str_endswith_char slash (env_value (S3_ENDPOINT_URL E))
           then str_drop_last (env_value (S3_ENDPOINT_URL E))
           else env_value (S3_ENDPOINT_URL E))
          ++ "/" ++ env_value (S3_BUCKET E) ++ "/").
  intros file_path s3_key w.
  unfold upload_to_s3. rewrite configured. cbn [negb].
  unfold Mon.bind, external. rewrite advance_one, accepted.
  unfold Mon.ret. do 2 f_equal.
  now rewrite !str_app_assoc.
Qed.

Lemma deliver_from_uploaded (prefix : string) (workflow_name : json)
      (timestamp : nat) (files : list string) (i0 : nat) (w : World) :
  (forall file_path s3_key w0,
      upload_to_s3 E file_path s3_key w0
      = (Ok (prefix ++ s3_key), advance E w0 1 0)) ->
  exists records,
    deliver_from E workflow_name timestamp i0 files w
    = (Ok records, advance E w (List.length files) 0)
    /\ List.length records = List.length files
    /\ forall k record,
         nth_error records k = Some record ->
         exists file_path,
           url_of record
           = Some (prefix ++ s3_key_of E workflow_name timestamp (i0 + k)
                               file_path).
Proof.
  intros Hup. revert i0 w.
  induction files as [|file_path files IH]; intros i0 w.
  - exists []. rewrite advance_0_0. repeat split.
    intros [|k] ? H; discriminate.
  - destruct (IH (S i0) (advance E w 1 0)) as (records & Hrun & Hlen & Hall).
    eexists. split; [|split].
    + cbn [deliver_from]. unfold Mon.bind at 1.
      unfold deliver_file, Mon.try_except, Mon.bind at 1.
      fold (s3_key_of E workflow_name timestamp i0 file_path).
      rewrite Hup. unfold Mon.ret at 1. unfold Mon.bind at 1.
      rewrite Hrun. unfold Mon.ret. rewrite advance_advance. reflexivity.
    + cbn [List.length]. now rewrite Hlen.
    + intros [|k] record Hnth; cbn [nth_error] in Hnth.
      * injection Hnth as <-. exists file_path.
        now rewrite Nat.add_0_r.
      * destruct (Hall k record Hnth) as (path & Hurl).
        exists path. rewrite Hurl.
        now replace (S i0 + k) with (i0 + S k) by lia.
Qed.

End UploadedKeys.

(** X21.  Within one delivery no two files are stored under the same key:
    when the storage is configured and accepts every upload, the loop
    returns one record per file, every record carries a url, and the urls
    of records at different positions differ, whatever the files' names and
    extensions are. *)
Theorem s3_keys_differ (E : Env) (workflow_name : json) (timestamp : nat)
        (files : list string) (w : World) :
  s3_configured E = true ->
  (forall n p b k, s3_upload_file E n p b k = None) ->
  exists records,
    fst (deliver_from E workflow_name timestamp 0 files w) = Ok records
    /\ List.length records = List.length files
    /\ forall i j record_i record_j,
         i <> j ->
         nth_error records i = Some record_i ->
         nth_error records j = Some record_j ->
         exists url_i url_j,
           url_of record_i = Some url_i
           /\ url_of record_j = Some url_j
           /\ url_i <> url_j.
Proof.
  intros Hconf Hacc.
  destruct (upload_to_s3_prefix E Hconf Hacc) as (prefix & Hup).
  destruct (deliver_from_uploaded E prefix workflow_name timestamp files 0 w
              Hup) as (records & Hrun & Hlen & Hall).
  exists records. rewrite Hrun. split; [reflexivity|]. split; [exact Hlen|].
  intros i j ri rj Hij Hi Hj.
  destruct (Hall i ri Hi) as (path_i & Hurl_i).
  destruct (Hall j rj Hj) as (path_j & Hurl_j).
  eexists. eexists. split; [exact Hurl_i|]. split; [exact Hurl_j|].
  intros Heq. apply str_app_inv_head in Heq.
  apply s3_key_of_inj in Heq. cbn [Nat.add] in Heq. contradiction.
Qed.

Lemma s3_keys_differ_witness :
  exists records,
    fst (deliver_from Scenario.good (JStr "t2v") 100 0
           ["/comfyui/output/cat.png"; "/comfyui/output/cat.png"]
           Scenario.ready_world) = Ok records
    /\ forall record_0 record_1,
         nth_error records 0 = Some record_0 ->
         nth_error records 1 = Some record_1 ->
         exists url_0 url_1,
           url_of record_0 = Some url_0
           /\ url_of record_1 = Some url_1
           /\ url_0 <> url_1.
Proof.
  destruct (s3_keys_differ Scenario.good (JStr "t2v") 100
              ["/comfyui/output/cat.png"; "/comfyui/output/cat.png"]
              Scenario.ready_world eq_refl (fun _ _ _ _ => eq_refl))
    as (records & Hrun & _ & Hall).
  exists records. split; [exact Hrun|].
  intros record_0 record_1. apply Hall. discriminate.
Defined.

(** ** A server that comes up *)

Section ComingUp.
Variable E : Env.

Lemma wait_until_ready_hit (retries p : nat) (w : World) :
  get_system_stats E (calls w) = Some 200%N ->
  wait_until_ready E (S retries) p w
  = (Ok tt,
     {| comfyui_process := comfyui_process w;
        comfyui_ready := true;
        clock := clock (advance E w 1 0);
        calls := calls (advance E w 1 0) |}).
Proof.
  intros Hcode. cbn [wait_until_ready].
  unfold Mon.bind at 1. unfold external at 1. rewrite advance_one, Hcode.
  reflexivity.
Qed.

(** The readiness loop when the [k] first status requests miss, the process
    stays alive, and the next request is answered with 200. *)
Lemma wait_until_ready_after (k retries p : nat) (w : World) :
  k < retries ->
  (forall j, j < k ->
             get_system_stats E (calls w + 2 * j) <> Some 200%N
             /\ proc_exited E p (calls w + 2 * j + 1) = false) ->
  get_system_stats E (calls w + 2 * k) = Some 200%N ->
  wait_until_ready E retries p w
  = (Ok tt,
     {| comfyui_process := comfyui_process w;
        comfyui_ready := true;
        clock := clock (advance E w (2 * k + 1) (2 * k));
        calls := calls (advance E w (2 * k + 1) (2 * k)) |}).
Proof.
  revert retries w. induction k as [|k IH]; intros retries w Hk Hmiss Hhit.
  - destruct retries as [|retries]; [lia|].
    rewrite Nat.add_0_r in Hhit.
    now rewrite (wait_until_ready_hit retries p w Hhit).
  - destruct retries as [|retries]; [lia|].
    destruct (Hmiss 0 ltac:(lia)) as [Hstat Hproc].
    rewrite Nat.add_0_r in Hstat, Hproc.
    rewrite (wait_until_ready_step E retries p w Hstat).
    replace (S (calls w)) with (calls w + 1) by lia. rewrite Hproc.
    rewrite (IH retries (advance E w 2 2)).
    + rewrite advance_advance. cbn [comfyui_process advance].
      replace (2 + (2 * k + 1)) with (2 * S k + 1) by lia.
      replace (2 + 2 * k) with (2 * S k) by lia.
      reflexivity.
    + lia.
    + intros j Hj. destruct (Hmiss (S j) ltac:(lia)) as [Hs Hp].
      cbn [calls advance].
      replace (calls w + 2 + 2 * j) with (calls w + 2 * S j) by lia.
      split; [exact Hs|].
      replace (calls w + 2 * S j + 1) with (calls w + 2 * S j + 1) by lia.
      exact Hp.
    + cbn [calls advance].
      replace (calls w + 2 + 2 * k) with (calls w + 2 * S k) by lia.
      exact Hhit.
Qed.

Lemma spawn_and_wait_after (p k : nat) (w : World) :
  popen E (calls w) = Ok p ->
  k < 60 ->
  (forall j, j < k ->
             get_system_stats E (calls w + 1 + 2 * j) <> Some 200%N
             /\ proc_exited E p (calls w + 1 + 2 * j + 1) = false) ->
  get_system_stats E (calls w + 1 + 2 * k) = Some 200%N ->
  spawn_and_wait E w
  = (Ok tt, ready_with p (advance E w (2 * k + 2) (2 * k))).
Proof.
  intros Hpopen Hk Hmiss Hhit.
  unfold spawn_and_wait, Mon.bind at 1, external at 1.
  rewrite Hpopen. unfold Mon.bind at 1, Mon.lift at 1.
  unfold Mon.bind at 1, set_process at 1.
  cbn [comfyui_process comfyui_ready clock calls].
  rewrite (wait_until_ready_after k 60 p); cbn [calls];
    [ | exact Hk
      | intros j Hj; replace (S (calls w)) with (calls w + 1) by lia;
        now apply Hmiss
      | replace (S (calls w)) with (calls w + 1) by lia; exact Hhit ].
  f_equal. unfold ready_with, advance.
  cbn [comfyui_process comfyui_ready clock calls].
  replace (2 * k + 2) with (S (2 * k + 1)) by lia. cbn [busy].
  f_equal; lia.
Qed.

End ComingUp.

(** X22.  A cold start against a server that answers the status request
    with 200 at the attempt after [k] misses, [k] below sixty, the process
    staying alive meanwhile: [start_comfyui] returns with the process
    recorded and the ready flag set, having slept two seconds after each
    miss and made the [2k + 2] calls of the spawn, the status requests and
    the looks at the process. *)
Theorem start_comfyui_waits (E : Env) (p k : nat) (w : World) :
  comfyui_process w = None ->
  popen E (calls w) = Ok p ->
  k < 60 ->
  (forall j, j < k ->
             get_system_stats E (calls w + 1 + 2 * j) <> Some 200%N
             /\ proc_exited E p (calls w + 1 + 2 * j + 1) = false) ->
  get_system_stats E (calls w + 1 + 2 * k) = Some 200%N ->
  start_comfyui E w
  = (Ok tt, ready_with p (advance E w (2 * k + 2) (2 * k))).
Proof.
  intros Hnone Hpopen Hk Hmiss Hhit.
  unfold start_comfyui, Mon.bind at 1, Mon.get_world. rewrite Hnone.
  now apply spawn_and_wait_after.
Qed.

Lemma start_comfyui_waits_witness :
  start_comfyui Scenario.good initial_world
  = (Ok tt, ready_with 1 (advance Scenario.good initial_world 4 2)).
Proof.
  apply (start_comfyui_waits Scenario.good 1 1 initial_world);
    try reflexivity; try lia.
  intros j Hj. assert (j = 0) as -> by lia.
  split; [discriminate | reflexivity].
Defined.

(** X23.  A recorded process that has exited, on a worker not yet ready, is
    forgotten and replaced: [start_comfyui] looks at it once, spawns a new
    server and waits for it as on a cold start; the handle recorded at the
    end is the new one. *)
Theorem start_comfyui_restarts (E : Env) (p0 p k : nat) (w : World) :
  comfyui_process w = Some p0 ->
  comfyui_ready w = false ->
  proc_exited E p0 (calls w) = true ->
  popen E (calls w + 1) = Ok p ->
  k < 60 ->
  (forall j, j < k ->
             get_system_stats E (calls w + 2 + 2 * j) <> Some 200%N
             /\ proc_exited E p (calls w + 2 + 2 * j + 1) = false) ->
  get_system_stats E (calls w + 2 + 2 * k) = Some 200%N ->
  start_comfyui E w
  = (Ok tt, ready_with p (advance E w (2 * k + 3) (2 * k))).
Proof.
  intros Hold Hready Hdead Hpopen Hk Hmiss Hhit.
  unfold start_comfyui, Mon.bind at 1, Mon.get_world.
  rewrite Hold, Hready.
  unfold Mon.bind at 1, external at 1. rewrite Hdead.
  unfold Mon.bind at 1, set_process at 1.
  cbn [comfyui_process comfyui_ready clock calls].
  rewrite (spawn_and_wait_after E p k); cbn [calls].
  - f_equal. unfold ready_with, advance.
    cbn [comfyui_process comfyui_ready clock calls].
    replace (2 * k + 3) with (S (2 * k + 2)) by lia. cbn [busy].
    f_equal; lia.
  - now replace (S (calls w)) with (calls w + 1) by lia.
  - exact Hk.
  - intros j Hj.
    replace (S (calls w) + 1 + 2 * j) with (calls w + 2 + 2 * j) by lia.
    now apply Hmiss.
  - now replace (S (calls w) + 1 + 2 * k) with (calls w + 2 + 2 * k) by lia.
Qed.

Lemma start_comfyui_restarts_witness :
  start_comfyui (with_proc_exited Scenario.good (fun p _ => Nat.eqb p 7))
    {| comfyui_process := Some 7; comfyui_ready := false;
       clock := 100; calls := 5 |}
  = (Ok tt,
     ready_with 1
       (advance (with_proc_exited Scenario.good (fun p _ => Nat.eqb p 7))
          {| comfyui_process := Some 7; comfyui_ready := false;
             clock := 100; calls := 5 |} 3 0)).
Proof.
  apply (start_comfyui_restarts
           (with_proc_exited Scenario.good (fun p _ => Nat.eqb p 7))
           7 1 0); try reflexivity; try lia.
Defined.
